(** * stm32-digit-classifier: the UART framing protocol and the inference
    pipeline of [Core/Src/main.c], as a shallow embedding.

    The program is an STM32F411 firmware.  A host sends the 5-byte token
    START followed by a 28x28 grayscale image (784 bytes); the firmware
    quantizes the image, runs a Cube-AI network on it and answers with the
    index of the largest of the ten output scores.

    Layout of this file:
    - fixed-width integers and the C library functions the code calls;
    - the HAL calls the code makes (a log of calls and the list of
      outstanding receive requests);
    - the inference engine as an interface;
    - the device state, the functions of main.c, the main loop as a
      program-counter machine, interrupts as events;
    - the properties. *)

From Stdlib Require Import ZArith List String Ascii Lia Bool DecimalString.
From stdpp Require Import base tactics list.
Import ListNotations.

Local Open Scope Z_scope.

(** ** Fixed-width integers *)

(** Conversion to [int8_t] (two's complement wrap-around). *)
Definition to_int8 (z : Z) : Z := (z + 128) mod 256 - 128.

Definition is_uint8 (z : Z) : Prop := 0 <= z < 256.
Definition is_int8 (z : Z) : Prop := -128 <= z < 128.

Definition is_uint8b (z : Z) : bool := (0 <=? z) && (z <? 256).

(** ** Constants of main.c *)

Definition IMG_SIZE : nat := 784.
Definition IMG_WIDTH : nat := 28.
Definition IMG_HEIGHT : nat := 28.
Definition NUM_CLASSES : nat := 10.

(** ** The C library *)

Definition CR : ascii := ascii_of_nat 13.
Definition LF : ascii := ascii_of_nat 10.
Definition CRLF : string := String CR (String LF EmptyString).

(** The bytes of a string literal. *)
Definition bytes_of_string (s : string) : list Z :=
  map (fun a => Z.of_nat (nat_of_ascii a)) (list_ascii_of_string s).

(** [memcmp a b n]: the difference of the first pair of bytes that differ
    among the first [n], 0 when there is none. *)
Fixpoint memcmp (a b : list Z) (n : nat) {struct n} : Z :=
  match n with
  | O => 0
  | S n' =>
      match a, b with
      | x :: a', y :: b' => if x =? y then memcmp a' b' n' else x - y
      | _, _ => 0
      end
  end.

(** [snprintf(buf, size, s)] with a format that expands to [s]: at most
    [size - 1] characters are stored. *)
Definition snprintf (size : nat) (s : string) : string :=
  substring 0 (size - 1)%nat s.

(** The expansion of [%d]. *)
Definition fmt_d (z : Z) : string :=
  DecimalString.NilZero.string_of_int (Z.to_int z).

(** ** Quantization: the first loop of ProcessInference

    [for (i = 0; i < IMG_SIZE; i++)
       input_buffer[i] = (int8_t)(img_buffer[i] - 128);] *)

Definition quantize_step (img : list Z) (inp : list Z) (i : nat) : list Z :=
  <[i := to_int8 (img !!! i - 128)]> inp.

Definition quantize (img inp : list Z) : list Z :=
  fold_left (quantize_step img) (seq 0 IMG_SIZE) inp.

(** ** Reduction: the second loop of ProcessInference

    [predicted_class = 0; max_prob = output_buffer[0];
     for (i = 1; i < NUM_CLASSES; i++)
       if (output_buffer[i] > max_prob)
         { max_prob = output_buffer[i]; predicted_class = i; }]

    The loop state is the pair (predicted_class, max_prob). *)

Definition find_max_step (out : list Z) (st : Z * Z) (i : nat) : Z * Z :=
  if out !!! i >? snd st then (Z.of_nat i, out !!! i) else st.

Definition find_max (out : list Z) : Z * Z :=
  fold_left (find_max_step out) (seq 1 (NUM_CLASSES - 1)%nat) (0, out !!! 0%nat).

Definition predicted_class_of (out : list Z) : Z := fst (find_max out).

(** ** Types of main.c *)

Inductive AppState_t : Set :=
| STATE_IDLE
| STATE_WAIT_START
| STATE_RECEIVE_IMAGE
| STATE_PROCESS_IMAGE.

(** The USART peripherals of the STM32F411; [huart2.Instance] is [USART2]. *)
Inductive USART_TypeDef : Set := USART1 | USART2 | USART6.

Definition USART_eqb (a b : USART_TypeDef) : bool :=
  match a, b with
  | USART1, USART1 | USART2, USART2 | USART6, USART6 => true
  | _, _ => false
  end.

(** The two buffers that are ever handed to the receiver. *)
Inductive RxBuf : Set := BUF_start_cmd | BUF_img.

(** ** The HAL, as the code sees it *)

(** A call to the HAL, as recorded in call order. *)
Inductive HalCall : Set :=
| Call_Transmit (bytes : string) (timeout : Z)
| Call_Receive_IT (buf : RxBuf) (size : nat)
| Call_Delay (ms : Z).

Definition HAL_MAX_DELAY : Z := 4294967295.

(** A receive request: the buffer to fill and the number of bytes. *)
Definition RxRequest : Set := RxBuf * nat.

(** ** The inference engine *)

Definition ai_handle : Set := Z.
Definition AI_HANDLE_NULL : ai_handle := 0.
(** A pointer to an [ai_buffer] descriptor; 0 is NULL. *)
Definition ai_buffer_ptr : Set := Z.
Definition AI_ERROR_NONE : Z := 0.

(** The Cube-AI runtime behind network.c ([ai_platform_network_create],
    [ai_platform_inputs_get], [ai_platform_network_process], ...) is a binary
    library; the functions of network.c that main.c calls only forward to it.
    They are taken as an interface.
    - [ai_network_create_and_init net]: the new value of [*network] and
      [err.type];
    - [ai_network_run net in out act x y]: run on the input data [x] that
      [in[0].data] points to, with [y] the present contents of the storage
      [out[0].data] points to and [act] the activations memory; returns the
      batch count, the activations and the output storage afterwards. *)
Record Engine : Type := {
  ai_network_create_and_init : ai_handle -> ai_handle * Z;
  ai_network_inputs_get : ai_handle -> ai_buffer_ptr;
  ai_network_outputs_get : ai_handle -> ai_buffer_ptr;
  ai_network_run :
    ai_handle -> ai_buffer_ptr -> ai_buffer_ptr ->
    list Z -> list Z -> list Z -> Z * list Z * list Z
}.

(** An engine is deterministic when the batch count and the output of a run
    are decided by the input data alone, whatever the activations memory and
    the output storage held before. *)
Definition deterministic_engine (E : Engine) : Prop :=
  forall net pin pout act act' x y y',
    let r := ai_network_run E net pin pout act x y in
    let r' := ai_network_run E net pin pout act' x y' in
    fst (fst r) = fst (fst r') /\ snd r = snd r'.

(** ** The device state *)

(** Program points of [main], named by the line of main.c they stand at. *)
Inductive MainPc : Set :=
| L274  (* if (AI_Init() != 0) *)
| L277  (* report "AI Init Failed!" *)
| L280  (* while(1) {} *)
| L284  (* HAL_Delay(200) *)
| L289  (* send the ready message *)
| L294  (* app_state = STATE_WAIT_START *)
| L295  (* HAL_UART_Receive_IT(start_cmd_buffer, 5) *)
| L308  (* if (rx_complete) *)
| L310  (* rx_complete = 0 *)
| L311  (* ProcessInference() *)
| L314  (* app_state = STATE_WAIT_START *)
| L315  (* HAL_UART_Receive_IT(start_cmd_buffer, 5) *)
| L319  (* if (rx_error) *)
| L321  (* rx_error = 0 *)
| L324  (* app_state = STATE_WAIT_START *)
| L325. (* HAL_UART_Receive_IT(start_cmd_buffer, 5) *)

(** The static variables of main.c, the program point of [main], and the
    two things the HAL holds for the code: the calls made so far and the
    receive requests that are outstanding. *)
Record Device : Type := {
  pc : MainPc;
  activations : list Z;
  network : ai_handle;
  ai_input : ai_buffer_ptr;
  ai_output : ai_buffer_ptr;
  img_buffer : list Z;
  input_buffer : list Z;
  output_buffer : list Z;
  app_state : AppState_t;
  start_cmd_buffer : list Z;
  rx_complete : Z;
  rx_error : Z;
  hal_calls : list HalCall;
  rx_pending : list RxRequest
}.

Definition set_pc (v : MainPc) (d : Device) : Device :=
  {| pc := v; activations := activations d; network := network d;
     ai_input := ai_input d; ai_output := ai_output d;
     img_buffer := img_buffer d; input_buffer := input_buffer d;
     output_buffer := output_buffer d; app_state := app_state d;
     start_cmd_buffer := start_cmd_buffer d; rx_complete := rx_complete d;
     rx_error := rx_error d; hal_calls := hal_calls d;
     rx_pending := rx_pending d |}.

Definition set_engine (net : ai_handle) (pin pout : ai_buffer_ptr)
    (d : Device) : Device :=
  {| pc := pc d; activations := activations d; network := net;
     ai_input := pin; ai_output := pout;
     img_buffer := img_buffer d; input_buffer := input_buffer d;
     output_buffer := output_buffer d; app_state := app_state d;
     start_cmd_buffer := start_cmd_buffer d; rx_complete := rx_complete d;
     rx_error := rx_error d; hal_calls := hal_calls d;
     rx_pending := rx_pending d |}.

Definition set_tensors (act inp out : list Z) (d : Device) : Device :=
  {| pc := pc d; activations := act; network := network d;
     ai_input := ai_input d; ai_output := ai_output d;
     img_buffer := img_buffer d; input_buffer := inp;
     output_buffer := out; app_state := app_state d;
     start_cmd_buffer := start_cmd_buffer d; rx_complete := rx_complete d;
     rx_error := rx_error d; hal_calls := hal_calls d;
     rx_pending := rx_pending d |}.

Definition set_img_buffer (v : list Z) (d : Device) : Device :=
  {| pc := pc d; activations := activations d; network := network d;
     ai_input := ai_input d; ai_output := ai_output d;
     img_buffer := v; input_buffer := input_buffer d;
     output_buffer := output_buffer d; app_state := app_state d;
     start_cmd_buffer := start_cmd_buffer d; rx_complete := rx_complete d;
     rx_error := rx_error d; hal_calls := hal_calls d;
     rx_pending := rx_pending d |}.

Definition set_start_cmd_buffer (v : list Z) (d : Device) : Device :=
  {| pc := pc d; activations := activations d; network := network d;
     ai_input := ai_input d; ai_output := ai_output d;
     img_buffer := img_buffer d; input_buffer := input_buffer d;
     output_buffer := output_buffer d; app_state := app_state d;
     start_cmd_buffer := v; rx_complete := rx_complete d;
     rx_error := rx_error d; hal_calls := hal_calls d;
     rx_pending := rx_pending d |}.

Definition set_app_state (v : AppState_t) (d : Device) : Device :=
  {| pc := pc d; activations := activations d; network := network d;
     ai_input := ai_input d; ai_output := ai_output d;
     img_buffer := img_buffer d; input_buffer := input_buffer d;
     output_buffer := output_buffer d; app_state := v;
     start_cmd_buffer := start_cmd_buffer d; rx_complete := rx_complete d;
     rx_error := rx_error d; hal_calls := hal_calls d;
     rx_pending := rx_pending d |}.

Definition set_rx_complete (v : Z) (d : Device) : Device :=
  {| pc := pc d; activations := activations d; network := network d;
     ai_input := ai_input d; ai_output := ai_output d;
     img_buffer := img_buffer d; input_buffer := input_buffer d;
     output_buffer := output_buffer d; app_state := app_state d;
     start_cmd_buffer := start_cmd_buffer d; rx_complete := v;
     rx_error := rx_error d; hal_calls := hal_calls d;
     rx_pending := rx_pending d |}.

Definition set_rx_error (v : Z) (d : Device) : Device :=
  {| pc := pc d; activations := activations d; network := network d;
     ai_input := ai_input d; ai_output := ai_output d;
     img_buffer := img_buffer d; input_buffer := input_buffer d;
     output_buffer := output_buffer d; app_state := app_state d;
     start_cmd_buffer := start_cmd_buffer d; rx_complete := rx_complete d;
     rx_error := v; hal_calls := hal_calls d;
     rx_pending := rx_pending d |}.

Definition set_hal (calls : list HalCall) (pend : list RxRequest)
    (d : Device) : Device :=
  {| pc := pc d; activations := activations d; network := network d;
     ai_input := ai_input d; ai_output := ai_output d;
     img_buffer := img_buffer d; input_buffer := input_buffer d;
     output_buffer := output_buffer d; app_state := app_state d;
     start_cmd_buffer := start_cmd_buffer d; rx_complete := rx_complete d;
     rx_error := rx_error d; hal_calls := calls;
     rx_pending := pend |}.

(** The state when [main] reaches its user code: statics hold their
    initializers (zero where there is none), no HAL call has been made. *)
Definition power_on (act : list Z) : Device :=
  {| pc := L274; activations := act; network := AI_HANDLE_NULL;
     ai_input := 0; ai_output := 0;
     img_buffer := repeat 0 IMG_SIZE; input_buffer := repeat 0 IMG_SIZE;
     output_buffer := repeat 0 NUM_CLASSES; app_state := STATE_IDLE;
     start_cmd_buffer := repeat 0 5%nat; rx_complete := 0;
     rx_error := 0; hal_calls := []; rx_pending := [] |}.

(** *** HAL calls

    The HAL driver (stm32f4xx_hal_uart.c) is not among the sources; the
    three functions main.c calls are modelled by what the spec says of the
    platform.  The status a call returns is not modelled: main.c never
    looks at it. *)

(** Modelled from the spec: [HAL_UART_Transmit] is missing; the spec gives
    it as [transmit_blocking(bytes, timeout)], a bounded blocking send.
    The [size] first bytes of [data] are handed to the transmitter. *)
Definition HAL_UART_Transmit (data : string) (size : nat) (timeout : Z)
    (d : Device) : Device :=
  set_hal (hal_calls d ++ [Call_Transmit (substring 0 size data) timeout])
          (rx_pending d) d.

(** Modelled from the spec: [HAL_UART_Receive_IT] is missing; the spec gives
    it as [receive_async(buffer, length)]: the request is outstanding until
    the platform reports it complete or failed. *)
Definition HAL_UART_Receive_IT (buf : RxBuf) (size : nat)
    (d : Device) : Device :=
  set_hal (hal_calls d ++ [Call_Receive_IT buf size])
          (rx_pending d ++ [(buf, size)]) d.

(** Modelled from the spec: [HAL_Delay] is missing; it is part of the
    platform's tick source and only recorded. *)
Definition HAL_Delay (ms : Z) (d : Device) : Device :=
  set_hal (hal_calls d ++ [Call_Delay ms]) (rx_pending d) d.

Definition strlen (s : string) : nat := String.length s.

(** The bytes handed to the transmitter so far, oldest first. *)
Definition transmit_of (c : HalCall) : list string :=
  match c with Call_Transmit s _ => [s] | _ => [] end.

Definition transmitted (d : Device) : list string :=
  flat_map transmit_of (hal_calls d).

(** ** The functions of main.c *)

Section Firmware.

Variable E : Engine.

Definition AI_Init (d : Device) : Device * Z :=
  let '(net, err_type) := ai_network_create_and_init E (network d) in
  let d1 := set_engine net (ai_input d) (ai_output d) d in
  if negb (err_type =? AI_ERROR_NONE) then (d1, -1)
  else
    let pin := ai_network_inputs_get E net in
    let pout := ai_network_outputs_get E net in
    let d2 := set_engine net pin pout d1 in
    if (pin =? 0) || (pout =? 0) then (d2, -1) else (d2, 0).

(** [AI_Run(input_buffer, output_buffer)], its only call. *)
Definition AI_Run (d : Device) : Device * Z :=
  if (network d =? AI_HANDLE_NULL) || (ai_input d =? 0) || (ai_output d =? 0)
  then (d, -1)
  else
    let '(batch, act, out) :=
      ai_network_run E (network d) (ai_input d) (ai_output d)
                     (activations d) (input_buffer d) (output_buffer d) in
    let d1 := set_tensors act (input_buffer d) out d in
    if negb (batch =? 1) then (d1, -1) else (d1, 0).

Definition SendResult (predicted_class : Z) (d : Device) : Device :=
  let result := snprintf 32 (fmt_d predicted_class ++ CRLF) in
  HAL_UART_Transmit result (strlen result) 1000 d.

(** The value of [HAL_GetTick()] is stored and never read; the call is left
    out. *)
Definition ProcessInference (d : Device) : Device :=
  let d1 :=
    set_tensors (activations d) (quantize (img_buffer d) (input_buffer d))
                (output_buffer d) d in
  let '(d2, ret) := AI_Run d1 in
  if ret =? 0 then
    SendResult (predicted_class_of (output_buffer d2)) d2
  else
    let err_msg := snprintf 48 ("ERROR: Inference failed" ++ CRLF) in
    HAL_UART_Transmit err_msg (strlen err_msg) 1000 d2.

Definition START : list Z := bytes_of_string "START".

Definition HAL_UART_RxCpltCallback (instance : USART_TypeDef)
    (d : Device) : Device :=
  if USART_eqb instance USART2 then
    match app_state d with
    | STATE_WAIT_START =>
        if memcmp (start_cmd_buffer d) START 5 =? 0 then
          HAL_UART_Receive_IT BUF_img IMG_SIZE
            (set_app_state STATE_RECEIVE_IMAGE d)
        else
          HAL_UART_Receive_IT BUF_start_cmd 5 d
    | STATE_RECEIVE_IMAGE =>
        set_app_state STATE_PROCESS_IMAGE (set_rx_complete 1 d)
    | _ => d
    end
  else d.

Definition HAL_UART_ErrorCallback (instance : USART_TypeDef)
    (d : Device) : Device :=
  if USART_eqb instance USART2 then
    let d1 := set_app_state STATE_IDLE (set_rx_error 1 d) in
    let err_msg := snprintf 48 ("ERROR: UART error" ++ CRLF) in
    HAL_UART_Transmit err_msg (strlen err_msg) 1000 d1
  else d.

(** One statement of [main], from the program point the device is at.  The
    peripheral bring-up before line 274 is left out. *)
Definition main_step (d : Device) : Device :=
  match pc d with
  | L274 =>
      let '(d1, r) := AI_Init d in
      if negb (r =? 0) then set_pc L277 d1 else set_pc L284 d1
  | L277 =>
      let msg := snprintf 64 ("AI Init Failed!" ++ CRLF) in
      set_pc L280 (HAL_UART_Transmit msg (strlen msg) 1000 d)
  | L280 => d
  | L284 => set_pc L289 (HAL_Delay 200 d)
  | L289 =>
      let ready_msg :=
        snprintf 64 ("STM32F411 Ready - Cube AI Initialized" ++ CRLF) in
      set_pc L294
        (HAL_UART_Transmit ready_msg (strlen ready_msg) HAL_MAX_DELAY d)
  | L294 => set_pc L295 (set_app_state STATE_WAIT_START d)
  | L295 => set_pc L308 (HAL_UART_Receive_IT BUF_start_cmd 5 d)
  | L308 => if negb (rx_complete d =? 0) then set_pc L310 d else set_pc L319 d
  | L310 => set_pc L311 (set_rx_complete 0 d)
  | L311 => set_pc L314 (ProcessInference d)
  | L314 => set_pc L315 (set_app_state STATE_WAIT_START d)
  | L315 => set_pc L319 (HAL_UART_Receive_IT BUF_start_cmd 5 d)
  | L319 => if negb (rx_error d =? 0) then set_pc L321 d else set_pc L308 d
  | L321 => set_pc L324 (set_rx_error 0 d)
  | L324 => set_pc L325 (set_app_state STATE_WAIT_START d)
  | L325 => set_pc L308 (HAL_UART_Receive_IT BUF_start_cmd 5 d)
  end.

Fixpoint main_steps (n : nat) (d : Device) : Device :=
  match n with
  | O => d
  | S n' => main_steps n' (main_step d)
  end.

(** ** Interrupts *)

(** The first [length data] bytes of a buffer overwritten by [data]. *)
Definition fill (old data : list Z) : list Z :=
  data ++ drop (length data) old.

Definition write_buf (buf : RxBuf) (data : list Z) (d : Device) : Device :=
  match buf with
  | BUF_start_cmd => set_start_cmd_buffer (fill (start_cmd_buffer d) data) d
  | BUF_img => set_img_buffer (fill (img_buffer d) data) d
  end.

Inductive Event : Type :=
| EvMain                          (* main executes one statement *)
| EvRxCplt (data : list Z)        (* the receive in progress completes *)
| EvRxError (partial : list Z).   (* the receive in progress fails *)

(** Modelled from the spec: the interrupt dispatch of the HAL driver
    ([HAL_UART_IRQHandler]) is missing.  The spec has the platform deliver
    exactly two events, receive-complete and receive-error, each for the
    buffer that was being filled: completion is signalled only once the
    requested number of bytes has arrived, and a receive error abandons the
    receive in progress.  So both events need an outstanding request and
    end it; the bytes that arrived are in the buffer when the callback runs.
    An interrupt runs to completion between two statements of [main];
    [None] when the event cannot occur. *)
Definition step (e : Event) (d : Device) : option Device :=
  match e with
  | EvMain => Some (main_step d)
  | EvRxCplt data =>
      match rx_pending d with
      | (buf, size) :: rest =>
          if (length data =? size)%nat && forallb is_uint8b data then
            Some (HAL_UART_RxCpltCallback USART2
                    (write_buf buf data (set_hal (hal_calls d) rest d)))
          else None
      | [] => None
      end
  | EvRxError partial =>
      match rx_pending d with
      | (buf, size) :: rest =>
          if (length partial <? size)%nat && forallb is_uint8b partial then
            Some (HAL_UART_ErrorCallback USART2
                    (write_buf buf partial (set_hal (hal_calls d) rest d)))
          else None
      | [] => None
      end
  end.

Fixpoint run (evs : list Event) (d : Device) : option Device :=
  match evs with
  | [] => Some d
  | e :: evs' =>
      match step e d with
      | Some d' => run evs' d'
      | None => None
      end
  end.

(** The states the device can be in: those some schedule of events leads
    to from power-on. *)
Definition reachable (d : Device) : Prop :=
  exists act evs, run evs (power_on act) = Some d.

End Firmware.

(** A stand-in engine for examples: it initializes, and a run copies the
    first ten input values to the output. *)
Definition echo_engine : Engine :=
  {| ai_network_create_and_init := fun _ => (1, AI_ERROR_NONE);
     ai_network_inputs_get := fun _ => 2;
     ai_network_outputs_get := fun _ => 3;
     ai_network_run := fun _ _ _ act x _ => (1, act, take NUM_CLASSES x) |}.

(** An engine whose initialization fails. *)
Definition dead_engine : Engine :=
  {| ai_network_create_and_init := fun _ => (0, 1);
     ai_network_inputs_get := fun _ => 0;
     ai_network_outputs_get := fun _ => 0;
     ai_network_run := fun _ _ _ act _ y => (0, act, y) |}.

(** ** What the pipeline answers *)

Section Outcome.

Variable E : Engine.

(** The outcome of the pipeline on the image in [img_buffer]: the predicted
    class when [AI_Run] returns 0, nothing when it returns -1. *)
Definition pipeline_result (d : Device) : option Z :=
  let d1 :=
    set_tensors (activations d) (quantize (img_buffer d) (input_buffer d))
                (output_buffer d) d in
  let '(d2, ret) := AI_Run E d1 in
  if ret =? 0 then Some (predicted_class_of (output_buffer d2)) else None.

(** The batch count the engine returns on the quantized image. *)
Definition batch_count (d : Device) : Z :=
  fst (fst (ai_network_run E (network d) (ai_input d) (ai_output d)
              (activations d) (quantize (img_buffer d) (input_buffer d))
              (output_buffer d))).

(** The handle and the descriptors [AI_Init] leaves when it succeeds. *)
Definition booted_network : ai_handle :=
  fst (ai_network_create_and_init E AI_HANDLE_NULL).
Definition booted_input : ai_buffer_ptr :=
  ai_network_inputs_get E booted_network.
Definition booted_output : ai_buffer_ptr :=
  ai_network_outputs_get E booted_network.

End Outcome.

(** The line sent for an outcome. *)
Definition response (r : option Z) : string :=
  match r with
  | Some c => fmt_d c ++ CRLF
  | None => "ERROR: Inference failed" ++ CRLF
  end.

Definition uart_error_msg : string := "ERROR: UART error" ++ CRLF.
Definition init_failed_msg : string := "AI Init Failed!" ++ CRLF.
Definition ready_msg : string :=
  "STM32F411 Ready - Cube AI Initialized" ++ CRLF.

(** ** Invariants of the reachable states *)

(** Program points of the start-up code, and those at which the engine has
    been initialized with success. *)
Definition in_boot (p : MainPc) : bool :=
  match p with
  | L274 | L277 | L280 | L284 | L289 | L294 | L295 => true
  | _ => false
  end.

Definition in_service (p : MainPc) : bool :=
  match p with
  | L274 | L277 | L280 => false
  | _ => true
  end.

(** The receiver is listening: no flag is raised and the one outstanding
    request is the one the protocol state stands for. *)
Definition listening (d : Device) : Prop :=
  rx_complete d = 0 /\ rx_error d = 0 /\
  ((app_state d = STATE_WAIT_START /\ rx_pending d = [(BUF_start_cmd, 5%nat)])
   \/ (app_state d = STATE_RECEIVE_IMAGE /\ rx_pending d = [(BUF_img, IMG_SIZE)])).

(** How flags, outstanding requests and the program point of [main] go
    together. *)
Definition phase_inv (d : Device) : Prop :=
  match pc d with
  | L274 | L277 | L280 | L284 | L289 | L294 =>
      rx_pending d = [] /\ rx_complete d = 0 /\ rx_error d = 0
  | L295 | L315 | L325 =>
      rx_pending d = [] /\ rx_complete d = 0 /\ rx_error d = 0 /\
      app_state d = STATE_WAIT_START
  | L308 | L319 =>
      listening d
      \/ (rx_pending d = [] /\ rx_complete d <> 0 /\ rx_error d = 0)
      \/ (rx_pending d = [] /\ rx_complete d = 0 /\ rx_error d <> 0)
  | L310 => rx_pending d = [] /\ rx_error d = 0
  | L311 | L314 | L324 =>
      rx_pending d = [] /\ rx_complete d = 0 /\ rx_error d = 0
  | L321 => rx_pending d = [] /\ rx_complete d = 0
  end.

(** The static data: the tensor keeps its size, and the engine handle and
    descriptors are the ones the start-up left. *)
Definition data_inv (E : Engine) (d : Device) : Prop :=
  length (input_buffer d) = IMG_SIZE /\
  (pc d = L274 -> network d = AI_HANDLE_NULL) /\
  (in_service (pc d) = true ->
     network d = booted_network E /\ ai_input d = booted_input E /\
     ai_output d = booted_output E).

Definition inv (E : Engine) (d : Device) : Prop :=
  phase_inv d /\ data_inv E d.

(** ** States used in examples *)

(** Start-up done, the first command receive armed. *)
Definition booted_echo : Device := main_steps echo_engine 5 (power_on []).

(** The image of a frame that is 200 at index 3 and 7 elsewhere. *)
Definition sample_frame : list Z :=
  [7; 7; 7; 200] ++ repeat 7 780%nat.

(** The state a schedule leads to from [d] (or [d] itself when an event of
    the schedule cannot occur). *)
Definition after (E : Engine) (evs : list Event) (d : Device) : Device :=
  match run E evs d with
  | Some d' => d'
  | None => d
  end.

(** START received, the image receive armed. *)
Definition receiving_image : Device :=
  after echo_engine [EvRxCplt START] booted_echo.

(** The image receive failed after three bytes. *)
Definition image_receive_failed : Device :=
  after echo_engine [EvRxError [9; 9; 9]] receiving_image.

(** The first frame answered, [main] polling again. *)
Definition frame_answered : Device :=
  after echo_engine
    ([EvRxCplt START; EvRxCplt sample_frame] ++ repeat EvMain 6) booted_echo.

(** START and a whole frame received, [main] has not polled yet. *)
Definition frame_received : Device :=
  after echo_engine [EvRxCplt START; EvRxCplt sample_frame] booted_echo.

(** The same, with [main] standing at the test of line 319 when the frame
    completes. *)
Definition frame_received_at_L319 : Device :=
  after echo_engine [EvMain; EvRxCplt START; EvRxCplt sample_frame]
        booted_echo.

(** [HAL_UART_ErrorCallback] entered while the completed frame has not been
    consumed: the handler itself raises [rx_error] next to [rx_complete]. *)
Definition error_after_frame_at_L308 : Device :=
  HAL_UART_ErrorCallback USART2 frame_received.

Definition error_after_frame_at_L319 : Device :=
  HAL_UART_ErrorCallback USART2 frame_received_at_L319.


(** ** The wire format and the buffer sizes *)

(** The size of the static array behind a receive buffer:
    [start_cmd_buffer[5]] and [img_buffer[IMG_SIZE]]. *)
Definition buf_size (b : RxBuf) : nat :=
  match b with
  | BUF_start_cmd => 5%nat
  | BUF_img => IMG_SIZE
  end.

(** The line [SendResult] builds for a class. *)
Definition digit_line (c : Z) : string := fmt_d c ++ CRLF.

(** Every line main.c can put on the wire. *)
Definition protocol_lines : list string :=
  [ready_msg; init_failed_msg; uart_error_msg; response None] ++
  map digit_line [0; 1; 2; 3; 4; 5; 6; 7; 8; 9].

(** A HAL call that stays within the protocol: a transmit sends one of the
    protocol lines, a receive asks for exactly the size of its buffer. *)
Definition call_ok (c : HalCall) : Prop :=
  match c with
  | Call_Transmit s _ => In s protocol_lines
  | Call_Receive_IT b n => n = buf_size b
  | Call_Delay _ => True
  end.

Definition request_ok (r : RxRequest) : Prop := snd r = buf_size (fst r).

(** The receive requests made so far, oldest first. *)
Definition receive_of (c : HalCall) : list RxRequest :=
  match c with Call_Receive_IT b n => [(b, n)] | _ => [] end.

Definition receives (d : Device) : list RxRequest :=
  flat_map receive_of (hal_calls d).

(** The calls stay within the protocol and the static arrays keep their
    declared sizes. *)
Definition wire_inv (d : Device) : Prop :=
  Forall call_ok (hal_calls d) /\ Forall request_ok (rx_pending d) /\
  length (start_cmd_buffer d) = 5%nat /\ length (img_buffer d) = IMG_SIZE.

(** What an engine that reported a successful start-up has given. *)
Definition engine_started (E : Engine) : Prop :=
  snd (ai_network_create_and_init E AI_HANDLE_NULL) = AI_ERROR_NONE /\
  booted_input E <> 0 /\ booted_output E <> 0.

(** What the protocol state says while a flag is raised and during
    start-up. *)
Definition app_inv (d : Device) : Prop :=
  (rx_complete d <> 0 -> app_state d = STATE_PROCESS_IMAGE) /\
  (rx_error d <> 0 -> app_state d = STATE_IDLE) /\
  (in_boot (pc d) = true -> pc d <> L295 -> app_state d = STATE_IDLE).

(** [main], left alone for [n] statements, is polling at line 308 with the
    receiver listening. *)
Definition settles (E : Engine) (n : nat) (d : Device) : Prop :=
  pc (main_steps E n d) = L308 /\ listening (main_steps E n d).

(** ** network.c: the generated tables

    The arrays, tensors and layers that network.c declares, and the two
    functions that give the arrays their addresses. *)

Module Network.

(** Element formats of [AI_ARRAY_OBJ_DECLARE]. *)
Inductive ArrayFormat : Set :=
| AI_ARRAY_FORMAT_S8 | AI_ARRAY_FORMAT_S16 | AI_ARRAY_FORMAT_S32.

Definition elem_bytes (f : ArrayFormat) : Z :=
  match f with
  | AI_ARRAY_FORMAT_S8 => 1
  | AI_ARRAY_FORMAT_S16 => 2
  | AI_ARRAY_FORMAT_S32 => 4
  end.

(** Array#0 to Array#20 of the array declarations section.  (The array
    [nl_7_nl_params] of the layer section is declared with its data and is
    not given an address later; it is not listed.) *)
Inductive ArrayId : Set :=
| serving_default_keras_tensor0_output_array
| conv2d_0_output_array
| conv2d_2_output_array
| gemm_5_output_array
| gemm_6_output_array
| nl_7_output_array
| conv2d_0_weights_array
| conv2d_0_bias_array
| conv2d_2_weights_array
| conv2d_2_bias_array
| gemm_5_weights_array
| gemm_5_bias_array
| gemm_6_weights_array
| gemm_6_bias_array
| conv2d_0_scratch0_array
| conv2d_0_scratch1_array
| conv2d_2_scratch0_array
| conv2d_2_scratch1_array
| gemm_5_scratch0_array
| gemm_6_scratch0_array
| nl_7_scratch0_array.

Definition all_arrays : list ArrayId :=
  [serving_default_keras_tensor0_output_array; conv2d_0_output_array;
   conv2d_2_output_array; gemm_5_output_array; gemm_6_output_array;
   nl_7_output_array; conv2d_0_weights_array; conv2d_0_bias_array;
   conv2d_2_weights_array; conv2d_2_bias_array; gemm_5_weights_array;
   gemm_5_bias_array; gemm_6_weights_array; gemm_6_bias_array;
   conv2d_0_scratch0_array; conv2d_0_scratch1_array;
   conv2d_2_scratch0_array; conv2d_2_scratch1_array; gemm_5_scratch0_array;
   gemm_6_scratch0_array; nl_7_scratch0_array].

Definition ArrayId_eqb (a b : ArrayId) : bool :=
  match a, b with
  | serving_default_keras_tensor0_output_array,
    serving_default_keras_tensor0_output_array
  | conv2d_0_output_array, conv2d_0_output_array
  | conv2d_2_output_array, conv2d_2_output_array
  | gemm_5_output_array, gemm_5_output_array
  | gemm_6_output_array, gemm_6_output_array
  | nl_7_output_array, nl_7_output_array
  | conv2d_0_weights_array, conv2d_0_weights_array
  | conv2d_0_bias_array, conv2d_0_bias_array
  | conv2d_2_weights_array, conv2d_2_weights_array
  | conv2d_2_bias_array, conv2d_2_bias_array
  | gemm_5_weights_array, gemm_5_weights_array
  | gemm_5_bias_array, gemm_5_bias_array
  | gemm_6_weights_array, gemm_6_weights_array
  | gemm_6_bias_array, gemm_6_bias_array
  | conv2d_0_scratch0_array, conv2d_0_scratch0_array
  | conv2d_0_scratch1_array, conv2d_0_scratch1_array
  | conv2d_2_scratch0_array, conv2d_2_scratch0_array
  | conv2d_2_scratch1_array, conv2d_2_scratch1_array
  | gemm_5_scratch0_array, gemm_5_scratch0_array
  | gemm_6_scratch0_array, gemm_6_scratch0_array
  | nl_7_scratch0_array, nl_7_scratch0_array => true
  | _, _ => false
  end.

(** The format and the element count each array is declared with. *)
Definition array_format (a : ArrayId) : ArrayFormat :=
  match a with
  | conv2d_0_bias_array | conv2d_2_bias_array | gemm_5_bias_array
  | gemm_6_bias_array | nl_7_scratch0_array => AI_ARRAY_FORMAT_S32
  | gemm_5_scratch0_array | gemm_6_scratch0_array => AI_ARRAY_FORMAT_S16
  | _ => AI_ARRAY_FORMAT_S8
  end.

Definition array_size (a : ArrayId) : Z :=
  match a with
  | serving_default_keras_tensor0_output_array => 784
  | conv2d_0_output_array => 2704
  | conv2d_2_output_array => 800
  | gemm_5_output_array => 128
  | gemm_6_output_array => 10
  | nl_7_output_array => 10
  | conv2d_0_weights_array => 144
  | conv2d_0_bias_array => 16
  | conv2d_2_weights_array => 4608
  | conv2d_2_bias_array => 32
  | gemm_5_weights_array => 102400
  | gemm_5_bias_array => 128
  | gemm_6_weights_array => 1280
  | gemm_6_bias_array => 10
  | conv2d_0_scratch0_array => 548
  | conv2d_0_scratch1_array => 832
  | conv2d_2_scratch0_array => 6144
  | conv2d_2_scratch1_array => 704
  | gemm_5_scratch0_array => 1440
  | gemm_6_scratch0_array => 178
  | nl_7_scratch0_array => 124
  end.

(** The arrays declared with [AI_FMT_FLAG_IS_IO]. *)
Definition is_io (a : ArrayId) : bool :=
  match a with
  | serving_default_keras_tensor0_output_array | nl_7_output_array => true
  | _ => false
  end.

Definition array_bytes (a : ArrayId) : Z :=
  array_size a * elem_bytes (array_format a).

(** The sizes of the two buffers in [AI_NETWORK_OBJ_DECLARE]: weights, then
    activations. *)
Definition WEIGHTS_SIZE : Z := 109176.
Definition ACTIVATIONS_SIZE : Z := 9712.

(** The zero points of the input and output tensors
    ([serving_default_keras_tensor0_output_array_intq],
    [nl_7_output_array_intq]). *)
Definition INPUT_ZERO_POINT : Z := -128.
Definition OUTPUT_ZERO_POINT : Z := -128.

(** Addresses: [ai_ptr] is a byte pointer of the 32-bit target, held as its
    address in [0, 2^32); the null pointer is address 0.  [AI_PTR(p)] with
    [p] the sum of a base and a byte offset is that sum on 32 bits. *)
Definition ai_ptr : Set := Z.
Definition NULL : ai_ptr := 0.
Definition ADDRESS_SPACE : Z := 2 ^ 32.
Definition AI_PTR (addr : Z) : ai_ptr := addr mod ADDRESS_SPACE.
Arguments AI_PTR : simpl never.

(** What the code keeps for an array: [data], [data_start] and the flag
    [AI_FMT_FLAG_CONST] of its format. *)
Record ArrayState : Set := {
  data : ai_ptr;
  data_start : ai_ptr;
  is_const : bool
}.

Definition Arrays : Set := ArrayId -> ArrayState.

(** As declared: [AI_ARRAY_OBJ_DECLARE(name, format, NULL, NULL, size, ...)]. *)
Definition declared : Arrays :=
  fun _ => {| data := NULL; data_start := NULL; is_const := false |}.

(** [a.data = AI_PTR(addr); a.data_start = AI_PTR(addr);] with [addr] the
    sum [map[0] + offset]: a sum that is 0 on 32 bits leaves the array with
    the null pointer. *)
Definition set_data (st : Arrays) (p : ArrayId * Z) : Arrays :=
  fun x =>
    if ArrayId_eqb x (fst p) then
      {| data := AI_PTR (snd p); data_start := AI_PTR (snd p);
         is_const := is_const (st x) |}
    else st x.

(** [a.format |= AI_FMT_FLAG_CONST; a.data = AI_PTR(addr);
     a.data_start = AI_PTR(addr);]. *)
Definition set_const_data (st : Arrays) (p : ArrayId * Z) : Arrays :=
  fun x =>
    if ArrayId_eqb x (fst p) then
      {| data := AI_PTR (snd p); data_start := AI_PTR (snd p);
         is_const := true |}
    else st x.

(** The byte offsets [network_configure_activations] assigns, in the order
    of its statements. *)
Definition activation_offsets : list (ArrayId * Z) :=
  [(serving_default_keras_tensor0_output_array, 2344);
   (conv2d_0_scratch0_array, 3128);
   (conv2d_0_scratch1_array, 3676);
   (conv2d_0_output_array, 160);
   (conv2d_2_scratch0_array, 2864);
   (conv2d_2_scratch1_array, 9008);
   (conv2d_2_output_array, 0);
   (gemm_5_scratch0_array, 800);
   (gemm_5_output_array, 3680);
   (gemm_6_scratch0_array, 0);
   (gemm_6_output_array, 356);
   (nl_7_scratch0_array, 368);
   (nl_7_output_array, 0)].

(** The byte offsets [network_configure_weights] assigns. *)
Definition weight_offsets : list (ArrayId * Z) :=
  [(conv2d_0_weights_array, 0);
   (conv2d_0_bias_array, 144);
   (conv2d_2_weights_array, 208);
   (conv2d_2_bias_array, 4816);
   (gemm_5_weights_array, 4944);
   (gemm_5_bias_array, 107344);
   (gemm_6_weights_array, 107856);
   (gemm_6_bias_array, 109136)].

Definition at_base (base : Z) (p : ArrayId * Z) : ArrayId * Z :=
  (fst p, base + snd p).

(** [network_configure_activations]: [map] is what
    [ai_platform_get_activations_map] (not among the sources) leaves in
    [g_network_activations_map[0]], [None] when it returns false; the base
    it leaves is any address, the null one included.  The error recorded by
    [AI_ERROR_TRAP] is not modelled. *)
Definition network_configure_activations (map : option Z) (st : Arrays)
    : bool * Arrays :=
  match map with
  | Some base =>
      (true, fold_left set_data (List.map (at_base base) activation_offsets) st)
  | None => (false, st)
  end.

(** [network_configure_weights], with [map] for
    [ai_platform_get_weights_map]. *)
Definition network_configure_weights (map : option Z) (st : Arrays)
    : bool * Arrays :=
  match map with
  | Some base =>
      (true,
       fold_left set_const_data (List.map (at_base base) weight_offsets) st)
  | None => (false, st)
  end.

(** [ai_network_init]: [net_ctx] tells whether [ai_platform_network_init]
    gave a context, [post_init] is the result of
    [ai_platform_network_post_init]; [ok &= ...] evaluates each call. *)
Definition ai_network_init (net_ctx : bool) (wmap amap : option Z)
    (post_init : bool) (st : Arrays) : bool * Arrays :=
  if negb net_ctx then (false, st)
  else
    let ok := true in
    let '(w, st1) := network_configure_weights wmap st in
    let ok := ok && w in
    let '(a, st2) := network_configure_activations amap st1 in
    let ok := ok && a in
    let ok := ok && post_init in
    (ok, st2).

(** The offset an array is given, by either function. *)
Definition offset_in (tbl : list (ArrayId * Z)) (a : ArrayId) : option Z :=
  match List.find (fun p => ArrayId_eqb (fst p) a) tbl with
  | Some p => Some (snd p)
  | None => None
  end.

(** Tensor #0 to Tensor #21 of the tensor declarations section. *)
Inductive TensorId : Set :=
| conv2d_0_bias | conv2d_0_output | conv2d_0_scratch0 | conv2d_0_scratch1
| conv2d_0_weights | conv2d_2_bias | conv2d_2_output | conv2d_2_output0
| conv2d_2_scratch0 | conv2d_2_scratch1 | conv2d_2_weights | gemm_5_bias
| gemm_5_output | gemm_5_scratch0 | gemm_5_weights | gemm_6_bias
| gemm_6_output | gemm_6_scratch0 | gemm_6_weights | nl_7_output
| nl_7_scratch0 | serving_default_keras_tensor0_output.

Definition all_tensors : list TensorId :=
  [conv2d_0_bias; conv2d_0_output; conv2d_0_scratch0; conv2d_0_scratch1;
   conv2d_0_weights; conv2d_2_bias; conv2d_2_output; conv2d_2_output0;
   conv2d_2_scratch0; conv2d_2_scratch1; conv2d_2_weights; gemm_5_bias;
   gemm_5_output; gemm_5_scratch0; gemm_5_weights; gemm_6_bias;
   gemm_6_output; gemm_6_scratch0; gemm_6_weights; nl_7_output;
   nl_7_scratch0; serving_default_keras_tensor0_output].

(** [AI_SHAPE_INIT(4, d0, d1, d2, d3)] of a tensor. *)
Definition tensor_shape (t : TensorId) : list Z :=
  match t with
  | conv2d_0_bias => [1; 16; 1; 1]
  | conv2d_0_output => [1; 16; 13; 13]
  | conv2d_0_scratch0 => [1; 548; 1; 1]
  | conv2d_0_scratch1 => [1; 16; 26; 2]
  | conv2d_0_weights => [1; 3; 3; 16]
  | conv2d_2_bias => [1; 32; 1; 1]
  | conv2d_2_output => [1; 32; 5; 5]
  | conv2d_2_output0 => [1; 800; 1; 1]
  | conv2d_2_scratch0 => [1; 6144; 1; 1]
  | conv2d_2_scratch1 => [1; 32; 11; 2]
  | conv2d_2_weights => [16; 3; 3; 32]
  | gemm_5_bias => [1; 128; 1; 1]
  | gemm_5_output => [1; 128; 1; 1]
  | gemm_5_scratch0 => [1; 1440; 1; 1]
  | gemm_5_weights => [800; 128; 1; 1]
  | gemm_6_bias => [1; 10; 1; 1]
  | gemm_6_output => [1; 10; 1; 1]
  | gemm_6_scratch0 => [1; 178; 1; 1]
  | gemm_6_weights => [128; 10; 1; 1]
  | nl_7_output => [1; 10; 1; 1]
  | nl_7_scratch0 => [1; 124; 1; 1]
  | serving_default_keras_tensor0_output => [1; 1; 28; 28]
  end.

(** The array a tensor is declared over. *)
Definition tensor_array (t : TensorId) : ArrayId :=
  match t with
  | conv2d_0_bias => conv2d_0_bias_array
  | conv2d_0_output => conv2d_0_output_array
  | conv2d_0_scratch0 => conv2d_0_scratch0_array
  | conv2d_0_scratch1 => conv2d_0_scratch1_array
  | conv2d_0_weights => conv2d_0_weights_array
  | conv2d_2_bias => conv2d_2_bias_array
  | conv2d_2_output => conv2d_2_output_array
  | conv2d_2_output0 => conv2d_2_output_array
  | conv2d_2_scratch0 => conv2d_2_scratch0_array
  | conv2d_2_scratch1 => conv2d_2_scratch1_array
  | conv2d_2_weights => conv2d_2_weights_array
  | gemm_5_bias => gemm_5_bias_array
  | gemm_5_output => gemm_5_output_array
  | gemm_5_scratch0 => gemm_5_scratch0_array
  | gemm_5_weights => gemm_5_weights_array
  | gemm_6_bias => gemm_6_bias_array
  | gemm_6_output => gemm_6_output_array
  | gemm_6_scratch0 => gemm_6_scratch0_array
  | gemm_6_weights => gemm_6_weights_array
  | nl_7_output => nl_7_output_array
  | nl_7_scratch0 => nl_7_scratch0_array
  | serving_default_keras_tensor0_output =>
      serving_default_keras_tensor0_output_array
  end.

Definition shape_elems (t : TensorId) : Z :=
  fold_right Z.mul 1 (tensor_shape t).

(** The layers, with the four tensor lists of each chain (inputs, outputs,
    weights, scratch) and the layer that follows. *)
Inductive LayerId : Set :=
| conv2d_0_layer | conv2d_2_layer | gemm_5_layer | gemm_6_layer | nl_7_layer.

Definition all_layers : list LayerId :=
  [conv2d_0_layer; conv2d_2_layer; gemm_5_layer; gemm_6_layer; nl_7_layer].

Definition layer_inputs (l : LayerId) : list TensorId :=
  match l with
  | conv2d_0_layer => [serving_default_keras_tensor0_output]
  | conv2d_2_layer => [conv2d_0_output]
  | gemm_5_layer => [conv2d_2_output0]
  | gemm_6_layer => [gemm_5_output]
  | nl_7_layer => [gemm_6_output]
  end.

Definition layer_outputs (l : LayerId) : list TensorId :=
  match l with
  | conv2d_0_layer => [conv2d_0_output]
  | conv2d_2_layer => [conv2d_2_output]
  | gemm_5_layer => [gemm_5_output]
  | gemm_6_layer => [gemm_6_output]
  | nl_7_layer => [nl_7_output]
  end.

Definition layer_weights (l : LayerId) : list (option TensorId) :=
  match l with
  | conv2d_0_layer => [Some conv2d_0_weights; Some conv2d_0_bias; None]
  | conv2d_2_layer => [Some conv2d_2_weights; Some conv2d_2_bias; None]
  | gemm_5_layer => [Some gemm_5_weights; Some gemm_5_bias]
  | gemm_6_layer => [Some gemm_6_weights; Some gemm_6_bias]
  | nl_7_layer => []
  end.

Definition layer_scratch (l : LayerId) : list TensorId :=
  match l with
  | conv2d_0_layer => [conv2d_0_scratch0; conv2d_0_scratch1]
  | conv2d_2_layer => [conv2d_2_scratch0; conv2d_2_scratch1]
  | gemm_5_layer => [gemm_5_scratch0]
  | gemm_6_layer => [gemm_6_scratch0]
  | nl_7_layer => [nl_7_scratch0]
  end.

Definition layer_next (l : LayerId) : LayerId :=
  match l with
  | conv2d_0_layer => conv2d_2_layer
  | conv2d_2_layer => gemm_5_layer
  | gemm_5_layer => gemm_6_layer
  | gemm_6_layer => nl_7_layer
  | nl_7_layer => nl_7_layer
  end.

(** The network object: its input and output tensors and its first layer. *)
Definition network_inputs : list TensorId :=
  [serving_default_keras_tensor0_output].
Definition network_outputs : list TensorId := [nl_7_output].
Definition first_layer : LayerId := conv2d_0_layer.

(** The layers reached from [l] by following the next layer [n] times. *)
Fixpoint layers_from (n : nat) (l : LayerId) : list LayerId :=
  match n with
  | O => []
  | S n' => l :: layers_from n' (layer_next l)
  end.

(** The bytes an array occupies in its buffer: first byte and the byte past
    the last, by the offset tables. *)
Definition activation_range (a : ArrayId) : option (Z * Z) :=
  match offset_in activation_offsets a with
  | Some off => Some (off, off + array_bytes a)
  | None => None
  end.

Definition ranges_disjoint (r1 r2 : option (Z * Z)) : bool :=
  match r1, r2 with
  | Some (a1, b1), Some (a2, b2) => (b1 <=? a2) || (b2 <=? a1)
  | _, _ => false
  end.

End Network.

(** Reduce projections of updated states, and nothing else. *)
Ltac fields :=
  cbn [pc activations network ai_input ai_output img_buffer input_buffer
       output_buffer app_state start_cmd_buffer rx_complete rx_error
       hal_calls rx_pending
       set_pc set_engine set_tensors set_img_buffer set_start_cmd_buffer
       set_app_state set_rx_complete set_rx_error set_hal
       HAL_UART_Transmit HAL_UART_Receive_IT HAL_Delay fst snd] in *.

(** Unfold the phase invariant and reduce. *)
Ltac phase := unfold phase_inv, listening in *; fields.

(** * Properties *)

(** ** Fixed-width arithmetic *)

Lemma to_int8_in_range (z : Z) : is_int8 z -> to_int8 z = z.
Proof.
  unfold is_int8, to_int8. intros Hz.
  rewrite Z.mod_small by lia. lia.
Qed.

Lemma quantized_sample (v : Z) :
  is_uint8 v -> to_int8 (v - 128) = v - 128 /\ is_int8 (v - 128).
Proof.
  unfold is_uint8. intros Hv.
  assert (is_int8 (v - 128)) by (unfold is_int8; lia).
  split; [now apply to_int8_in_range | assumption].
Qed.

Lemma is_uint8b_spec (z : Z) : is_uint8b z = true <-> is_uint8 z.
Proof. unfold is_uint8b, is_uint8. rewrite andb_true_iff. lia. Qed.

(** ** The quantization loop *)

(** After the first [n] iterations the first [n] cells are written and the
    others are as before. *)
Lemma quantize_prefix (img : list Z) (n : nat) (inp : list Z) :
  let q := fold_left (quantize_step img) (seq 0 n) inp in
  length q = length inp /\
  (forall i, (i < n)%nat -> (i < length inp)%nat ->
             q !!! i = to_int8 (img !!! i - 128)) /\
  (forall i, (n <= i)%nat -> q !!! i = inp !!! i).
Proof.
  induction n as [|n IH]; cbv zeta.
  - simpl. repeat split; intros; lia.
  - rewrite seq_S, fold_left_app. cbn [fold_left Nat.add].
    cbv zeta in IH. destruct IH as (Hlen & Hlo & Hhi).
    set (q := fold_left (quantize_step img) (seq 0 n) inp) in *.
    unfold quantize_step.
    repeat split.
    + rewrite length_insert. exact Hlen.
    + intros i Hi Hil. destruct (decide (i = n)) as [->|Hne].
      * rewrite list_lookup_total_insert_eq by lia. reflexivity.
      * rewrite list_lookup_total_insert_ne by congruence.
        apply Hlo; lia.
    + intros i Hi. rewrite list_lookup_total_insert_ne by lia.
      apply Hhi. lia.
Qed.

Lemma quantize_length (img inp : list Z) :
  length (quantize img inp) = length inp.
Proof. apply (quantize_prefix img IMG_SIZE inp). Qed.

Lemma quantize_lookup (img inp : list Z) (i : nat) :
  (i < IMG_SIZE)%nat -> (i < length inp)%nat ->
  quantize img inp !!! i = to_int8 (img !!! i - 128).
Proof. intros. now apply (quantize_prefix img IMG_SIZE inp). Qed.

(** The tensor is decided by the image once the loop has covered it. *)
Lemma quantize_overwrites (img inp inp' : list Z) :
  length inp = IMG_SIZE -> length inp' = IMG_SIZE ->
  quantize img inp = quantize img inp'.
Proof.
  intros H1 H2. apply list_eq. intros i.
  destruct (decide (i < IMG_SIZE)%nat) as [Hi|Hi].
  - rewrite !list_lookup_lookup_total_lt
      by (rewrite quantize_length; lia).
    f_equal. rewrite !quantize_lookup by lia. reflexivity.
  - rewrite !lookup_ge_None_2 by (rewrite quantize_length; lia).
    reflexivity.
Qed.

Lemma lookup_map {A B : Type} (f : A -> B) (l : list A) (i : nat) :
  List.map f l !! i = option_map f (l !! i).
Proof.
  revert i. induction l as [|x l IH]; intros [|i]; cbn; auto.
Qed.

Lemma forallb_lookup_uint8 (l : list Z) (i : nat) (v : Z) :
  forallb is_uint8b l = true -> l !! i = Some v -> is_uint8 v.
Proof.
  intros Hall Hi. rewrite forallb_forall in Hall.
  apply is_uint8b_spec, Hall, list_elem_of_In, list_elem_of_lookup.
  exists i. exact Hi.
Qed.

(** For a 784-byte frame the tensor is the frame shifted by 128, whatever
    the tensor held before. *)
Lemma quantize_closed_form (img inp : list Z) :
  length img = IMG_SIZE -> length inp = IMG_SIZE ->
  forallb is_uint8b img = true ->
  quantize img inp = List.map (fun v => v - 128) img.
Proof.
  intros Himg Hinp Hb. apply list_eq. intros i. rewrite lookup_map.
  destruct (decide (i < IMG_SIZE)%nat) as [Hi|Hi].
  - rewrite (list_lookup_lookup_total_lt (quantize img inp))
      by (rewrite quantize_length; lia).
    rewrite (list_lookup_lookup_total_lt img) by lia. cbn [option_map].
    f_equal. rewrite quantize_lookup by lia.
    apply quantized_sample.
    apply (forallb_lookup_uint8 img i); [exact Hb|].
    apply list_lookup_lookup_total_lt. lia.
  - rewrite !lookup_ge_None_2; [reflexivity|lia|rewrite quantize_length; lia].
Qed.

(** ** The reduction loop *)

(** After the iterations for indices 1..n the loop state is the first index
    of the largest of [out[0..n]], with its value. *)
Lemma find_max_prefix (out : list Z) (n : nat) :
  let st := fold_left (find_max_step out) (seq 1 n) (0, out !!! 0%nat) in
  exists c : nat,
    fst st = Z.of_nat c /\ (c <= n)%nat /\ snd st = out !!! c /\
    (forall j, (j <= n)%nat -> out !!! j <= snd st) /\
    (forall j, (j < c)%nat -> out !!! j < snd st).
Proof.
  induction n as [|n IH]; cbv zeta.
  - exists 0%nat. simpl. repeat split; try lia.
    intros j Hj. replace j with 0%nat by lia. lia.
  - rewrite seq_S, fold_left_app. cbn [fold_left Nat.add].
    cbv zeta in IH. destruct IH as (c & Hc & Hcn & Hmx & Hle & Hlt).
    set (st := fold_left (find_max_step out) (seq 1 n) (0, out !!! 0%nat)) in *.
    unfold find_max_step.
    destruct (Z.gtb_spec (out !!! S n) (snd st)) as [Hgt|Hngt].
    + exists (S n). cbn [fst snd]. repeat split; try lia.
      * intros j Hj. destruct (decide (j = S n)) as [->|Hne]; [lia|].
        specialize (Hle j). lia.
      * intros j Hj. specialize (Hle j). lia.
    + exists c. repeat split; try assumption; try lia.
      intros j Hj. destruct (decide (j = S n)) as [->|Hne]; [lia|].
      apply Hle. lia.
Qed.

(** ** Frame properties of the pipeline *)

Lemma ProcessInference_input (E : Engine) (d : Device) :
  input_buffer (ProcessInference E d) =
  quantize (img_buffer d) (input_buffer d).
Proof.
  unfold ProcessInference, AI_Run, SendResult. fields.
  destruct (_ || _); [reflexivity|].
  destruct (ai_network_run _ _ _ _ _ _ _) as [[batch act] out].
  destruct (negb _); reflexivity.
Qed.

(** What the pipeline leaves alone: the image, the protocol state, the
    flags, the program point, the engine handle and the outstanding
    requests. *)
Lemma ProcessInference_frame (E : Engine) (d : Device) :
  let d' := ProcessInference E d in
  img_buffer d' = img_buffer d /\ app_state d' = app_state d /\
  rx_complete d' = rx_complete d /\ rx_error d' = rx_error d /\
  pc d' = pc d /\ rx_pending d' = rx_pending d /\
  start_cmd_buffer d' = start_cmd_buffer d /\
  network d' = network d /\ ai_input d' = ai_input d /\
  ai_output d' = ai_output d.
Proof.
  unfold ProcessInference, AI_Run, SendResult. fields.
  destruct (_ || _); [repeat split|].
  destruct (ai_network_run _ _ _ _ _ _ _) as [[batch act] out].
  destruct (negb _); repeat split.
Qed.

(** C3.  For a complete 784-byte frame in [img_buffer], ProcessInference
    leaves in [input_buffer] exactly [img_buffer[i] - 128] at every index
    [i < 784]: each value is in [-128, 127], the conversion to [int8_t]
    neither wraps nor clamps, the order of the samples is kept, the image
    itself is untouched, and this holds whatever the engine does (the
    function is total). *)
Theorem quantization_exact (E : Engine) (d : Device) :
  length (img_buffer d) = IMG_SIZE ->
  length (input_buffer d) = IMG_SIZE ->
  forallb is_uint8b (img_buffer d) = true ->
  let d' := ProcessInference E d in
  length (input_buffer d') = IMG_SIZE /\
  img_buffer d' = img_buffer d /\
  forall i, (i < IMG_SIZE)%nat ->
    input_buffer d' !!! i = img_buffer d !!! i - 128 /\
    is_int8 (input_buffer d' !!! i).
Proof.
  intros Himg Hinp Hbytes d'. subst d'.
  rewrite ProcessInference_input.
  split; [|split].
  - rewrite quantize_length. exact Hinp.
  - apply ProcessInference_frame.
  - intros i Hi. rewrite quantize_lookup by lia.
    assert (Hv : is_uint8 (img_buffer d !!! i)).
    { rewrite forallb_forall in Hbytes. apply is_uint8b_spec, Hbytes.
      apply list_elem_of_In, list_elem_of_lookup_total_2. lia. }
    destruct (quantized_sample _ Hv) as [-> Hr]. split; [reflexivity|exact Hr].
Qed.

Lemma quantization_exact_witness :
  let d' := ProcessInference echo_engine (set_img_buffer sample_frame (power_on [])) in
  length (input_buffer d') = IMG_SIZE /\
  img_buffer d' = sample_frame /\
  forall i, (i < IMG_SIZE)%nat ->
    input_buffer d' !!! i = sample_frame !!! i - 128 /\
    is_int8 (input_buffer d' !!! i).
Proof.
  apply (quantization_exact echo_engine
           (set_img_buffer sample_frame (power_on []))); reflexivity.
Defined.

(** C2.  For a 10-element output vector the predicted class is in [0, 10),
    holds a maximum of the vector, and every element before it is strictly
    smaller: the class is the first index of the maximum.  On a vector that
    starts 5, 5, 3 the class is never 1, and it is 0 when nothing after is
    above 5. *)
Theorem predicted_class_first_max (out : list Z) :
  length out = NUM_CLASSES ->
  let c := predicted_class_of out in
  0 <= c < Z.of_nat NUM_CLASSES /\
  (forall j, (j < NUM_CLASSES)%nat -> out !!! j <= out !!! Z.to_nat c) /\
  (forall j, (j < Z.to_nat c)%nat -> out !!! j < out !!! Z.to_nat c) /\
  (forall rest, out = 5 :: 5 :: 3 :: rest ->
     c <> 1 /\ (Forall (fun v => v <= 5) rest -> c = 0)).
Proof.
  intros Hlen c. subst c. unfold predicted_class_of, find_max.
  destruct (find_max_prefix out (NUM_CLASSES - 1)) as (c & Hc & Hcn & Hmx & Hle & Hlt).
  cbv zeta in *.
  set (st := fold_left (find_max_step out) (seq 1 (NUM_CLASSES - 1)) (0, out !!! 0%nat)) in *.
  rewrite Hc, Nat2Z.id. rewrite Hmx in Hle, Hlt.
  change (NUM_CLASSES - 1)%nat with 9%nat in *. change NUM_CLASSES with 10%nat in *.
  split; [lia|]. split; [intros j Hj; apply Hle; lia|]. split; [exact Hlt|].
  intros rest ->. split.
  - intros H1. assert (c = 1%nat) as -> by lia.
    specialize (Hlt 0%nat ltac:(lia)). cbn in Hlt. lia.
  - intros Hrest.
    destruct c as [|c]; [reflexivity|exfalso].
    specialize (Hlt 0%nat ltac:(lia)). cbn [lookup_total list_lookup_total] in Hlt.
    destruct c as [|[|c]]; cbn in Hlt; try lia.
    assert (Hin : (5 :: 5 :: 3 :: rest) !!! S (S (S c)) ∈ rest).
    { cbn. apply list_elem_of_lookup_total_2. cbn in Hlen. lia. }
    rewrite Forall_forall in Hrest. apply Hrest in Hin. cbn in Hin, Hlt. lia.
Qed.

Lemma predicted_class_first_max_witness :
  let out := [5; 5; 3; 0; -7; 5; 1; 2; 4; -128] in
  let c := predicted_class_of out in
  0 <= c < Z.of_nat NUM_CLASSES /\
  (forall j, (j < NUM_CLASSES)%nat -> out !!! j <= out !!! Z.to_nat c) /\
  (forall j, (j < Z.to_nat c)%nat -> out !!! j < out !!! Z.to_nat c) /\
  (forall rest, out = 5 :: 5 :: 3 :: rest ->
     c <> 1 /\ (Forall (fun v => v <= 5) rest -> c = 0)).
Proof.
  apply (predicted_class_first_max [5; 5; 3; 0; -7; 5; 1; 2; 4; -128]).
  reflexivity.
Defined.

(** ** The command token *)

Lemma START_bytes : START = [83; 84; 65; 82; 84].
Proof. reflexivity. Qed.

(** [memcmp] is 0 exactly when the first [n] bytes agree. *)
Lemma memcmp_zero_iff (n : nat) : forall a b : list Z,
  (n <= length a)%nat -> (n <= length b)%nat ->
  memcmp a b n = 0 <-> take n a = take n b.
Proof.
  induction n as [|n IH]; intros a b Ha Hb.
  - simpl. split; reflexivity.
  - destruct a as [|x a]; [simpl in Ha; lia|].
    destruct b as [|y b]; [simpl in Hb; lia|].
    simpl in Ha, Hb. cbn [memcmp take].
    destruct (Z.eqb_spec x y) as [->|Hne].
    + rewrite IH by lia. split; [intros ->; reflexivity|congruence].
    + split; [lia|congruence].
Qed.

Lemma memcmp_START (buf : list Z) :
  length buf = 5%nat -> memcmp buf START 5 = 0 <-> buf = START.
Proof.
  intros Hlen. rewrite memcmp_zero_iff by (rewrite ?Hlen; cbn; lia).
  rewrite <- Hlen at 1. rewrite firstn_all. reflexivity.
Qed.

(** C1.  A receive-complete event in STATE_WAIT_START on the 5-byte command
    buffer: when the five bytes are START the state becomes
    STATE_RECEIVE_IMAGE and the one HAL call made is a receive of 784 bytes
    into the image buffer; for every other content the state stays
    STATE_WAIT_START, the one HAL call made is a receive of 5 bytes into the
    command buffer, and nothing is transmitted.  Flags and buffers are left
    as they were. *)
Theorem rx_complete_in_wait_start (d : Device) :
  app_state d = STATE_WAIT_START ->
  length (start_cmd_buffer d) = 5%nat ->
  let d' := HAL_UART_RxCpltCallback USART2 d in
  (start_cmd_buffer d = START ->
     app_state d' = STATE_RECEIVE_IMAGE /\
     hal_calls d' = hal_calls d ++ [Call_Receive_IT BUF_img 784] /\
     rx_pending d' = rx_pending d ++ [(BUF_img, 784%nat)]) /\
  (start_cmd_buffer d <> START ->
     app_state d' = STATE_WAIT_START /\
     hal_calls d' = hal_calls d ++ [Call_Receive_IT BUF_start_cmd 5] /\
     rx_pending d' = rx_pending d ++ [(BUF_start_cmd, 5%nat)]) /\
  transmitted d' = transmitted d /\
  rx_complete d' = rx_complete d /\ rx_error d' = rx_error d /\
  pc d' = pc d /\ img_buffer d' = img_buffer d /\
  start_cmd_buffer d' = start_cmd_buffer d.
Proof.
  intros Hst Hlen d'. subst d'. unfold HAL_UART_RxCpltCallback.
  cbn [USART_eqb]. rewrite Hst.
  pose proof (memcmp_START _ Hlen) as Hcmp.
  destruct (Z.eqb_spec (memcmp (start_cmd_buffer d) START 5) 0) as [H0|H0].
  - fields. split; [intros _; repeat split|].
    split; [intros Hne; tauto|].
    unfold transmitted. fields. rewrite flat_map_app. cbn.
    rewrite app_nil_r. repeat split.
  - fields. split; [intros Heq; tauto|].
    split; [intros _; repeat split; exact Hst|].
    unfold transmitted. fields. rewrite flat_map_app. cbn.
    rewrite app_nil_r. repeat split.
Qed.

Lemma rx_complete_in_wait_start_witness :
  let d := set_start_cmd_buffer START booted_echo in
  let d' := HAL_UART_RxCpltCallback USART2 d in
  (start_cmd_buffer d = START ->
     app_state d' = STATE_RECEIVE_IMAGE /\
     hal_calls d' = hal_calls d ++ [Call_Receive_IT BUF_img 784] /\
     rx_pending d' = rx_pending d ++ [(BUF_img, 784%nat)]) /\
  (start_cmd_buffer d <> START ->
     app_state d' = STATE_WAIT_START /\
     hal_calls d' = hal_calls d ++ [Call_Receive_IT BUF_start_cmd 5] /\
     rx_pending d' = rx_pending d ++ [(BUF_start_cmd, 5%nat)]) /\
  transmitted d' = transmitted d /\
  rx_complete d' = rx_complete d /\ rx_error d' = rx_error d /\
  pc d' = pc d /\ img_buffer d' = img_buffer d /\
  start_cmd_buffer d' = start_cmd_buffer d.
Proof.
  apply (rx_complete_in_wait_start (set_start_cmd_buffer START booted_echo));
    reflexivity.
Defined.

(** C9.  A receive-complete callback in STATE_IDLE or STATE_PROCESS_IMAGE
    returns the device exactly as it was: no state change, no flag, no
    buffer write, no HAL call. *)
Theorem rx_complete_ignored (instance : USART_TypeDef) (d : Device) :
  app_state d = STATE_IDLE \/ app_state d = STATE_PROCESS_IMAGE ->
  HAL_UART_RxCpltCallback instance d = d.
Proof.
  intros Hst. unfold HAL_UART_RxCpltCallback.
  destruct (USART_eqb instance USART2); [|reflexivity].
  destruct Hst as [-> | ->]; reflexivity.
Qed.

Lemma rx_complete_ignored_witness :
  HAL_UART_RxCpltCallback USART2 (power_on []) = power_on [].
Proof.
  apply (rx_complete_ignored USART2 (power_on [])). left. reflexivity.
Defined.

(** ** What the pipeline transmits *)

Lemma predicted_class_range (out : list Z) :
  0 <= predicted_class_of out < 10.
Proof.
  unfold predicted_class_of, find_max.
  destruct (find_max_prefix out (NUM_CLASSES - 1)) as (c & Hc & Hcn & _).
  cbv zeta in *. rewrite Hc.
  change (NUM_CLASSES - 1)%nat with 9%nat in Hcn. lia.
Qed.

(** For a class in [0, 10) the line sent is the digit, CR, LF. *)
Lemma SendResult_calls (c : Z) (d : Device) :
  0 <= c < 10 ->
  hal_calls (SendResult c d) =
  hal_calls d ++ [Call_Transmit (fmt_d c ++ CRLF) 1000].
Proof.
  intros Hc. unfold SendResult. fields.
  assert (Hcases : c = 0 \/ c = 1 \/ c = 2 \/ c = 3 \/ c = 4 \/ c = 5 \/
                   c = 6 \/ c = 7 \/ c = 8 \/ c = 9) by lia.
  repeat (destruct Hcases as [-> | Hcases]); try subst c; reflexivity.
Qed.

Lemma ProcessInference_calls (E : Engine) (d : Device) :
  hal_calls (ProcessInference E d) =
  hal_calls d ++ [Call_Transmit (response (pipeline_result E d)) 1000].
Proof.
  unfold ProcessInference, pipeline_result.
  destruct (AI_Run E _) as [d2 ret] eqn:Hrun.
  assert (Hcalls : hal_calls d2 = hal_calls d).
  { unfold AI_Run in Hrun. fields.
    destruct (_ || _); [now inversion Hrun|].
    destruct (ai_network_run _ _ _ _ _ _ _) as [[batch act] out].
    destruct (negb _); now inversion Hrun. }
  destruct (ret =? 0).
  - rewrite SendResult_calls by apply predicted_class_range.
    rewrite Hcalls. reflexivity.
  - fields. rewrite Hcalls. reflexivity.
Qed.

(** The pipeline fails exactly when the engine was not initialized or the
    run does not return one batch. *)
Lemma pipeline_result_None (E : Engine) (d : Device) :
  pipeline_result E d = None <->
  (network d = AI_HANDLE_NULL \/ ai_input d = 0 \/ ai_output d = 0 \/
   batch_count E d <> 1).
Proof.
  unfold pipeline_result, batch_count, AI_Run. fields.
  destruct (Z.eqb_spec (network d) AI_HANDLE_NULL) as [Hn|Hn];
    [cbn [orb]; split; [tauto|reflexivity]|].
  destruct (Z.eqb_spec (ai_input d) 0) as [Hi|Hi];
    [cbn [orb]; split; [tauto|reflexivity]|].
  destruct (Z.eqb_spec (ai_output d) 0) as [Ho|Ho];
    [cbn [orb]; split; [tauto|reflexivity]|].
  cbn [orb].
  destruct (ai_network_run _ _ _ _ _ _ _) as [[batch act] out]. fields.
  destruct (Z.eqb_spec batch 1) as [Hb|Hb]; cbn [negb].
  - split; [discriminate|]. intros [?|[?|[?|?]]]; contradiction.
  - split; [tauto|reflexivity].
Qed.

Lemma pipeline_result_digit (E : Engine) (d : Device) (c : Z) :
  pipeline_result E d = Some c -> 0 <= c < 10.
Proof.
  unfold pipeline_result. destruct (AI_Run E _) as [d2 ret].
  destruct (ret =? 0); [|discriminate].
  intros [= <-]. apply predicted_class_range.
Qed.

(** ** The statements of main, one by one *)

Section MainSteps.

Variable E : Engine.

Lemma main_steps_S (n : nat) (d : Device) :
  main_steps E (S n) d = main_steps E n (main_step E d).
Proof. reflexivity. Qed.

Lemma main_steps_add (n m : nat) (d : Device) :
  main_steps E (n + m) d = main_steps E m (main_steps E n d).
Proof. revert d. induction n as [|n IH]; intros d; [reflexivity|apply IH]. Qed.

Lemma at_L308_set (d : Device) :
  pc d = L308 -> rx_complete d <> 0 -> main_step E d = set_pc L310 d.
Proof.
  intros Hpc Hrc. unfold main_step. rewrite Hpc.
  destruct (Z.eqb_spec (rx_complete d) 0); [contradiction|reflexivity].
Qed.

Lemma at_L308_clear (d : Device) :
  pc d = L308 -> rx_complete d = 0 -> main_step E d = set_pc L319 d.
Proof. intros Hpc Hrc. unfold main_step. rewrite Hpc, Hrc. reflexivity. Qed.

Lemma at_L310 (d : Device) :
  pc d = L310 -> main_step E d = set_pc L311 (set_rx_complete 0 d).
Proof. intros Hpc. unfold main_step. rewrite Hpc. reflexivity. Qed.

Lemma at_L311 (d : Device) :
  pc d = L311 -> main_step E d = set_pc L314 (ProcessInference E d).
Proof. intros Hpc. unfold main_step. rewrite Hpc. reflexivity. Qed.

Lemma at_L314 (d : Device) :
  pc d = L314 ->
  main_step E d = set_pc L315 (set_app_state STATE_WAIT_START d).
Proof. intros Hpc. unfold main_step. rewrite Hpc. reflexivity. Qed.

Lemma at_L315 (d : Device) :
  pc d = L315 ->
  main_step E d = set_pc L319 (HAL_UART_Receive_IT BUF_start_cmd 5 d).
Proof. intros Hpc. unfold main_step. rewrite Hpc. reflexivity. Qed.

Lemma at_L319_set (d : Device) :
  pc d = L319 -> rx_error d <> 0 -> main_step E d = set_pc L321 d.
Proof.
  intros Hpc Hre. unfold main_step. rewrite Hpc.
  destruct (Z.eqb_spec (rx_error d) 0); [contradiction|reflexivity].
Qed.

Lemma at_L319_clear (d : Device) :
  pc d = L319 -> rx_error d = 0 -> main_step E d = set_pc L308 d.
Proof. intros Hpc Hre. unfold main_step. rewrite Hpc, Hre. reflexivity. Qed.

Lemma at_L321 (d : Device) :
  pc d = L321 -> main_step E d = set_pc L324 (set_rx_error 0 d).
Proof. intros Hpc. unfold main_step. rewrite Hpc. reflexivity. Qed.

Lemma at_L324 (d : Device) :
  pc d = L324 ->
  main_step E d = set_pc L325 (set_app_state STATE_WAIT_START d).
Proof. intros Hpc. unfold main_step. rewrite Hpc. reflexivity. Qed.

Lemma at_L325 (d : Device) :
  pc d = L325 ->
  main_step E d = set_pc L308 (HAL_UART_Receive_IT BUF_start_cmd 5 d).
Proof. intros Hpc. unfold main_step. rewrite Hpc. reflexivity. Qed.

(** The block of lines 308-315 when a frame is complete. *)
Lemma complete_block (d : Device) :
  pc d = L308 -> rx_complete d <> 0 ->
  main_steps E 5 d =
  set_pc L319
    (HAL_UART_Receive_IT BUF_start_cmd 5
       (set_pc L315 (set_app_state STATE_WAIT_START
          (set_pc L314 (ProcessInference E
             (set_pc L311 (set_rx_complete 0 (set_pc L310 d)))))))).
Proof.
  intros Hpc Hrc.
  rewrite main_steps_S, at_L308_set by assumption.
  rewrite main_steps_S, at_L310 by reflexivity.
  rewrite main_steps_S, at_L311 by reflexivity.
  rewrite main_steps_S, at_L314 by reflexivity.
  rewrite main_steps_S, at_L315 by reflexivity.
  reflexivity.
Qed.

(** The block of lines 319-325 when the error flag is raised. *)
Lemma error_block (d : Device) :
  pc d = L319 -> rx_error d <> 0 ->
  main_steps E 4 d =
  set_pc L308
    (HAL_UART_Receive_IT BUF_start_cmd 5
       (set_pc L325 (set_app_state STATE_WAIT_START
          (set_pc L324 (set_rx_error 0 (set_pc L321 d)))))).
Proof.
  intros Hpc Hre.
  rewrite main_steps_S, at_L319_set by assumption.
  rewrite main_steps_S, at_L321 by reflexivity.
  rewrite main_steps_S, at_L324 by reflexivity.
  rewrite main_steps_S, at_L325 by reflexivity.
  reflexivity.
Qed.

End MainSteps.

(** ** The pipeline and the main loop *)

(** The outcome is decided by the image, the engine variables and the
    tensors; the protocol variables and the program point play no part. *)
Lemma pipeline_result_ext (E : Engine) (d1 d2 : Device) :
  activations d1 = activations d2 -> network d1 = network d2 ->
  ai_input d1 = ai_input d2 -> ai_output d1 = ai_output d2 ->
  img_buffer d1 = img_buffer d2 -> input_buffer d1 = input_buffer d2 ->
  output_buffer d1 = output_buffer d2 ->
  pipeline_result E d1 = pipeline_result E d2.
Proof.
  intros Ha Hn Hi Ho Himg Hinp Hout.
  unfold pipeline_result, AI_Run. fields.
  rewrite Ha, Hn, Hi, Ho, Himg, Hinp, Hout.
  destruct (_ || _); [reflexivity|].
  destruct (ai_network_run _ _ _ _ _ _ _) as [[batch act] out].
  destruct (negb _); reflexivity.
Qed.

(** A command buffer that holds START is accepted in STATE_WAIT_START. *)
Lemma START_accepted (d : Device) :
  app_state d = STATE_WAIT_START ->
  let d' := HAL_UART_RxCpltCallback USART2 (set_start_cmd_buffer START d) in
  app_state d' = STATE_RECEIVE_IMAGE /\
  hal_calls d' = hal_calls d ++ [Call_Receive_IT BUF_img IMG_SIZE] /\
  rx_pending d' = rx_pending d ++ [(BUF_img, IMG_SIZE)].
Proof.
  intros Hst. unfold HAL_UART_RxCpltCallback. cbn [USART_eqb]. fields.
  rewrite Hst. change (memcmp START START 5 =? 0) with true.
  fields. repeat split.
Qed.

(** Lines 308-315 on a raised completion flag. *)
Lemma complete_block_effect (E : Engine) (d : Device) :
  pc d = L308 -> rx_complete d <> 0 ->
  let d' := main_steps E 5 d in
  pc d' = L319 /\ app_state d' = STATE_WAIT_START /\ rx_complete d' = 0 /\
  rx_error d' = rx_error d /\
  hal_calls d' =
    hal_calls d ++ [Call_Transmit (response (pipeline_result E d)) 1000;
                    Call_Receive_IT BUF_start_cmd 5] /\
  rx_pending d' = rx_pending d ++ [(BUF_start_cmd, 5%nat)] /\
  input_buffer d' = quantize (img_buffer d) (input_buffer d) /\
  img_buffer d' = img_buffer d.
Proof.
  intros Hpc Hrc d'. subst d'. rewrite complete_block by assumption.
  set (d1 := set_pc L311 (set_rx_complete 0 (set_pc L310 d))).
  assert (Hres : pipeline_result E d1 = pipeline_result E d)
    by (apply pipeline_result_ext; reflexivity).
  pose proof (ProcessInference_frame E d1) as Hfr. cbv zeta in Hfr.
  destruct Hfr as (Himg & _ & Hc & Herr & _ & Hpend & _).
  pose proof (ProcessInference_calls E d1) as Hcalls. rewrite Hres in Hcalls.
  pose proof (ProcessInference_input E d1) as Hinp.
  split; [reflexivity|]. split; [reflexivity|].
  split; [fields; rewrite Hc; reflexivity|].
  split; [fields; rewrite Herr; reflexivity|].
  split; [fields; rewrite Hcalls; subst d1; fields;
          rewrite <- app_assoc; reflexivity|].
  split; [fields; rewrite Hpend; reflexivity|].
  split; [fields; rewrite Hinp; reflexivity|].
  fields. rewrite Himg. reflexivity.
Qed.

(** C5.  With a completed frame flagged, the five statements of lines
    308-315 clear the flag, run the pipeline, set STATE_WAIT_START and arm a
    5-byte command receive, whether the pipeline succeeds or fails.  The
    pipeline fails exactly when the engine handle or a descriptor is null or
    the batch count is not 1; in each of these cases the one line sent is
    "ERROR: Inference failed" CR LF.  Afterwards [main] is at its next
    statement (line 319), not halted, and START is accepted. *)
Theorem pipeline_completion (E : Engine) (d : Device) :
  pc d = L308 -> rx_complete d <> 0 ->
  let d' := main_steps E 5 d in
  pc d' = L319 /\ app_state d' = STATE_WAIT_START /\ rx_complete d' = 0 /\
  hal_calls d' =
    hal_calls d ++ [Call_Transmit (response (pipeline_result E d)) 1000;
                    Call_Receive_IT BUF_start_cmd 5] /\
  rx_pending d' = rx_pending d ++ [(BUF_start_cmd, 5%nat)] /\
  (pipeline_result E d = None <->
     network d = AI_HANDLE_NULL \/ ai_input d = 0 \/ ai_output d = 0 \/
     batch_count E d <> 1) /\
  (pipeline_result E d = None ->
     response (pipeline_result E d) =
     ("ERROR: Inference failed" ++ CRLF)%string) /\
  app_state (HAL_UART_RxCpltCallback USART2 (set_start_cmd_buffer START d'))
    = STATE_RECEIVE_IMAGE.
Proof.
  intros Hpc Hrc d'.
  destruct (complete_block_effect E d Hpc Hrc)
    as (B1 & B2 & B3 & _ & B5 & B6 & _).
  fold d' in B1, B2, B3, B5, B6.
  repeat (split; [assumption|]).
  split; [apply pipeline_result_None|].
  split; [intros ->; reflexivity|].
  apply START_accepted. exact B2.
Qed.

Lemma pipeline_completion_witness :
  let d := frame_received in
  let d' := main_steps echo_engine 5 d in
  pc d' = L319 /\ app_state d' = STATE_WAIT_START /\ rx_complete d' = 0 /\
  hal_calls d' =
    hal_calls d ++ [Call_Transmit (response (pipeline_result echo_engine d)) 1000;
                    Call_Receive_IT BUF_start_cmd 5] /\
  rx_pending d' = rx_pending d ++ [(BUF_start_cmd, 5%nat)] /\
  (pipeline_result echo_engine d = None <->
     network d = AI_HANDLE_NULL \/ ai_input d = 0 \/ ai_output d = 0 \/
     batch_count echo_engine d <> 1) /\
  (pipeline_result echo_engine d = None ->
     response (pipeline_result echo_engine d) =
     ("ERROR: Inference failed" ++ CRLF)%string) /\
  app_state (HAL_UART_RxCpltCallback USART2 (set_start_cmd_buffer START d'))
    = STATE_RECEIVE_IMAGE.
Proof.
  apply (pipeline_completion echo_engine frame_received);
    [reflexivity | vm_compute; discriminate].
Defined.

(** The answer in the example above: sample 3 of the frame is the largest. *)
Example sample_frame_answer :
  response (pipeline_result echo_engine frame_received) = ("3" ++ CRLF)%string.
Proof. reflexivity. Qed.

(** ** Start-up *)

Section Boot.

Variable E : Engine.

(** [AI_Init] touches the engine variables only. *)
Lemma AI_Init_frame (d : Device) :
  let d1 := fst (AI_Init E d) in
  pc d1 = pc d /\ app_state d1 = app_state d /\
  rx_complete d1 = rx_complete d /\ rx_error d1 = rx_error d /\
  hal_calls d1 = hal_calls d /\ rx_pending d1 = rx_pending d /\
  input_buffer d1 = input_buffer d.
Proof.
  unfold AI_Init.
  destruct (ai_network_create_and_init E (network d)) as [net err].
  destruct (negb _); [cbn; repeat split|].
  destruct (_ || _); cbn; repeat split.
Qed.

(** When [AI_Init] returns 0 the engine variables hold the handle and the
    descriptors the engine gave. *)
Lemma AI_Init_ok (d : Device) :
  network d = AI_HANDLE_NULL -> snd (AI_Init E d) = 0 ->
  let d1 := fst (AI_Init E d) in
  network d1 = booted_network E /\ ai_input d1 = booted_input E /\
  ai_output d1 = booted_output E.
Proof.
  unfold AI_Init, booted_input, booted_output, booted_network.
  intros ->.
  destruct (ai_network_create_and_init E AI_HANDLE_NULL) as [net err].
  destruct (negb _); [cbn; discriminate|].
  destruct (_ || _); cbn; [discriminate|]. repeat split.
Qed.

Lemma at_L274_failed (d : Device) :
  pc d = L274 -> snd (AI_Init E d) <> 0 ->
  main_step E d = set_pc L277 (fst (AI_Init E d)).
Proof.
  intros Hpc Hr. unfold main_step. rewrite Hpc.
  destruct (AI_Init E d) as [d1 r]. cbn [fst snd] in *.
  destruct (Z.eqb_spec r 0); [contradiction|reflexivity].
Qed.

Lemma at_L274_ok (d : Device) :
  pc d = L274 -> snd (AI_Init E d) = 0 ->
  main_step E d = set_pc L284 (fst (AI_Init E d)).
Proof.
  intros Hpc Hr. unfold main_step. rewrite Hpc.
  destruct (AI_Init E d) as [d1 r]. cbn [fst snd] in *.
  rewrite Hr. reflexivity.
Qed.

Lemma at_L277 (d : Device) :
  pc d = L277 ->
  main_step E d =
  set_pc L280
    (set_hal (hal_calls d ++ [Call_Transmit init_failed_msg 1000])
             (rx_pending d) d).
Proof. intros Hpc. unfold main_step. rewrite Hpc. reflexivity. Qed.

Lemma at_L280 (d : Device) : pc d = L280 -> main_step E d = d.
Proof. intros Hpc. unfold main_step. rewrite Hpc. reflexivity. Qed.

Lemma at_L284 (d : Device) :
  pc d = L284 -> main_step E d = set_pc L289 (HAL_Delay 200 d).
Proof. intros Hpc. unfold main_step. rewrite Hpc. reflexivity. Qed.

Lemma at_L289 (d : Device) :
  pc d = L289 ->
  main_step E d =
  set_pc L294
    (set_hal (hal_calls d ++ [Call_Transmit ready_msg HAL_MAX_DELAY])
             (rx_pending d) d).
Proof. intros Hpc. unfold main_step. rewrite Hpc. reflexivity. Qed.

Lemma at_L294 (d : Device) :
  pc d = L294 ->
  main_step E d = set_pc L295 (set_app_state STATE_WAIT_START d).
Proof. intros Hpc. unfold main_step. rewrite Hpc. reflexivity. Qed.

Lemma at_L295 (d : Device) :
  pc d = L295 ->
  main_step E d = set_pc L308 (HAL_UART_Receive_IT BUF_start_cmd 5 d).
Proof. intros Hpc. unfold main_step. rewrite Hpc. reflexivity. Qed.

(** The callbacks and the receiver leave the program point of [main]. *)
Lemma RxCplt_pc (i : USART_TypeDef) (d : Device) :
  pc (HAL_UART_RxCpltCallback i d) = pc d.
Proof.
  unfold HAL_UART_RxCpltCallback.
  destruct (USART_eqb i USART2); [|reflexivity].
  destruct (app_state d); try reflexivity.
  destruct (_ =? 0); reflexivity.
Qed.

Lemma Error_pc (i : USART_TypeDef) (d : Device) :
  pc (HAL_UART_ErrorCallback i d) = pc d.
Proof.
  unfold HAL_UART_ErrorCallback.
  destruct (USART_eqb i USART2); reflexivity.
Qed.

Lemma write_buf_pc (b : RxBuf) (data : list Z) (d : Device) :
  pc (write_buf b data d) = pc d.
Proof. destruct b; reflexivity. Qed.

(** An interrupt needs an outstanding request. *)
Lemma no_interrupt_when_idle (e : Event) (d : Device) :
  rx_pending d = [] -> e <> EvMain -> step E e d = None.
Proof.
  intros Hp He. destruct e; [contradiction| |]; cbn [step]; rewrite Hp;
    reflexivity.
Qed.

(** A property kept by every event is kept by every schedule. *)
Lemma run_preserves (P : Device -> Prop) :
  (forall e d d', P d -> step E e d = Some d' -> P d') ->
  forall evs d d', P d -> run E evs d = Some d' -> P d'.
Proof.
  intros Hstep evs. induction evs as [|e evs IH]; intros d d' HP Hrun.
  - cbn in Hrun. now injection Hrun as <-.
  - cbn [run] in Hrun. destruct (step E e d) as [d1|] eqn:Hs; [|discriminate].
    apply (IH d1); [apply (Hstep e d); assumption|assumption].
Qed.

(** The start-up code is never entered again. *)
Lemma step_leaves_boot (e : Event) (d d' : Device) :
  in_boot (pc d) = false -> step E e d = Some d' -> in_boot (pc d') = false.
Proof.
  intros Hb Hs. destruct e as [|data|partial]; cbn [step] in Hs.
  - injection Hs as <-. unfold main_step.
    destruct (pc d) eqn:Hpc; try discriminate Hb;
      repeat match goal with |- context [if ?c then _ else _] => destruct c end;
      reflexivity.
  - destruct (rx_pending d) as [|[buf size] rest]; [discriminate|].
    destruct (_ && _); [|discriminate]. injection Hs as <-.
    rewrite RxCplt_pc, write_buf_pc. exact Hb.
  - destruct (rx_pending d) as [|[buf size] rest]; [discriminate|].
    destruct (_ && _); [|discriminate]. injection Hs as <-.
    rewrite Error_pc, write_buf_pc. exact Hb.
Qed.

End Boot.

(** C7.  From power-on: when AI_Init fails the device transmits
    "AI Init Failed!" CR LF and is then at [while(1) {}] for good: whatever
    the schedule, the state never changes again, so no transition, no
    receive and no transmission follows.  When AI_Init succeeds the device
    waits 200 ms, transmits the ready banner, sets STATE_WAIT_START (the
    state was STATE_IDLE until then) and arms the first 5-byte command
    receive; the start-up code is never run again. *)
Theorem boot_behaviour (E : Engine) (act : list Z) :
  let d0 := power_on act in
  (snd (AI_Init E d0) <> 0 ->
     let dh := main_steps E 2 d0 in
     pc dh = L280 /\ app_state dh = STATE_IDLE /\
     hal_calls dh = [Call_Transmit init_failed_msg 1000] /\
     rx_pending dh = [] /\
     forall evs d', run E evs dh = Some d' -> d' = dh) /\
  (snd (AI_Init E d0) = 0 ->
     let db := main_steps E 5 d0 in
     pc db = L308 /\ app_state db = STATE_WAIT_START /\
     hal_calls db =
       [Call_Delay 200; Call_Transmit ready_msg HAL_MAX_DELAY;
        Call_Receive_IT BUF_start_cmd 5] /\
     rx_pending db = [(BUF_start_cmd, 5%nat)] /\
     (forall n, (n < 4)%nat -> app_state (main_steps E n d0) = STATE_IDLE) /\
     (forall evs d', run E evs db = Some d' -> in_boot (pc d') = false)).
Proof.
  intros d0.
  pose proof (AI_Init_frame E d0) as Hfr. cbv zeta in Hfr.
  destruct Hfr as (Hpc1 & Hst1 & Hrc1 & Hre1 & Hcalls1 & Hpend1 & _).
  split.
  - intros Hfail dh.
    assert (Hdh : dh = main_steps E 2 d0) by reflexivity.
    rewrite main_steps_S, at_L274_failed in Hdh by (reflexivity || assumption).
    rewrite main_steps_S, at_L277 in Hdh by reflexivity.
    cbn [main_steps] in Hdh. clearbody dh.
    assert (Hpend : rx_pending dh = [])
      by (rewrite Hdh; fields; rewrite Hpend1; reflexivity).
    split; [rewrite Hdh; reflexivity|].
    split; [rewrite Hdh; fields; rewrite Hst1; reflexivity|].
    split; [rewrite Hdh; fields; rewrite Hcalls1; reflexivity|].
    split; [exact Hpend|].
    intros evs d' Hrun.
    apply (run_preserves E (fun d => d = dh)) with (2 := eq_refl) (3 := Hrun).
    intros e d d2 -> Hs. destruct e as [|data|partial].
    + cbn [step] in Hs. injection Hs as <-. apply at_L280.
      rewrite Hdh. reflexivity.
    + rewrite no_interrupt_when_idle in Hs;
        [discriminate|exact Hpend|discriminate].
    + rewrite no_interrupt_when_idle in Hs;
        [discriminate|exact Hpend|discriminate].
  - intros Hok db.
    assert (H1 : main_steps E 1 d0 = set_pc L284 (fst (AI_Init E d0))).
    { rewrite main_steps_S, at_L274_ok by (reflexivity || assumption).
      reflexivity. }
    assert (H2 : main_steps E 2 d0 =
                 set_pc L289 (HAL_Delay 200 (main_steps E 1 d0))).
    { rewrite (main_steps_add E 1 1), H1. reflexivity. }
    assert (H3 : main_steps E 3 d0 =
                 set_pc L294
                   (set_hal (hal_calls (main_steps E 2 d0) ++
                               [Call_Transmit ready_msg HAL_MAX_DELAY])
                            (rx_pending (main_steps E 2 d0))
                            (main_steps E 2 d0))).
    { rewrite (main_steps_add E 2 1), H2. reflexivity. }
    assert (H4 : main_steps E 4 d0 =
                 set_pc L295 (set_app_state STATE_WAIT_START (main_steps E 3 d0))).
    { rewrite (main_steps_add E 3 1), H3. reflexivity. }
    assert (H5 : db =
                 set_pc L308 (HAL_UART_Receive_IT BUF_start_cmd 5 (main_steps E 4 d0))).
    { subst db. rewrite (main_steps_add E 4 1), H4. reflexivity. }
    split; [rewrite H5; reflexivity|].
    split; [rewrite H5, H4; reflexivity|].
    split; [rewrite H5, H4, H3, H2, H1; fields; rewrite Hcalls1; reflexivity|].
    split; [rewrite H5, H4, H3, H2, H1; fields; rewrite Hpend1; reflexivity|].
    split.
    + intros n Hn.
      destruct n as [|[|[|[|n]]]]; [| | | |lia].
      * reflexivity.
      * rewrite H1. fields. exact Hst1.
      * rewrite H2, H1. fields. exact Hst1.
      * rewrite H3, H2, H1. fields. exact Hst1.
    + intros evs d' Hrun.
      apply (run_preserves E (fun d => in_boot (pc d) = false))
        with (3 := Hrun).
      * apply step_leaves_boot.
      * rewrite H5. reflexivity.
Qed.

Lemma boot_behaviour_witness :
  (let dh := main_steps dead_engine 2 (power_on []) in
   pc dh = L280 /\ app_state dh = STATE_IDLE /\
   hal_calls dh = [Call_Transmit init_failed_msg 1000] /\
   rx_pending dh = [] /\
   forall evs d', run dead_engine evs dh = Some d' -> d' = dh) /\
  (let db := main_steps echo_engine 5 (power_on []) in
   pc db = L308 /\ app_state db = STATE_WAIT_START /\
   hal_calls db =
     [Call_Delay 200; Call_Transmit ready_msg HAL_MAX_DELAY;
      Call_Receive_IT BUF_start_cmd 5] /\
   rx_pending db = [(BUF_start_cmd, 5%nat)] /\
   (forall n, (n < 4)%nat ->
      app_state (main_steps echo_engine n (power_on [])) = STATE_IDLE) /\
   (forall evs d', run echo_engine evs db = Some d' -> in_boot (pc d') = false)).
Proof.
  split.
  - apply (proj1 (boot_behaviour dead_engine [])). vm_compute. discriminate.
  - apply (proj2 (boot_behaviour echo_engine [])). reflexivity.
Defined.

(** ** The invariant *)

Section Invariant.

Variable E : Engine.

Lemma inv_power_on (act : list Z) : inv E (power_on act).
Proof.
  split; [cbn; repeat split|].
  split; [reflexivity|]. split; [reflexivity|]. cbn. discriminate.
Qed.

Lemma phase_inv_main (d : Device) :
  phase_inv d -> phase_inv (main_step E d).
Proof.
  intros H. destruct (pc d) eqn:Hpc.
  - (* L274 *)
    pose proof (AI_Init_frame E d) as Hfr. cbv zeta in Hfr.
    destruct Hfr as (_ & _ & Hrc & Hre & _ & Hpend & _).
    unfold phase_inv in H. rewrite Hpc in H.
    destruct (Z.eq_dec (snd (AI_Init E d)) 0) as [Hr|Hr].
    + rewrite at_L274_ok by assumption. phase.
      rewrite Hrc, Hre, Hpend. exact H.
    + rewrite at_L274_failed by assumption. phase.
      rewrite Hrc, Hre, Hpend. exact H.
  - rewrite at_L277 by assumption. phase. rewrite Hpc in H. exact H.
  - rewrite at_L280 by assumption. exact H.
  - rewrite at_L284 by assumption. phase. rewrite Hpc in H. exact H.
  - rewrite at_L289 by assumption. phase. rewrite Hpc in H. exact H.
  - rewrite at_L294 by assumption. phase. rewrite Hpc in H. tauto.
  - rewrite at_L295 by assumption. phase. rewrite Hpc in H.
    destruct H as (-> & -> & -> & ->). left. cbn. tauto.
  - (* L308 *)
    phase. rewrite Hpc in H.
    destruct (Z.eq_dec (rx_complete d) 0) as [Hrc|Hrc].
    + rewrite at_L308_clear by assumption. fields.
      destruct H as [H|[H|H]]; [left; exact H|tauto|right; right; exact H].
    + rewrite at_L308_set by assumption. fields.
      destruct H as [H|[H|H]]; tauto.
  - rewrite at_L310 by assumption. phase. rewrite Hpc in H. tauto.
  - (* L311 *)
    rewrite at_L311 by assumption.
    pose proof (ProcessInference_frame E d) as Hfr. cbv zeta in Hfr.
    destruct Hfr as (_ & _ & Hrc & Hre & _ & Hpend & _).
    phase. rewrite Hpc in H. rewrite Hrc, Hre, Hpend. exact H.
  - rewrite at_L314 by assumption. phase. rewrite Hpc in H. tauto.
  - rewrite at_L315 by assumption. phase. rewrite Hpc in H.
    destruct H as (-> & -> & -> & ->). left. cbn. tauto.
  - (* L319 *)
    phase. rewrite Hpc in H.
    destruct (Z.eq_dec (rx_error d) 0) as [Hre|Hre].
    + rewrite at_L319_clear by assumption. fields.
      destruct H as [H|[H|H]]; [left; exact H|right; left; exact H|tauto].
    + rewrite at_L319_set by assumption. fields.
      destruct H as [H|[H|H]]; tauto.
  - rewrite at_L321 by assumption. phase. rewrite Hpc in H. tauto.
  - rewrite at_L324 by assumption. phase. rewrite Hpc in H. tauto.
  - rewrite at_L325 by assumption. phase. rewrite Hpc in H.
    destruct H as (-> & -> & -> & ->). left. cbn. tauto.
Qed.

(** With a request outstanding, [main] is polling and the receiver is
    listening. *)
Lemma phase_inv_pending (d : Device) :
  phase_inv d -> rx_pending d <> [] ->
  (pc d = L308 \/ pc d = L319) /\ listening d.
Proof.
  unfold phase_inv. intros H Hp.
  destruct (pc d); try (exfalso; apply Hp; tauto);
    (split; [tauto|]); destruct H as [H|[H|H]]; try exact H;
    exfalso; apply Hp; tauto.
Qed.

Lemma phase_inv_polling (d d' : Device) :
  pc d = L308 \/ pc d = L319 -> pc d' = pc d ->
  (listening d'
   \/ (rx_pending d' = [] /\ rx_complete d' <> 0 /\ rx_error d' = 0)
   \/ (rx_pending d' = [] /\ rx_complete d' = 0 /\ rx_error d' <> 0)) ->
  phase_inv d'.
Proof.
  intros Hpc Heq H. unfold phase_inv. rewrite Heq.
  destruct Hpc as [-> | ->]; exact H.
Qed.

Lemma phase_inv_step (e : Event) (d d' : Device) :
  phase_inv d -> step E e d = Some d' -> phase_inv d'.
Proof.
  intros H Hs. destruct e as [|data|partial]; cbn [step] in Hs.
  - injection Hs as <-. apply phase_inv_main, H.
  - destruct (rx_pending d) as [|[buf size] rest] eqn:Hp; [discriminate|].
    destruct (_ && _); [|discriminate]. injection Hs as <-.
    destruct (phase_inv_pending d H) as (Hpc & Hrc & Hre & Hl);
      [rewrite Hp; discriminate|].
    apply (phase_inv_polling d _ Hpc);
      [rewrite RxCplt_pc, write_buf_pc; reflexivity|].
    rewrite Hp in Hl. unfold HAL_UART_RxCpltCallback. cbn [USART_eqb].
    destruct Hl as [[Hst [= -> -> ->]]|[Hst [= -> -> ->]]];
      cbn [write_buf]; fields; rewrite Hst.
    + destruct (_ =? 0); unfold listening; fields; left; cbn; tauto.
    + right; left. fields. repeat split; [discriminate|exact Hre].
  - destruct (rx_pending d) as [|[buf size] rest] eqn:Hp; [discriminate|].
    destruct (_ && _); [|discriminate]. injection Hs as <-.
    destruct (phase_inv_pending d H) as (Hpc & Hrc & Hre & Hl);
      [rewrite Hp; discriminate|].
    apply (phase_inv_polling d _ Hpc);
      [rewrite Error_pc, write_buf_pc; reflexivity|].
    rewrite Hp in Hl. unfold HAL_UART_ErrorCallback. cbn [USART_eqb].
    right; right.
    destruct Hl as [[Hst [= -> -> ->]]|[Hst [= -> -> ->]]];
      cbn [write_buf]; fields; repeat split; (exact Hrc || discriminate).
Qed.

Lemma data_inv_main (d : Device) :
  data_inv E d -> data_inv E (main_step E d).
Proof.
  intros (Hlen & Hnull & Hsvc).
  destruct (pc d) eqn:Hpc; cbn [in_service] in Hsvc;
    try (specialize (Hsvc eq_refl)).
  - pose proof (AI_Init_frame E d) as Hfr. cbv zeta in Hfr.
    destruct Hfr as (_ & _ & _ & _ & _ & _ & Hinp).
    destruct (Z.eq_dec (snd (AI_Init E d)) 0) as [Hr|Hr].
    + rewrite at_L274_ok by assumption.
      pose proof (AI_Init_ok E d (Hnull eq_refl) Hr) as Hok.
      unfold data_inv. fields. rewrite Hinp.
      split; [exact Hlen|]. split; [discriminate|]. intros _. exact Hok.
    + rewrite at_L274_failed by assumption.
      unfold data_inv. fields. rewrite Hinp.
      split; [exact Hlen|]. split; discriminate.
  - rewrite at_L277 by assumption. unfold data_inv. fields.
    split; [exact Hlen|]. split; discriminate.
  - rewrite at_L280 by assumption. unfold data_inv. rewrite Hpc.
    split; [exact Hlen|]. split; discriminate.
  - rewrite at_L284 by assumption. unfold data_inv. fields.
    split; [exact Hlen|]. split; [discriminate|]. intros _. exact Hsvc.
  - rewrite at_L289 by assumption. unfold data_inv. fields.
    split; [exact Hlen|]. split; [discriminate|]. intros _. exact Hsvc.
  - rewrite at_L294 by assumption. unfold data_inv. fields.
    split; [exact Hlen|]. split; [discriminate|]. intros _. exact Hsvc.
  - rewrite at_L295 by assumption. unfold data_inv. fields.
    split; [exact Hlen|]. split; [discriminate|]. intros _. exact Hsvc.
  - unfold main_step. rewrite Hpc. destruct (negb _); unfold data_inv; fields;
      (split; [exact Hlen|]); (split; [discriminate|]); intros _; exact Hsvc.
  - rewrite at_L310 by assumption. unfold data_inv. fields.
    split; [exact Hlen|]. split; [discriminate|]. intros _. exact Hsvc.
  - rewrite at_L311 by assumption.
    pose proof (ProcessInference_frame E d) as Hfr. cbv zeta in Hfr.
    destruct Hfr as (_ & _ & _ & _ & _ & _ & _ & Hn & Hi & Ho).
    unfold data_inv. fields.
    rewrite ProcessInference_input, quantize_length, Hn, Hi, Ho.
    split; [exact Hlen|]. split; [discriminate|]. intros _. exact Hsvc.
  - rewrite at_L314 by assumption. unfold data_inv. fields.
    split; [exact Hlen|]. split; [discriminate|]. intros _. exact Hsvc.
  - rewrite at_L315 by assumption. unfold data_inv. fields.
    split; [exact Hlen|]. split; [discriminate|]. intros _. exact Hsvc.
  - unfold main_step. rewrite Hpc. destruct (negb _); unfold data_inv; fields;
      (split; [exact Hlen|]); (split; [discriminate|]); intros _; exact Hsvc.
  - rewrite at_L321 by assumption. unfold data_inv. fields.
    split; [exact Hlen|]. split; [discriminate|]. intros _. exact Hsvc.
  - rewrite at_L324 by assumption. unfold data_inv. fields.
    split; [exact Hlen|]. split; [discriminate|]. intros _. exact Hsvc.
  - rewrite at_L325 by assumption. unfold data_inv. fields.
    split; [exact Hlen|]. split; [discriminate|]. intros _. exact Hsvc.
Qed.

(** The interrupt side writes neither the tensor nor the engine
    variables. *)
Lemma RxCplt_data (i : USART_TypeDef) (d : Device) :
  let d' := HAL_UART_RxCpltCallback i d in
  input_buffer d' = input_buffer d /\ network d' = network d /\
  ai_input d' = ai_input d /\ ai_output d' = ai_output d /\
  output_buffer d' = output_buffer d /\ img_buffer d' = img_buffer d /\
  activations d' = activations d.
Proof.
  unfold HAL_UART_RxCpltCallback.
  destruct (USART_eqb i USART2); [|repeat split].
  destruct (app_state d);
    [repeat split| |repeat split|repeat split].
  destruct (_ =? 0); repeat split.
Qed.

Lemma Error_data (i : USART_TypeDef) (d : Device) :
  let d' := HAL_UART_ErrorCallback i d in
  input_buffer d' = input_buffer d /\ network d' = network d /\
  ai_input d' = ai_input d /\ ai_output d' = ai_output d /\
  output_buffer d' = output_buffer d /\ img_buffer d' = img_buffer d /\
  activations d' = activations d.
Proof.
  unfold HAL_UART_ErrorCallback.
  destruct (USART_eqb i USART2); repeat split.
Qed.

Lemma write_buf_data (b : RxBuf) (data : list Z) (d : Device) :
  let d' := write_buf b data d in
  input_buffer d' = input_buffer d /\ network d' = network d /\
  ai_input d' = ai_input d /\ ai_output d' = ai_output d /\
  output_buffer d' = output_buffer d /\ activations d' = activations d.
Proof. destruct b; repeat split. Qed.

Lemma data_inv_ext (d d' : Device) :
  pc d' = pc d -> input_buffer d' = input_buffer d ->
  network d' = network d -> ai_input d' = ai_input d ->
  ai_output d' = ai_output d ->
  data_inv E d -> data_inv E d'.
Proof.
  unfold data_inv. intros -> -> -> -> ->. tauto.
Qed.

Lemma data_inv_step (e : Event) (d d' : Device) :
  data_inv E d -> step E e d = Some d' -> data_inv E d'.
Proof.
  intros H Hs. destruct e as [|data|partial]; cbn [step] in Hs.
  - injection Hs as <-. apply data_inv_main, H.
  - destruct (rx_pending d) as [|[buf size] rest]; [discriminate|].
    destruct (_ && _); [|discriminate]. injection Hs as <-.
    set (d0 := set_hal (hal_calls d) rest d).
    pose proof (RxCplt_data USART2 (write_buf buf data d0)) as H1.
    pose proof (write_buf_data buf data d0) as H2. cbv zeta in H1, H2.
    destruct H1 as (I1 & N1 & A1 & O1 & _).
    destruct H2 as (I2 & N2 & A2 & O2 & _).
    apply (data_inv_ext d); [| | | | |exact H].
    + rewrite RxCplt_pc, write_buf_pc. reflexivity.
    + rewrite I1, I2. reflexivity.
    + rewrite N1, N2. reflexivity.
    + rewrite A1, A2. reflexivity.
    + rewrite O1, O2. reflexivity.
  - destruct (rx_pending d) as [|[buf size] rest]; [discriminate|].
    destruct (_ && _); [|discriminate]. injection Hs as <-.
    set (d0 := set_hal (hal_calls d) rest d).
    pose proof (Error_data USART2 (write_buf buf partial d0)) as H1.
    pose proof (write_buf_data buf partial d0) as H2. cbv zeta in H1, H2.
    destruct H1 as (I1 & N1 & A1 & O1 & _).
    destruct H2 as (I2 & N2 & A2 & O2 & _).
    apply (data_inv_ext d); [| | | | |exact H].
    + rewrite Error_pc, write_buf_pc. reflexivity.
    + rewrite I1, I2. reflexivity.
    + rewrite N1, N2. reflexivity.
    + rewrite A1, A2. reflexivity.
    + rewrite O1, O2. reflexivity.
Qed.

Lemma inv_step (e : Event) (d d' : Device) :
  inv E d -> step E e d = Some d' -> inv E d'.
Proof.
  intros [H1 H2] Hs. split;
    [exact (phase_inv_step e d d' H1 Hs)|exact (data_inv_step e d d' H2 Hs)].
Qed.

Lemma reachable_inv (d : Device) : reachable E d -> inv E d.
Proof.
  intros (act & evs & Hrun).
  apply (run_preserves E (inv E)) with (3 := Hrun).
  - apply inv_step.
  - apply inv_power_on.
Qed.

Lemma reachable_step (e : Event) (d d' : Device) :
  reachable E d -> step E e d = Some d' -> reachable E d'.
Proof.
  intros (act & evs & Hrun) Hs. exists act, (evs ++ [e]).
  revert Hrun. generalize (power_on act). induction evs as [|e0 evs IH];
    intros s Hrun; cbn [run app] in *.
  - injection Hrun as ->. rewrite Hs. reflexivity.
  - destruct (step E e0 s); [apply IH, Hrun|discriminate].
Qed.

(** In a reachable state the two flags are never raised together: each is
    raised by an interrupt, which needs a receive in progress, and none is
    in progress while a flag is raised. *)
Lemma flags_exclusive (d : Device) :
  reachable E d -> rx_complete d = 0 \/ rx_error d = 0.
Proof.
  intros Hr. apply reachable_inv in Hr. destruct Hr as [Hph _].
  unfold phase_inv, listening in Hph. destruct (pc d); tauto.
Qed.

End Invariant.

(** ** One receive at a time *)

(** C6.  In every reachable state at most one receive request is
    outstanding, and it stays so after every event, so no request is ever
    made while another is outstanding: when [main] is about to arm (lines
    295, 315, 325) the receiver is idle, and a callback arms only after the
    request that completed has ended.  From the completion of a frame until
    the pipeline has run (flag raised, or [main] at line 310 or 311) nothing
    is outstanding; a receive into the image buffer is outstanding only
    while [main] is polling with no frame flagged. *)
Theorem single_outstanding_receive (E : Engine) (d : Device) :
  reachable E d ->
  (length (rx_pending d) <= 1)%nat /\
  (forall e d', step E e d = Some d' -> (length (rx_pending d') <= 1)%nat) /\
  (pc d = L295 \/ pc d = L315 \/ pc d = L325 -> rx_pending d = []) /\
  (rx_complete d <> 0 \/ pc d = L310 \/ pc d = L311 -> rx_pending d = []) /\
  (forall n, In (BUF_img, n) (rx_pending d) ->
     rx_complete d = 0 /\ (pc d = L308 \/ pc d = L319)).
Proof.
  intros Hreach.
  assert (Hbound : forall s, reachable E s -> (length (rx_pending s) <= 1)%nat).
  { intros s Hs. apply reachable_inv in Hs. destruct Hs as [Hph _].
    destruct (rx_pending s) as [|r rest] eqn:Hp; [cbn; lia|].
    destruct (phase_inv_pending s Hph) as (_ & _ & _ & Hl);
      [rewrite Hp; discriminate|].
    rewrite Hp in Hl. destruct Hl as [[_ [= _ ->]]|[_ [= _ ->]]]; cbn; lia. }
  pose proof (reachable_inv E d Hreach) as [Hph _].
  split; [apply Hbound, Hreach|].
  split; [intros e d' Hs; apply Hbound, (reachable_step E e d d' Hreach Hs)|].
  split; [|split].
  - unfold phase_inv in Hph. intros [Hpc|[Hpc|Hpc]]; rewrite Hpc in Hph; tauto.
  - intros Hc.
    destruct (rx_pending d) as [|r rest] eqn:Hp; [reflexivity|exfalso].
    destruct (phase_inv_pending d Hph) as (Hpc & Hrc & _);
      [rewrite Hp; discriminate|].
    destruct Hc as [Hc|[Hc|Hc]]; [contradiction| |];
      destruct Hpc as [Hpc|Hpc]; congruence.
  - intros n Hin.
    destruct (phase_inv_pending d Hph) as (Hpc & Hrc & _).
    + intros Hp. rewrite Hp in Hin. destruct Hin.
    + split; assumption.
Qed.

Lemma single_outstanding_receive_witness :
  let d := booted_echo in
  (length (rx_pending d) <= 1)%nat /\
  (forall e d', step echo_engine e d = Some d' ->
     (length (rx_pending d') <= 1)%nat) /\
  (pc d = L295 \/ pc d = L315 \/ pc d = L325 -> rx_pending d = []) /\
  (rx_complete d <> 0 \/ pc d = L310 \/ pc d = L311 -> rx_pending d = []) /\
  (forall n, In (BUF_img, n) (rx_pending d) ->
     rx_complete d = 0 /\ (pc d = L308 \/ pc d = L319)).
Proof.
  apply (single_outstanding_receive echo_engine booted_echo).
  exists [], (repeat EvMain 5). vm_compute. reflexivity.
Defined.

(** ** Receive errors *)

Lemma memcmp_fill_START (old : list Z) : memcmp (fill old START) START 5 = 0.
Proof.
  apply memcmp_zero_iff.
  - unfold fill. rewrite length_app. cbn. lia.
  - cbn. lia.
  - reflexivity.
Qed.

Section Recovery.

Variable E : Engine.

(** What a receive-error event leaves, before [main] runs again. *)
Lemma error_event_effect (d d1 : Device) (partial : list Z) :
  reachable E d -> step E (EvRxError partial) d = Some d1 ->
  (pc d = L308 \/ pc d = L319) /\ pc d1 = pc d /\
  app_state d1 = STATE_IDLE /\ rx_error d1 = 1 /\ rx_complete d1 = 0 /\
  rx_pending d1 = [] /\
  hal_calls d1 = hal_calls d ++ [Call_Transmit uart_error_msg 1000] /\
  input_buffer d1 = input_buffer d /\ output_buffer d1 = output_buffer d.
Proof.
  intros Hreach Hs. apply reachable_inv in Hreach. destruct Hreach as [Hph _].
  cbn [step] in Hs.
  destruct (rx_pending d) as [|[buf size] rest] eqn:Hp; [discriminate|].
  destruct (_ && _); [|discriminate]. injection Hs as <-.
  destruct (phase_inv_pending d Hph) as (Hpc & Hrc & Hre & Hl);
    [rewrite Hp; discriminate|].
  assert (rest = []) as ->
    by (rewrite Hp in Hl; destruct Hl as [[_ [= _ _ ->]]|[_ [= _ _ ->]]];
        reflexivity).
  split; [exact Hpc|].
  unfold HAL_UART_ErrorCallback. cbn [USART_eqb].
  destruct buf; cbn [write_buf]; fields; repeat split; exact Hrc.
Qed.

(** Lines 319-325 on a raised error flag. *)
Lemma error_block_effect (d : Device) :
  pc d = L319 -> rx_error d <> 0 ->
  let d' := main_steps E 4 d in
  pc d' = L308 /\ app_state d' = STATE_WAIT_START /\ rx_error d' = 0 /\
  rx_complete d' = rx_complete d /\
  rx_pending d' = rx_pending d ++ [(BUF_start_cmd, 5%nat)] /\
  hal_calls d' = hal_calls d ++ [Call_Receive_IT BUF_start_cmd 5] /\
  input_buffer d' = input_buffer d /\ output_buffer d' = output_buffer d.
Proof.
  intros Hpc Hre d'. subst d'. rewrite error_block by assumption.
  fields. repeat split.
Qed.

(** A device waiting for a command takes START. *)
Lemma fresh_START (d : Device) :
  app_state d = STATE_WAIT_START ->
  rx_pending d = [(BUF_start_cmd, 5%nat)] ->
  exists d', step E (EvRxCplt START) d = Some d' /\
             app_state d' = STATE_RECEIVE_IMAGE /\
             rx_pending d' = [(BUF_img, IMG_SIZE)].
Proof.
  intros Hst Hp. cbn [step]. rewrite Hp.
  change ((length START =? 5)%nat && forallb is_uint8b START) with true.
  cbv iota. eexists. split; [reflexivity|].
  unfold HAL_UART_RxCpltCallback. cbn [USART_eqb write_buf]. fields.
  rewrite Hst, memcmp_fill_START. cbn [Z.eqb]. fields. split; reflexivity.
Qed.

End Recovery.

(** C4.  A receive-error event, in any reachable state in which a receive
    is in progress: the receive is ended, "ERROR: UART error" CR LF is
    transmitted once, and within five statements of [main] the device is in
    STATE_WAIT_START with a 5-byte command receive outstanding and both
    flags clear.  Nothing else was transmitted and the pipeline did not run
    (the tensors are as before), so the abandoned bytes were not consumed;
    START is accepted next. *)
Theorem receive_error_recovery (E : Engine) (d d1 : Device)
    (partial : list Z) :
  reachable E d -> step E (EvRxError partial) d = Some d1 ->
  (app_state d1 = STATE_IDLE /\ rx_error d1 = 1 /\ rx_pending d1 = [] /\
   hal_calls d1 = hal_calls d ++ [Call_Transmit uart_error_msg 1000]) /\
  exists n, (n <= 5)%nat /\
    let d2 := main_steps E n d1 in
    pc d2 = L308 /\ app_state d2 = STATE_WAIT_START /\
    rx_error d2 = 0 /\ rx_complete d2 = 0 /\
    rx_pending d2 = [(BUF_start_cmd, 5%nat)] /\
    hal_calls d2 =
      hal_calls d ++ [Call_Transmit uart_error_msg 1000;
                      Call_Receive_IT BUF_start_cmd 5] /\
    input_buffer d2 = input_buffer d /\ output_buffer d2 = output_buffer d /\
    exists d3, step E (EvRxCplt START) d2 = Some d3 /\
               app_state d3 = STATE_RECEIVE_IMAGE /\
               rx_pending d3 = [(BUF_img, IMG_SIZE)].
Proof.
  intros Hreach Hs.
  destruct (error_event_effect E d d1 partial Hreach Hs)
    as (Hpc & Hpc1 & Hst1 & Hre1 & Hrc1 & Hp1 & Hcalls1 & Hinp1 & Hout1).
  split; [repeat split; assumption|].
  assert (Hgo : forall dx, pc dx = L319 -> rx_error dx = 1 ->
            rx_complete dx = 0 -> rx_pending dx = [] ->
            hal_calls dx = hal_calls d1 -> input_buffer dx = input_buffer d1 ->
            output_buffer dx = output_buffer d1 ->
            let d2 := main_steps E 4 dx in
            pc d2 = L308 /\ app_state d2 = STATE_WAIT_START /\
            rx_error d2 = 0 /\ rx_complete d2 = 0 /\
            rx_pending d2 = [(BUF_start_cmd, 5%nat)] /\
            hal_calls d2 =
              hal_calls d ++ [Call_Transmit uart_error_msg 1000;
                              Call_Receive_IT BUF_start_cmd 5] /\
            input_buffer d2 = input_buffer d /\
            output_buffer d2 = output_buffer d /\
            exists d3, step E (EvRxCplt START) d2 = Some d3 /\
                       app_state d3 = STATE_RECEIVE_IMAGE /\
                       rx_pending d3 = [(BUF_img, IMG_SIZE)]).
  { intros dx Hx1 Hx2 Hx3 Hx4 Hx5 Hx6 Hx7 d2.
    destruct (error_block_effect E dx Hx1) as
      (B1 & B2 & B3 & B4 & B5 & B6 & B7 & B8); [rewrite Hx2; discriminate|].
    fold d2 in B1, B2, B3, B4, B5, B6, B7, B8.
    rewrite Hx4 in B5. cbn [app] in B5.
    rewrite Hx5, Hcalls1, <- app_assoc in B6. cbn [app] in B6.
    repeat (split; [congruence|]).
    apply fresh_START; assumption. }
  destruct Hpc as [Hpc|Hpc].
  - exists 5%nat. split; [lia|].
    rewrite (main_steps_S E 4 d1).
    rewrite (at_L308_clear E d1) by congruence.
    apply Hgo; fields; try reflexivity; assumption.
  - exists 4%nat. split; [lia|].
    apply Hgo; try reflexivity; try assumption. congruence.
Qed.

Lemma receive_error_recovery_witness :
  let d := receiving_image in
  let d1 := image_receive_failed in
  (app_state d1 = STATE_IDLE /\ rx_error d1 = 1 /\ rx_pending d1 = [] /\
   hal_calls d1 = hal_calls d ++ [Call_Transmit uart_error_msg 1000]) /\
  exists n, (n <= 5)%nat /\
    let d2 := main_steps echo_engine n d1 in
    pc d2 = L308 /\ app_state d2 = STATE_WAIT_START /\
    rx_error d2 = 0 /\ rx_complete d2 = 0 /\
    rx_pending d2 = [(BUF_start_cmd, 5%nat)] /\
    hal_calls d2 =
      hal_calls d ++ [Call_Transmit uart_error_msg 1000;
                      Call_Receive_IT BUF_start_cmd 5] /\
    input_buffer d2 = input_buffer d /\ output_buffer d2 = output_buffer d /\
    exists d3, step echo_engine (EvRxCplt START) d2 = Some d3 /\
               app_state d3 = STATE_RECEIVE_IMAGE /\
               rx_pending d3 = [(BUF_img, IMG_SIZE)].
Proof.
  apply (receive_error_recovery echo_engine receiving_image
           image_receive_failed [9; 9; 9]).
  - exists [], (repeat EvMain 5 ++ [EvRxCplt START]). vm_compute. reflexivity.
  - vm_compute. reflexivity.
Defined.

(** ** The answer as a function of the frame *)

(** With a deterministic engine the outcome is decided by the image and the
    engine variables, once the tensor has its size. *)
Lemma pipeline_deterministic (E : Engine) (d1 d2 : Device) :
  deterministic_engine E ->
  img_buffer d1 = img_buffer d2 -> network d1 = network d2 ->
  ai_input d1 = ai_input d2 -> ai_output d1 = ai_output d2 ->
  length (input_buffer d1) = IMG_SIZE ->
  length (input_buffer d2) = IMG_SIZE ->
  pipeline_result E d1 = pipeline_result E d2.
Proof.
  intros Hdet Himg Hn Hi Ho Hl1 Hl2.
  unfold pipeline_result, AI_Run. fields.
  rewrite Himg, Hn, Hi, Ho.
  rewrite (quantize_overwrites (img_buffer d2) (input_buffer d1)
             (input_buffer d2) Hl1 Hl2).
  destruct (_ || _); [reflexivity|].
  pose proof (Hdet (network d2) (ai_input d2) (ai_output d2)
                (activations d1) (activations d2)
                (quantize (img_buffer d2) (input_buffer d2))
                (output_buffer d1) (output_buffer d2)) as Hrun.
  cbv zeta in Hrun.
  destruct (ai_network_run E _ _ _ (activations d1) _ _) as [[b1 a1] o1].
  destruct (ai_network_run E _ _ _ (activations d2) _ _) as [[b2 a2] o2].
  cbn [fst snd] in Hrun. destruct Hrun as [-> ->]. fields.
  destruct (negb _); reflexivity.
Qed.

Lemma echo_engine_deterministic : deterministic_engine echo_engine.
Proof. intros net pin pout act act' x y y'. split; reflexivity. Qed.

(** C8.  With a deterministic engine, in any two reachable states past a
    successful start-up that hold the same frame in [img_buffer], the
    pipeline has the same outcome (the same predicted class, or failure in
    both) and so sends the same line: the outcome does not depend on how
    the device got there nor on what the other variables hold.  Running the
    pipeline again on the frame gives the same outcome as the first run. *)
Theorem predicted_class_pure (E : Engine) (d1 d2 : Device) :
  deterministic_engine E ->
  reachable E d1 -> reachable E d2 ->
  in_service (pc d1) = true -> in_service (pc d2) = true ->
  img_buffer d1 = img_buffer d2 ->
  pipeline_result E d1 = pipeline_result E d2 /\
  response (pipeline_result E d1) = response (pipeline_result E d2) /\
  pipeline_result E (ProcessInference E d1) = pipeline_result E d1.
Proof.
  intros Hdet Hr1 Hr2 Hs1 Hs2 Himg.
  destruct (reachable_inv E d1 Hr1) as [_ (Hl1 & _ & He1)].
  destruct (reachable_inv E d2 Hr2) as [_ (Hl2 & _ & He2)].
  destruct (He1 Hs1) as (N1 & I1 & O1). destruct (He2 Hs2) as (N2 & I2 & O2).
  assert (Heq : pipeline_result E d1 = pipeline_result E d2)
    by (apply pipeline_deterministic; try assumption; congruence).
  split; [exact Heq|]. split; [rewrite Heq; reflexivity|].
  pose proof (ProcessInference_frame E d1) as Hfr. cbv zeta in Hfr.
  destruct Hfr as (Fimg & _ & _ & _ & _ & _ & _ & Fn & Fi & Fo).
  apply pipeline_deterministic; try assumption.
  rewrite ProcessInference_input, quantize_length. exact Hl1.
Qed.

Lemma predicted_class_pure_witness :
  let d1 := frame_received in
  let d2 := frame_answered in
  pipeline_result echo_engine d1 = pipeline_result echo_engine d2 /\
  response (pipeline_result echo_engine d1) =
    response (pipeline_result echo_engine d2) /\
  pipeline_result echo_engine (ProcessInference echo_engine d1) =
    pipeline_result echo_engine d1.
Proof.
  apply (predicted_class_pure echo_engine frame_received frame_answered).
  - exact echo_engine_deterministic.
  - exists [], (repeat EvMain 5 ++ [EvRxCplt START; EvRxCplt sample_frame]).
    vm_compute. reflexivity.
  - exists [], (repeat EvMain 5 ++ [EvRxCplt START; EvRxCplt sample_frame]
                  ++ repeat EvMain 6).
    vm_compute. reflexivity.
  - vm_compute. reflexivity.
  - vm_compute. reflexivity.
  - vm_compute. reflexivity.
Defined.

(** In the example the first frame has been answered with class 3 and the
    command receive is armed again. *)
Example frame_answered_state :
  pc frame_answered = L308 /\ app_state frame_answered = STATE_WAIT_START /\
  transmitted frame_answered = [ready_msg; ("3" ++ CRLF)%string] /\
  rx_pending frame_answered = [(BUF_start_cmd, 5%nat)].
Proof. vm_compute. repeat split. Qed.

(** ** Both flags raised *)

(** Were both flags raised at the poll (which [flags_exclusive] rules out for
    the platform as modelled), the loop would make its two requests for the
    command buffer one after the other, with no event in between. *)
Remark both_flags_two_requests (E : Engine) (d : Device) :
  pc d = L308 -> rx_complete d <> 0 -> rx_error d <> 0 ->
  rx_pending (main_steps E 9 d) =
  rx_pending d ++ [(BUF_start_cmd, 5%nat); (BUF_start_cmd, 5%nat)].
Proof.
  intros Hpc Hrc Hre.
  destruct (complete_block_effect E d Hpc Hrc)
    as (Hpc5 & _ & _ & Hre5 & _ & Hp5 & _).
  pose proof (main_steps_add E 5 4 d) as H9.
  change (5 + 4)%nat with 9%nat in H9. rewrite H9.
  destruct (error_block_effect E (main_steps E 5 d) Hpc5)
    as (_ & _ & _ & _ & Hp9 & _); [rewrite Hre5; exact Hre|].
  rewrite Hp9, Hp5, <- app_assoc. reflexivity.
Qed.

(** ** A frame and an error together *)





(** The two orders on the sample frame: the answer is "3" CR LF in both, sent
    before the two receive requests from line 308 and between them from
    line 319. *)
Example both_orders_on_sample_frame :
  hal_calls (main_steps echo_engine 9 error_after_frame_at_L308) =
    hal_calls error_after_frame_at_L308 ++
    [Call_Transmit ("3" ++ CRLF) 1000;
     Call_Receive_IT BUF_start_cmd 5; Call_Receive_IT BUF_start_cmd 5] /\
  input_buffer (main_steps echo_engine 9 error_after_frame_at_L319) =
    List.map (fun v => v - 128) sample_frame.
Proof. vm_compute. split; reflexivity. Qed.

(** * Further properties of main.c *)

(** ** Quantization, as a map on frames *)

(** X1.  On 784-byte frames quantization is the map v |-> v - 128; it does
    not depend on what the tensor held before; subtracting the zero point of
    the network's input tensor gives the frame back, so two frames with the
    same tensor are the same frame. *)
Theorem quantize_round_trip (img inp : list Z) :
  length img = IMG_SIZE -> length inp = IMG_SIZE ->
  forallb is_uint8b img = true ->
  quantize img inp = List.map (fun v => v - 128) img /\
  List.map (fun q => q - Network.INPUT_ZERO_POINT) (quantize img inp) = img /\
  (forall inp', length inp' = IMG_SIZE -> quantize img inp' = quantize img inp) /\
  (forall img', length img' = IMG_SIZE -> forallb is_uint8b img' = true ->
     quantize img' inp = quantize img inp -> img' = img).
Proof.
  intros Himg Hinp Hb.
  assert (Hback : forall l : list Z,
            List.map (fun q => q - Network.INPUT_ZERO_POINT)
                     (List.map (fun v => v - 128) l) = l).
  { intros l. rewrite List.map_map. rewrite <- (List.map_id l) at 2.
    apply List.map_ext. intros v. unfold Network.INPUT_ZERO_POINT. lia. }
  split; [now apply quantize_closed_form|].
  split; [rewrite quantize_closed_form by assumption; apply Hback|].
  split; [intros inp' Hinp'; now apply quantize_overwrites|].
  intros img' Himg' Hb' Heq.
  rewrite !quantize_closed_form in Heq by assumption.
  rewrite <- (Hback img'), Heq. apply Hback.
Qed.

Lemma quantize_round_trip_witness :
  let img := sample_frame in
  let inp := repeat 0 IMG_SIZE in
  quantize img inp = List.map (fun v => v - 128) img /\
  List.map (fun q => q - Network.INPUT_ZERO_POINT) (quantize img inp) = img /\
  (forall inp', length inp' = IMG_SIZE -> quantize img inp' = quantize img inp) /\
  (forall img', length img' = IMG_SIZE -> forallb is_uint8b img' = true ->
     quantize img' inp = quantize img inp -> img' = img).
Proof.
  apply (quantize_round_trip sample_frame (repeat 0 IMG_SIZE)); reflexivity.
Defined.

(** ** The reduction, characterized *)

(** An index that holds a maximum with every earlier score strictly smaller
    is the one the loop returns. *)
Lemma first_max_unique (out : list Z) (k : nat) :
  (k < NUM_CLASSES)%nat ->
  (forall j, (j < NUM_CLASSES)%nat -> out !!! j <= out !!! k) ->
  (forall j, (j < k)%nat -> out !!! j < out !!! k) ->
  predicted_class_of out = Z.of_nat k.
Proof.
  intros Hk Hmax Hfirst. unfold predicted_class_of, find_max.
  destruct (find_max_prefix out (NUM_CLASSES - 1))
    as (c & Hc & Hcn & Hmx & Hle & Hlt).
  cbv zeta in *. rewrite Hc. rewrite Hmx in Hle, Hlt.
  change (NUM_CLASSES - 1)%nat with 9%nat in *.
  change NUM_CLASSES with 10%nat in *.
  f_equal.
  destruct (Nat.lt_trichotomy c k) as [Hck|[Heq|Hkc]]; [|exact Heq|].
  - specialize (Hfirst c Hck). specialize (Hle k ltac:(lia)). lia.
  - specialize (Hlt k Hkc). specialize (Hmax c ltac:(lia)). lia.
Qed.

(** X2.  The predicted class is the only index that holds a maximum with
    every earlier score strictly smaller: any index of a 10-element output
    vector with that property is the class the loop returns.  So a vector
    whose last score alone is the largest gives class 9, and a vector of
    equal scores gives class 0. *)
Theorem predicted_class_unique (out : list Z) (k : nat) :
  length out = NUM_CLASSES -> (k < NUM_CLASSES)%nat ->
  (forall j, (j < NUM_CLASSES)%nat -> out !!! j <= out !!! k) ->
  (forall j, (j < k)%nat -> out !!! j < out !!! k) ->
  predicted_class_of out = Z.of_nat k.
Proof.
  intros _ Hk Hmax Hfirst. now apply first_max_unique.
Qed.

Lemma predicted_class_unique_witness :
  predicted_class_of [-128; -128; -128; -128; -128; -128; -128; -128; -128; -127]
  = 9.
Proof.
  apply (predicted_class_unique
           [-128; -128; -128; -128; -128; -128; -128; -128; -128; -127] 9).
  - reflexivity.
  - unfold NUM_CLASSES; lia.
  - intros j Hj. unfold NUM_CLASSES in Hj.
    do 10 (destruct j as [|j]; [vm_compute; discriminate|]). lia.
  - intros j Hj. do 9 (destruct j as [|j]; [vm_compute; reflexivity|]). lia.
Defined.

(** X3.  The class depends on the order of the scores only: applying a
    strictly increasing function to every score of a 10-element vector
    leaves the predicted class as it was. *)
Theorem predicted_class_monotone (f : Z -> Z) (out : list Z) :
  length out = NUM_CLASSES ->
  (forall x y, x < y -> f x < f y) ->
  predicted_class_of (List.map f out) = predicted_class_of out.
Proof.
  intros Hlen Hf.
  assert (Hget : forall j, (j < NUM_CLASSES)%nat ->
            List.map f out !!! j = f (out !!! j)).
  { intros j Hj. apply list_lookup_total_correct. rewrite lookup_map.
    rewrite (list_lookup_lookup_total_lt out) by lia. reflexivity. }
  assert (Hmono : forall x y, x <= y -> f x <= f y).
  { intros x y Hxy. destruct (Z.eq_dec x y) as [->|Hne]; [lia|].
    specialize (Hf x y). lia. }
  unfold predicted_class_of at 2. unfold find_max.
  destruct (find_max_prefix out (NUM_CLASSES - 1))
    as (c & Hc & Hcn & Hmx & Hle & Hlt).
  cbv zeta in *. rewrite Hc. rewrite Hmx in Hle, Hlt.
  change (NUM_CLASSES - 1)%nat with 9%nat in *.
  apply first_max_unique.
  - change NUM_CLASSES with 10%nat. lia.
  - intros j Hj. change NUM_CLASSES with 10%nat in *.
    rewrite !Hget by (change NUM_CLASSES with 10%nat; lia).
    apply Hmono, Hle. lia.
  - intros j Hj. change NUM_CLASSES with 10%nat in *.
    rewrite !Hget by (change NUM_CLASSES with 10%nat; lia).
    apply Hf, Hlt. exact Hj.
Qed.

Lemma predicted_class_monotone_witness :
  predicted_class_of
    (List.map (fun x => 2 * x + 7) [3; -5; 9; 9; 0; 1; 2; 8; -128; 127])
  = predicted_class_of [3; -5; 9; 9; 0; 1; 2; 8; -128; 127].
Proof.
  apply (predicted_class_monotone (fun x => 2 * x + 7)
           [3; -5; 9; 9; 0; 1; 2; 8; -128; 127]).
  - reflexivity.
  - intros x y Hxy. lia.
Defined.

(** ** AI_Init and AI_Run *)

(** X4.  AI_Init returns 0 or -1.  It returns 0 exactly when the engine
    reports no error and gives two non-null descriptors.  The handle the
    engine gives is stored in every case.  When the engine reports an error
    the descriptors are not asked for: [ai_input] and [ai_output] stay as
    they were.  Nothing but the three engine variables changes. *)
Theorem AI_Init_result (E : Engine) (d : Device) :
  let net := fst (ai_network_create_and_init E (network d)) in
  let err := snd (ai_network_create_and_init E (network d)) in
  let d' := fst (AI_Init E d) in
  let r := snd (AI_Init E d) in
  (r = 0 \/ r = -1) /\
  (r = 0 <->
     err = AI_ERROR_NONE /\ ai_network_inputs_get E net <> 0 /\
     ai_network_outputs_get E net <> 0) /\
  network d' = net /\
  (err <> AI_ERROR_NONE ->
     ai_input d' = ai_input d /\ ai_output d' = ai_output d) /\
  (err = AI_ERROR_NONE ->
     ai_input d' = ai_network_inputs_get E net /\
     ai_output d' = ai_network_outputs_get E net) /\
  d' = set_engine (network d') (ai_input d') (ai_output d') d.
Proof.
  unfold AI_Init.
  destruct (ai_network_create_and_init E (network d)) as [net err].
  cbn [fst snd].
  destruct (Z.eqb_spec err AI_ERROR_NONE) as [He|He]; cbn [negb].
  - destruct (Z.eqb_spec (ai_network_inputs_get E net) 0) as [Hi|Hi];
      [|destruct (Z.eqb_spec (ai_network_outputs_get E net) 0) as [Ho|Ho]];
      cbn [orb fst snd]; fields;
      (split; [lia|]); (split; [split; [try discriminate; tauto|tauto]|]);
      repeat split; try reflexivity; try contradiction.
  - cbn [fst snd]. fields.
    split; [lia|]. split; [split; [discriminate|tauto]|].
    repeat split; try reflexivity; try contradiction.
Qed.

Lemma AI_Init_result_witness :
  snd (AI_Init dead_engine (power_on [])) = -1 /\
  ai_input (fst (AI_Init dead_engine (power_on []))) = 0 /\
  ai_output (fst (AI_Init dead_engine (power_on []))) = 0.
Proof.
  destruct (AI_Init_result dead_engine (power_on []))
    as (Hr & Hiff & _ & Hkeep & _).
  cbv zeta in Hr, Hiff, Hkeep.
  split.
  - destruct Hr as [H0|H1]; [|exact H1].
    apply Hiff in H0. destruct H0 as (He & _). vm_compute in He.
    discriminate He.
  - apply Hkeep. vm_compute. discriminate.
Defined.

(** X5.  AI_Run returns 0 or -1, and 0 exactly when the handle and both
    descriptors are non-null and the engine returns a batch count of 1.
    When one of the three is null the engine is not run and the device is
    left exactly as it was.  In every case the image, the input tensor, the
    HAL calls and the protocol variables are untouched. *)
Theorem AI_Run_result (E : Engine) (d : Device) :
  let ready :=
    network d <> AI_HANDLE_NULL /\ ai_input d <> 0 /\ ai_output d <> 0 in
  let batch :=
    fst (fst (ai_network_run E (network d) (ai_input d) (ai_output d)
                (activations d) (input_buffer d) (output_buffer d))) in
  let d' := fst (AI_Run E d) in
  let r := snd (AI_Run E d) in
  (r = 0 \/ r = -1) /\
  (r = 0 <-> ready /\ batch = 1) /\
  (~ ready -> d' = d) /\
  input_buffer d' = input_buffer d /\ img_buffer d' = img_buffer d /\
  hal_calls d' = hal_calls d /\ rx_pending d' = rx_pending d /\
  app_state d' = app_state d /\ rx_complete d' = rx_complete d /\
  rx_error d' = rx_error d /\ pc d' = pc d.
Proof.
  unfold AI_Run.
  destruct (Z.eqb_spec (network d) AI_HANDLE_NULL) as [Hn|Hn];
    [cbn [orb fst snd]; split; [lia|]; split;
       [split; [discriminate|tauto]|]; repeat split|].
  destruct (Z.eqb_spec (ai_input d) 0) as [Hi|Hi];
    [cbn [orb fst snd]; split; [lia|]; split;
       [split; [discriminate|tauto]|]; repeat split|].
  destruct (Z.eqb_spec (ai_output d) 0) as [Ho|Ho];
    [cbn [orb fst snd]; split; [lia|]; split;
       [split; [discriminate|tauto]|]; repeat split|].
  cbn [orb].
  destruct (ai_network_run _ _ _ _ _ _ _) as [[batch act] out].
  cbn [fst snd].
  destruct (Z.eqb_spec batch 1) as [Hb|Hb]; cbn [negb fst snd]; fields.
  - split; [lia|]. split; [tauto|]. split; [tauto|]. repeat split.
  - split; [lia|]. split; [split; [discriminate|tauto]|].
    split; [tauto|]. repeat split.
Qed.

Lemma AI_Run_result_witness :
  fst (AI_Run echo_engine (power_on [])) = power_on [].
Proof.
  destruct (AI_Run_result echo_engine (power_on [])) as (_ & _ & Hsame & _).
  apply Hsame. intros (Hn & _). apply Hn. reflexivity.
Defined.

(** ** The pipeline's input and output *)

(** X6.  ProcessInference makes exactly one HAL call, a transmit with a
    timeout of 1000: on success the three bytes digit, CR, LF for a class in
    [0, 10), on failure the line "ERROR: Inference failed" CR LF.  It makes
    no receive request and leaves the image, the command buffer, the
    protocol state, both flags and the engine variables as they were. *)
Theorem ProcessInference_io (E : Engine) (d : Device) :
  let d' := ProcessInference E d in
  (exists line, hal_calls d' = hal_calls d ++ [Call_Transmit line 1000] /\
     ((exists c, pipeline_result E d = Some c /\ 0 <= c < 10 /\
                 line = digit_line c /\ String.length line = 3%nat) \/
      (pipeline_result E d = None /\
       line = ("ERROR: Inference failed" ++ CRLF)%string))) /\
  rx_pending d' = rx_pending d /\ receives d' = receives d /\
  img_buffer d' = img_buffer d /\
  start_cmd_buffer d' = start_cmd_buffer d /\
  app_state d' = app_state d /\ rx_complete d' = rx_complete d /\
  rx_error d' = rx_error d /\ network d' = network d /\
  ai_input d' = ai_input d /\ ai_output d' = ai_output d.
Proof.
  intros d'. subst d'.
  pose proof (ProcessInference_frame E d) as Hfr. cbv zeta in Hfr.
  destruct Hfr as (Himg & Hst & Hrc & Hre & _ & Hp & Hcmd & Hn & Hi & Ho).
  pose proof (ProcessInference_calls E d) as Hcalls.
  split.
  - exists (response (pipeline_result E d)). split; [exact Hcalls|].
    destruct (pipeline_result E d) as [c|] eqn:Hres.
    + left. exists c. pose proof (pipeline_result_digit E d c Hres) as Hc.
      split; [reflexivity|]. split; [exact Hc|]. split; [reflexivity|].
      cbn [response].
      assert (Hcases : c = 0 \/ c = 1 \/ c = 2 \/ c = 3 \/ c = 4 \/ c = 5 \/
                       c = 6 \/ c = 7 \/ c = 8 \/ c = 9) by lia.
      repeat (destruct Hcases as [-> | Hcases]); try subst c; reflexivity.
    + right. split; reflexivity.
  - split; [exact Hp|]. split.
    + unfold receives. rewrite Hcalls, flat_map_app. cbn.
      apply app_nil_r.
    + repeat split; assumption.
Qed.

(** ** The callbacks and other UARTs *)

(** X7.  Both callbacks act for [USART2] only: called for any other UART
    instance they return the device exactly as it was, in every state. *)
Theorem callbacks_ignore_other_uarts (instance : USART_TypeDef) (d : Device) :
  instance <> USART2 ->
  HAL_UART_RxCpltCallback instance d = d /\
  HAL_UART_ErrorCallback instance d = d.
Proof.
  intros Hi. unfold HAL_UART_RxCpltCallback, HAL_UART_ErrorCallback.
  destruct instance; [|contradiction|]; split; reflexivity.
Qed.

Lemma callbacks_ignore_other_uarts_witness :
  HAL_UART_RxCpltCallback USART6 receiving_image = receiving_image /\
  HAL_UART_ErrorCallback USART6 receiving_image = receiving_image.
Proof.
  apply (callbacks_ignore_other_uarts USART6 receiving_image). discriminate.
Defined.

(** ** Polling *)

(** X8.  With both flags clear, a pass of the loop (the two tests of lines
    308 and 319) changes nothing at all: no HAL call, no state change, and
    [main] is back at line 308. *)
Theorem idle_poll_is_noop (E : Engine) (d : Device) :
  pc d = L308 -> rx_complete d = 0 -> rx_error d = 0 ->
  main_steps E 2 d = d.
Proof.
  intros Hpc Hrc Hre.
  rewrite main_steps_S, at_L308_clear by assumption.
  rewrite main_steps_S, at_L319_clear by (reflexivity || assumption).
  destruct d. cbn in *. subst. reflexivity.
Qed.

Lemma idle_poll_is_noop_witness :
  main_steps echo_engine 2 booted_echo = booted_echo.
Proof.
  apply (idle_poll_is_noop echo_engine booted_echo); reflexivity.
Defined.

(** ** Calls stay within the protocol *)

Lemma response_in_protocol (E : Engine) (d : Device) :
  In (response (pipeline_result E d)) protocol_lines.
Proof.
  destruct (pipeline_result E d) as [c|] eqn:Hres.
  - pose proof (pipeline_result_digit E d c Hres) as Hc.
    unfold protocol_lines. apply in_or_app. right.
    apply (in_map digit_line). cbn. lia.
  - cbn. tauto.
Qed.

Lemma fill_length (old data : list Z) :
  (length data <= length old)%nat -> length (fill old data) = length old.
Proof.
  intros Hle. unfold fill. rewrite length_app, length_drop. lia.
Qed.

Lemma AI_Init_buffers (E : Engine) (d : Device) :
  img_buffer (fst (AI_Init E d)) = img_buffer d /\
  start_cmd_buffer (fst (AI_Init E d)) = start_cmd_buffer d.
Proof.
  unfold AI_Init.
  destruct (ai_network_create_and_init E (network d)) as [net err].
  destruct (negb _); [cbn; split; reflexivity|].
  destruct (_ || _); cbn; split; reflexivity.
Qed.

Lemma wire_inv_call (c : HalCall) (d d' : Device) :
  wire_inv d -> call_ok c ->
  hal_calls d' = hal_calls d ++ [c] ->
  rx_pending d' = rx_pending d ++ receive_of c ->
  start_cmd_buffer d' = start_cmd_buffer d ->
  img_buffer d' = img_buffer d ->
  wire_inv d'.
Proof.
  intros (Hc & Hp & Hl1 & Hl2) Hok Hcalls Hpend Hb1 Hb2.
  unfold wire_inv. rewrite Hcalls, Hpend, Hb1, Hb2.
  split; [apply Forall_app; split; [exact Hc|repeat constructor; exact Hok]|].
  split; [|split; assumption].
  apply Forall_app. split; [exact Hp|].
  destruct c; cbn in *; repeat constructor. exact Hok.
Qed.

Lemma wire_inv_quiet (d d' : Device) :
  wire_inv d ->
  hal_calls d' = hal_calls d -> rx_pending d' = rx_pending d ->
  start_cmd_buffer d' = start_cmd_buffer d ->
  img_buffer d' = img_buffer d ->
  wire_inv d'.
Proof.
  intros H Hcalls Hpend Hb1 Hb2. unfold wire_inv.
  rewrite Hcalls, Hpend, Hb1, Hb2. exact H.
Qed.

Section Wire.

Variable E : Engine.

Lemma wire_inv_power_on (act : list Z) : wire_inv (power_on act).
Proof. repeat split; constructor. Qed.

Lemma wire_inv_main (d : Device) : wire_inv d -> wire_inv (main_step E d).
Proof.
  intros H. destruct (pc d) eqn:Hpc.
  - pose proof (AI_Init_frame E d) as Hfr. cbv zeta in Hfr.
    destruct Hfr as (_ & _ & _ & _ & Hc & Hp & _).
    destruct (AI_Init_buffers E d) as [Hb1 Hb2].
    destruct (Z.eq_dec (snd (AI_Init E d)) 0) as [Hr|Hr];
      [rewrite at_L274_ok by assumption|rewrite at_L274_failed by assumption];
      apply (wire_inv_quiet d); fields; assumption.
  - rewrite at_L277 by assumption.
    apply (wire_inv_call (Call_Transmit init_failed_msg 1000) d);
      [exact H|cbn; tauto|reflexivity|fields; cbn; symmetry; apply app_nil_r
      |reflexivity|reflexivity].
  - rewrite at_L280 by assumption. exact H.
  - rewrite at_L284 by assumption.
    apply (wire_inv_call (Call_Delay 200) d);
      [exact H|exact I|reflexivity|fields; cbn; symmetry; apply app_nil_r
      |reflexivity|reflexivity].
  - rewrite at_L289 by assumption.
    apply (wire_inv_call (Call_Transmit ready_msg HAL_MAX_DELAY) d);
      [exact H|cbn; tauto|reflexivity|fields; cbn; symmetry; apply app_nil_r
      |reflexivity|reflexivity].
  - rewrite at_L294 by assumption. apply (wire_inv_quiet d); auto.
  - rewrite at_L295 by assumption.
    apply (wire_inv_call (Call_Receive_IT BUF_start_cmd 5) d);
      [exact H|reflexivity|reflexivity|reflexivity|reflexivity|reflexivity].
  - unfold main_step. rewrite Hpc.
    destruct (negb _); apply (wire_inv_quiet d); auto.
  - rewrite at_L310 by assumption. apply (wire_inv_quiet d); auto.
  - rewrite at_L311 by assumption.
    pose proof (ProcessInference_frame E d) as Hfr. cbv zeta in Hfr.
    destruct Hfr as (Himg & _ & _ & _ & _ & Hp & Hcmd & _).
    apply (wire_inv_call
             (Call_Transmit (response (pipeline_result E d)) 1000) d);
      [exact H|apply response_in_protocol|apply ProcessInference_calls
      |fields; cbn; rewrite app_nil_r; exact Hp|exact Hcmd|exact Himg].
  - rewrite at_L314 by assumption. apply (wire_inv_quiet d); auto.
  - rewrite at_L315 by assumption.
    apply (wire_inv_call (Call_Receive_IT BUF_start_cmd 5) d);
      [exact H|reflexivity|reflexivity|reflexivity|reflexivity|reflexivity].
  - unfold main_step. rewrite Hpc.
    destruct (negb _); apply (wire_inv_quiet d); auto.
  - rewrite at_L321 by assumption. apply (wire_inv_quiet d); auto.
  - rewrite at_L324 by assumption. apply (wire_inv_quiet d); auto.
  - rewrite at_L325 by assumption.
    apply (wire_inv_call (Call_Receive_IT BUF_start_cmd 5) d);
      [exact H|reflexivity|reflexivity|reflexivity|reflexivity|reflexivity].
Qed.

(** The receiver writes within the buffer it was given. *)
Lemma wire_inv_received (d : Device) (buf : RxBuf) (size : nat)
    (rest : list RxRequest) (data : list Z) :
  wire_inv d -> rx_pending d = (buf, size) :: rest ->
  (length data <= size)%nat ->
  wire_inv (write_buf buf data (set_hal (hal_calls d) rest d)).
Proof.
  intros (Hc & Hp & Hl1 & Hl2) Hpend Hlen.
  rewrite Hpend in Hp. apply Forall_cons in Hp. destruct Hp as [Hr Hrest].
  unfold request_ok in Hr. cbn [fst snd] in Hr. subst size.
  unfold wire_inv. destruct buf; cbn [write_buf buf_size] in *; fields;
    (split; [exact Hc|]); (split; [exact Hrest|]).
  - split; [|exact Hl2]. rewrite fill_length; lia.
  - split; [exact Hl1|]. rewrite fill_length; lia.
Qed.

Lemma wire_inv_RxCplt (d : Device) :
  wire_inv d -> wire_inv (HAL_UART_RxCpltCallback USART2 d).
Proof.
  intros H. unfold HAL_UART_RxCpltCallback. cbn [USART_eqb].
  destruct (app_state d); try exact H.
  - destruct (_ =? 0).
    + apply (wire_inv_call (Call_Receive_IT BUF_img IMG_SIZE) d);
        [exact H|reflexivity|reflexivity|reflexivity|reflexivity|reflexivity].
    + apply (wire_inv_call (Call_Receive_IT BUF_start_cmd 5) d);
        [exact H|reflexivity|reflexivity|reflexivity|reflexivity|reflexivity].
Qed.

Lemma wire_inv_Error (d : Device) :
  wire_inv d -> wire_inv (HAL_UART_ErrorCallback USART2 d).
Proof.
  intros H. unfold HAL_UART_ErrorCallback. cbn [USART_eqb].
  apply (wire_inv_call (Call_Transmit uart_error_msg 1000) d);
    [exact H|cbn; tauto|reflexivity|fields; cbn; symmetry; apply app_nil_r
    |reflexivity|reflexivity].
Qed.

Lemma wire_inv_step (e : Event) (d d' : Device) :
  wire_inv d -> step E e d = Some d' -> wire_inv d'.
Proof.
  intros H Hs. destruct e as [|data|partial]; cbn [step] in Hs.
  - injection Hs as <-. apply wire_inv_main, H.
  - destruct (rx_pending d) as [|[buf size] rest] eqn:Hp; [discriminate|].
    destruct (Nat.eqb_spec (length data) size) as [Hlen|Hlen];
      [|discriminate].
    destruct (forallb _ _); [|discriminate]. injection Hs as <-.
    apply wire_inv_RxCplt, (wire_inv_received d buf size rest); auto. lia.
  - destruct (rx_pending d) as [|[buf size] rest] eqn:Hp; [discriminate|].
    destruct (Nat.ltb_spec (length partial) size) as [Hlen|Hlen];
      [|discriminate].
    destruct (forallb _ _); [|discriminate]. injection Hs as <-.
    apply wire_inv_Error, (wire_inv_received d buf size rest); auto. lia.
Qed.

Lemma reachable_wire (d : Device) : reachable E d -> wire_inv d.
Proof.
  intros (act & evs & Hrun).
  apply (run_preserves E wire_inv) with (3 := Hrun).
  - apply wire_inv_step.
  - apply wire_inv_power_on.
Qed.

End Wire.

Lemma receives_ok (calls : list HalCall) :
  Forall call_ok calls -> Forall request_ok (flat_map receive_of calls).
Proof.
  induction 1 as [|c calls Hc _ IH]; [constructor|].
  cbn [flat_map]. apply Forall_app. split; [|exact IH].
  destruct c; cbn; repeat constructor. exact Hc.
Qed.

Lemma transmits_ok (calls : list HalCall) :
  Forall call_ok calls ->
  Forall (fun s => In s protocol_lines) (flat_map transmit_of calls).
Proof.
  induction 1 as [|c calls Hc _ IH]; [constructor|].
  cbn [flat_map]. apply Forall_app. split; [|exact IH].
  destruct c; cbn [transmit_of];
    [apply Forall_cons; split; [exact Hc|constructor]
    |constructor|constructor].
Qed.

(** X9.  In every reachable state, every receive request made so far, and
    every one still outstanding, asks for exactly the size of the array it
    names (5 bytes for [start_cmd_buffer], 784 for [img_buffer]), and the
    three arrays still have their declared sizes: no request can make the
    receiver write past an array. *)
Theorem receives_fit_buffers (E : Engine) (d : Device) :
  reachable E d ->
  Forall (fun r => snd r = buf_size (fst r)) (receives d) /\
  Forall (fun r => snd r = buf_size (fst r)) (rx_pending d) /\
  length (start_cmd_buffer d) = buf_size BUF_start_cmd /\
  length (img_buffer d) = buf_size BUF_img /\
  length (input_buffer d) = IMG_SIZE.
Proof.
  intros Hr.
  destruct (reachable_wire E d Hr) as (Hc & Hp & Hl1 & Hl2).
  destruct (reachable_inv E d Hr) as [_ (Hl3 & _)].
  split; [apply receives_ok, Hc|]. split; [exact Hp|].
  repeat split; assumption.
Qed.

Lemma receives_fit_buffers_witness :
  let d := frame_answered in
  Forall (fun r => snd r = buf_size (fst r)) (receives d) /\
  Forall (fun r => snd r = buf_size (fst r)) (rx_pending d) /\
  length (start_cmd_buffer d) = buf_size BUF_start_cmd /\
  length (img_buffer d) = buf_size BUF_img /\
  length (input_buffer d) = IMG_SIZE.
Proof.
  apply (receives_fit_buffers echo_engine frame_answered).
  exists [], (repeat EvMain 5 ++ [EvRxCplt START; EvRxCplt sample_frame]
                ++ repeat EvMain 6).
  vm_compute. reflexivity.
Defined.

(** X10.  In every reachable state, every line handed to the transmitter is
    one of: the ready banner, "AI Init Failed!", "ERROR: UART error",
    "ERROR: Inference failed" (each with CR LF), or one digit 0-9 with
    CR LF.  Nothing else is ever sent. *)
Theorem only_protocol_lines (E : Engine) (d : Device) (s : string) :
  reachable E d -> In s (transmitted d) ->
  s = ready_msg \/ s = init_failed_msg \/ s = uart_error_msg \/
  s = ("ERROR: Inference failed" ++ CRLF)%string \/
  exists c, 0 <= c < 10 /\ s = digit_line c.
Proof.
  intros Hr Hin.
  destruct (reachable_wire E d Hr) as (Hc & _).
  apply transmits_ok in Hc. rewrite List.Forall_forall in Hc.
  specialize (Hc s Hin). unfold protocol_lines in Hc.
  apply in_app_or in Hc. destruct Hc as [Hc|Hc].
  - cbn in Hc. destruct Hc as [<-|[<-|[<-|[<-|[]]]]]; tauto.
  - right; right; right; right. apply in_map_iff in Hc.
    destruct Hc as (c & <- & Hc). exists c. split; [cbn in Hc; lia|reflexivity].
Qed.

Lemma only_protocol_lines_witness :
  let s := ("3" ++ CRLF)%string in
  s = ready_msg \/ s = init_failed_msg \/ s = uart_error_msg \/
  s = ("ERROR: Inference failed" ++ CRLF)%string \/
  exists c, 0 <= c < 10 /\ s = digit_line c.
Proof.
  apply (only_protocol_lines echo_engine frame_answered).
  - exists [], (repeat EvMain 5 ++ [EvRxCplt START; EvRxCplt sample_frame]
                  ++ repeat EvMain 6).
    vm_compute. reflexivity.
  - vm_compute. tauto.
Defined.

(** ** After a successful start-up *)

Section Started.

Variable E : Engine.

Lemma AI_Init_started (d : Device) :
  network d = AI_HANDLE_NULL -> snd (AI_Init E d) = 0 -> engine_started E.
Proof.
  unfold AI_Init, engine_started, booted_input, booted_output, booted_network.
  intros ->.
  destruct (ai_network_create_and_init E AI_HANDLE_NULL) as [net err].
  cbn [fst snd].
  destruct (Z.eqb_spec err AI_ERROR_NONE) as [He|He]; cbn [negb];
    [|cbn; discriminate].
  destruct (Z.eqb_spec (ai_network_inputs_get E net) 0) as [Hi|Hi];
    [cbn; discriminate|].
  destruct (Z.eqb_spec (ai_network_outputs_get E net) 0) as [Ho|Ho];
    [cbn; discriminate|].
  intros _. repeat split; assumption.
Qed.

(** A state in service comes from a state in service, or from line 274. *)
Lemma in_service_before (e : Event) (d d' : Device) :
  step E e d = Some d' -> in_service (pc d') = true ->
  in_service (pc d) = true \/
  (pc d = L274 /\ e = EvMain /\ snd (AI_Init E d) = 0).
Proof.
  intros Hs Hsvc. destruct e as [|data|partial]; cbn [step] in Hs.
  - injection Hs as <-. destruct (pc d) eqn:Hpc; try (left; reflexivity).
    + right. split; [reflexivity|]. split; [reflexivity|].
      destruct (Z.eq_dec (snd (AI_Init E d)) 0) as [Hr|Hr]; [exact Hr|].
      rewrite at_L274_failed in Hsvc by assumption. discriminate Hsvc.
    + rewrite at_L277 in Hsvc by assumption. discriminate Hsvc.
    + rewrite at_L280, Hpc in Hsvc by assumption. discriminate Hsvc.
  - destruct (rx_pending d) as [|[buf size] rest]; [discriminate|].
    destruct (_ && _); [|discriminate]. injection Hs as <-.
    rewrite RxCplt_pc, write_buf_pc in Hsvc. left. exact Hsvc.
  - destruct (rx_pending d) as [|[buf size] rest]; [discriminate|].
    destruct (_ && _); [|discriminate]. injection Hs as <-.
    rewrite Error_pc, write_buf_pc in Hsvc. left. exact Hsvc.
Qed.

Lemma reachable_started (d : Device) :
  reachable E d -> in_service (pc d) = true -> engine_started E.
Proof.
  intros (act & evs & Hrun).
  assert (Hgen : forall evs d0 d1,
            inv E d0 -> (in_service (pc d0) = true -> engine_started E) ->
            run E evs d0 = Some d1 ->
            in_service (pc d1) = true -> engine_started E).
  { clear. intros evs. induction evs as [|e evs IH]; intros d0 d1 Hinv H0 Hrun.
    - cbn in Hrun. injection Hrun as <-. exact H0.
    - cbn [run] in Hrun.
      destruct (step E e d0) as [d'|] eqn:Hs; [|discriminate].
      apply (IH d' d1); [apply (inv_step E e d0); assumption| |exact Hrun].
      intros Hsvc.
      destruct (in_service_before e d0 d' Hs Hsvc) as [H|(Hpc & _ & Hr)];
        [exact (H0 H)|].
      destruct Hinv as [_ (_ & Hnull & _)].
      exact (AI_Init_started d0 (Hnull Hpc) Hr). }
  apply (Hgen evs (power_on act) d); [apply inv_power_on| |exact Hrun].
  cbn. discriminate.
Qed.

End Started.

(** X11.  Once start-up has succeeded, in every reachable state the engine
    variables hold what AI_Init stored, and the two descriptors are not
    null.  So the pipeline then fails exactly when the engine returns a
    batch count other than 1, or when the engine gave a null handle while
    reporting no error (AI_Init does not test the handle, AI_Run does). *)
Theorem failure_causes_in_service (E : Engine) (d : Device) :
  reachable E d -> in_service (pc d) = true ->
  network d = booted_network E /\
  ai_input d = booted_input E /\ ai_input d <> 0 /\
  ai_output d = booted_output E /\ ai_output d <> 0 /\
  (pipeline_result E d = None <->
     booted_network E = AI_HANDLE_NULL \/ batch_count E d <> 1).
Proof.
  intros Hr Hsvc.
  destruct (reachable_inv E d Hr) as [_ (_ & _ & He)].
  destruct (He Hsvc) as (Hn & Hi & Ho).
  destruct (reachable_started E d Hr Hsvc) as (_ & Hi0 & Ho0).
  split; [exact Hn|]. split; [exact Hi|]. split; [congruence|].
  split; [exact Ho|]. split; [congruence|].
  rewrite pipeline_result_None, Hn, Hi, Ho. tauto.
Qed.

Lemma failure_causes_in_service_witness :
  let d := frame_received in
  network d = booted_network echo_engine /\
  ai_input d = booted_input echo_engine /\ ai_input d <> 0 /\
  ai_output d = booted_output echo_engine /\ ai_output d <> 0 /\
  (pipeline_result echo_engine d = None <->
     booted_network echo_engine = AI_HANDLE_NULL \/
     batch_count echo_engine d <> 1).
Proof.
  apply (failure_causes_in_service echo_engine frame_received).
  - exists [], (repeat EvMain 5 ++ [EvRxCplt START; EvRxCplt sample_frame]).
    vm_compute. reflexivity.
  - vm_compute. reflexivity.
Defined.

(** ** The loop always comes back to listening *)

Section Settle.

Variable E : Engine.

Lemma settles_S (n : nat) (d : Device) :
  settles E n (main_step E d) -> settles E (S n) d.
Proof. intros H. exact H. Qed.

Lemma settles_L308 (d : Device) :
  pc d = L308 -> listening d -> settles E 0 d.
Proof. intros Hpc Hl. split; assumption. Qed.

Lemma settles_L319 (d : Device) :
  pc d = L319 -> listening d -> settles E 1 d.
Proof.
  intros Hpc Hl. apply settles_S.
  rewrite at_L319_clear by (assumption || apply Hl).
  apply settles_L308; [reflexivity|exact Hl].
Qed.

(** About to arm the command receive (lines 295, 315, 325). *)
Lemma settles_arming (d : Device) :
  pc d = L295 \/ pc d = L315 \/ pc d = L325 ->
  rx_pending d = [] -> rx_complete d = 0 -> rx_error d = 0 ->
  app_state d = STATE_WAIT_START ->
  exists n, (n <= 2)%nat /\ settles E n d.
Proof.
  intros Hpc Hp Hrc Hre Hst.
  assert (Hl : forall p, listening
                 (set_pc p (HAL_UART_Receive_IT BUF_start_cmd 5 d))).
  { intros p. unfold listening. fields. rewrite Hp. cbn. tauto. }
  destruct Hpc as [Hpc|[Hpc|Hpc]].
  - exists 1%nat. split; [lia|]. apply settles_S. rewrite at_L295 by assumption.
    apply settles_L308; [reflexivity|apply Hl].
  - exists 2%nat. split; [lia|]. apply settles_S. rewrite at_L315 by assumption.
    apply settles_L319; [reflexivity|apply Hl].
  - exists 1%nat. split; [lia|]. apply settles_S. rewrite at_L325 by assumption.
    apply settles_L308; [reflexivity|apply Hl].
Qed.

Lemma settles_more (n m : nat) (d : Device) :
  (exists k, (k <= n)%nat /\ settles E k (main_step E d)) -> (S n <= m)%nat ->
  exists k, (k <= m)%nat /\ settles E k d.
Proof.
  intros (k & Hk & H) Hm. exists (S k). split; [lia|]. apply settles_S, H.
Qed.

(** With no interrupt, [main] is polling with the receiver listening after
    at most seven statements, from every program point past a successful
    start-up that the invariant allows. *)
Lemma phase_settles (d : Device) :
  phase_inv d -> in_service (pc d) = true ->
  exists n, (n <= 7)%nat /\ settles E n d.
Proof.
  intros H Hsvc.
  assert (Harm : forall dx,
            pc dx = L295 \/ pc dx = L315 \/ pc dx = L325 ->
            rx_pending dx = [] -> rx_complete dx = 0 -> rx_error dx = 0 ->
            app_state dx = STATE_WAIT_START ->
            exists n, (n <= 2)%nat /\ settles E n dx)
    by apply settles_arming.
  assert (H314 : forall dx, pc dx = L314 \/ pc dx = L324 ->
            rx_pending dx = [] -> rx_complete dx = 0 -> rx_error dx = 0 ->
            exists n, (n <= 3)%nat /\ settles E n dx).
  { intros dx Hpc Hp Hrc Hre. apply (settles_more 2); [|lia].
    destruct Hpc as [Hpc|Hpc];
      [rewrite at_L314 by assumption|rewrite at_L324 by assumption];
      apply Harm; fields; auto. }
  assert (H311 : forall dx, pc dx = L311 ->
            rx_pending dx = [] -> rx_complete dx = 0 -> rx_error dx = 0 ->
            exists n, (n <= 4)%nat /\ settles E n dx).
  { intros dx Hpc Hp Hrc Hre. apply (settles_more 3); [|lia].
    rewrite at_L311 by assumption.
    pose proof (ProcessInference_frame E dx) as Hfr. cbv zeta in Hfr.
    destruct Hfr as (_ & _ & Fc & Fe & _ & Fp & _).
    apply H314; fields; [left; reflexivity|congruence..]. }
  assert (H310 : forall dx, pc dx = L310 ->
            rx_pending dx = [] -> rx_error dx = 0 ->
            exists n, (n <= 5)%nat /\ settles E n dx).
  { intros dx Hpc Hp Hre. apply (settles_more 4); [|lia].
    rewrite at_L310 by assumption. apply H311; fields; auto. }
  assert (H321 : forall dx, pc dx = L321 ->
            rx_pending dx = [] -> rx_complete dx = 0 ->
            exists n, (n <= 4)%nat /\ settles E n dx).
  { intros dx Hpc Hp Hrc. apply (settles_more 3); [|lia].
    rewrite at_L321 by assumption. apply H314; fields; auto. }
  assert (H308 : forall dx, pc dx = L308 ->
            (rx_pending dx = [] /\ rx_complete dx <> 0 /\ rx_error dx = 0) ->
            exists n, (n <= 6)%nat /\ settles E n dx).
  { intros dx Hpc (Hp & Hrc & Hre). apply (settles_more 5); [|lia].
    rewrite at_L308_set by assumption. apply H310; fields; auto. }
  assert (H319 : forall dx, pc dx = L319 ->
            (rx_pending dx = [] /\ rx_complete dx = 0 /\ rx_error dx <> 0) ->
            exists n, (n <= 5)%nat /\ settles E n dx).
  { intros dx Hpc (Hp & Hrc & Hre). apply (settles_more 4); [|lia].
    rewrite at_L319_set by assumption. apply H321; fields; auto. }
  unfold phase_inv in H. destruct (pc d) eqn:Hpc; try discriminate Hsvc.
  - (* L284 *)
    destruct H as (Hp & Hrc & Hre).
    apply (settles_more 4); [|lia]. rewrite at_L284 by assumption.
    apply (settles_more 3); [|lia]. rewrite at_L289 by reflexivity.
    apply (settles_more 2); [|lia]. rewrite at_L294 by reflexivity.
    apply Harm; fields; auto.
  - (* L289 *)
    destruct H as (Hp & Hrc & Hre).
    apply (settles_more 3); [|lia]. rewrite at_L289 by assumption.
    apply (settles_more 2); [|lia]. rewrite at_L294 by reflexivity.
    apply Harm; fields; auto.
  - (* L294 *)
    destruct H as (Hp & Hrc & Hre).
    apply (settles_more 2); [|lia]. rewrite at_L294 by assumption.
    apply Harm; fields; auto.
  - (* L295 *)
    destruct H as (Hp & Hrc & Hre & Hst).
    destruct (Harm d) as (n & Hn & Hs); auto. exists n. split; [lia|exact Hs].
  - (* L308 *)
    destruct H as [Hl|[Hc|(Hp & Hrc & Hre)]].
    + exists 0%nat. split; [lia|]. apply settles_L308; assumption.
    + destruct (H308 d Hpc Hc) as (n & Hn & Hs). exists n. split; [lia|exact Hs].
    + apply (settles_more 5); [|lia]. rewrite at_L308_clear by assumption.
      apply H319; fields; auto.
  - (* L310 *)
    destruct H as (Hp & Hre).
    destruct (H310 d Hpc Hp Hre) as (n & Hn & Hs). exists n. split; [lia|exact Hs].
  - (* L311 *)
    destruct H as (Hp & Hrc & Hre).
    destruct (H311 d Hpc Hp Hrc Hre) as (n & Hn & Hs).
    exists n. split; [lia|exact Hs].
  - (* L314 *)
    destruct H as (Hp & Hrc & Hre).
    destruct (H314 d (or_introl Hpc) Hp Hrc Hre) as (n & Hn & Hs).
    exists n. split; [lia|exact Hs].
  - (* L315 *)
    destruct H as (Hp & Hrc & Hre & Hst).
    destruct (Harm d) as (n & Hn & Hs); auto. exists n. split; [lia|exact Hs].
  - (* L319 *)
    destruct H as [Hl|[(Hp & Hrc & Hre)|He]].
    + exists 1%nat. split; [lia|]. apply settles_L319; assumption.
    + apply (settles_more 6); [|lia]. rewrite at_L319_clear by assumption.
      apply H308; fields; auto.
    + destruct (H319 d Hpc He) as (n & Hn & Hs). exists n. split; [lia|exact Hs].
  - (* L321 *)
    destruct H as (Hp & Hrc).
    destruct (H321 d Hpc Hp Hrc) as (n & Hn & Hs). exists n. split; [lia|exact Hs].
  - (* L324 *)
    destruct H as (Hp & Hrc & Hre).
    destruct (H314 d (or_intror Hpc) Hp Hrc Hre) as (n & Hn & Hs).
    exists n. split; [lia|exact Hs].
  - (* L325 *)
    destruct H as (Hp & Hrc & Hre & Hst).
    destruct (Harm d) as (n & Hn & Hs); auto. exists n. split; [lia|exact Hs].
Qed.

End Settle.

(** X12.  From every reachable state past a successful start-up, [main]
    alone (no further interrupt) is back at the poll of line 308 within
    seven statements, with both flags clear and one receive outstanding
    that matches the protocol state: the loop never gets stuck and never
    leaves the receiver unarmed. *)
Theorem returns_to_listening (E : Engine) (d : Device) :
  reachable E d -> in_service (pc d) = true ->
  exists n, (n <= 7)%nat /\
    let d' := main_steps E n d in
    pc d' = L308 /\ rx_complete d' = 0 /\ rx_error d' = 0 /\
    ((app_state d' = STATE_WAIT_START /\
      rx_pending d' = [(BUF_start_cmd, 5%nat)]) \/
     (app_state d' = STATE_RECEIVE_IMAGE /\
      rx_pending d' = [(BUF_img, IMG_SIZE)])).
Proof.
  intros Hr Hsvc. destruct (reachable_inv E d Hr) as [Hph _].
  destruct (phase_settles E d Hph Hsvc) as (n & Hn & Hpc & Hl).
  exists n. split; [exact Hn|]. split; [exact Hpc|]. exact Hl.
Qed.

Lemma returns_to_listening_witness :
  exists n, (n <= 7)%nat /\
    let d' := main_steps echo_engine n image_receive_failed in
    pc d' = L308 /\ rx_complete d' = 0 /\ rx_error d' = 0 /\
    ((app_state d' = STATE_WAIT_START /\
      rx_pending d' = [(BUF_start_cmd, 5%nat)]) \/
     (app_state d' = STATE_RECEIVE_IMAGE /\
      rx_pending d' = [(BUF_img, IMG_SIZE)])).
Proof.
  apply (returns_to_listening echo_engine image_receive_failed).
  - exists [], (repeat EvMain 5 ++ [EvRxCplt START; EvRxError [9; 9; 9]]).
    vm_compute. reflexivity.
  - vm_compute. reflexivity.
Defined.

(** ** One whole transaction *)

Lemma fill_all (old data : list Z) :
  length data = length old -> fill old data = data.
Proof.
  intros Hlen. unfold fill. rewrite drop_ge by lia. apply app_nil_r.
Qed.

Section Transaction.

Variable E : Engine.

(** START arrives while the device waits for a command. *)
Lemma start_event (d : Device) :
  app_state d = STATE_WAIT_START ->
  rx_pending d = [(BUF_start_cmd, 5%nat)] ->
  exists d1, step E (EvRxCplt START) d = Some d1 /\
    app_state d1 = STATE_RECEIVE_IMAGE /\
    rx_pending d1 = [(BUF_img, IMG_SIZE)] /\
    hal_calls d1 = hal_calls d ++ [Call_Receive_IT BUF_img IMG_SIZE] /\
    pc d1 = pc d /\ rx_complete d1 = rx_complete d /\
    rx_error d1 = rx_error d /\ img_buffer d1 = img_buffer d /\
    input_buffer d1 = input_buffer d /\ output_buffer d1 = output_buffer d /\
    activations d1 = activations d /\ network d1 = network d /\
    ai_input d1 = ai_input d /\ ai_output d1 = ai_output d.
Proof.
  intros Hst Hp. cbn [step]. rewrite Hp.
  change ((length START =? 5)%nat && forallb is_uint8b START) with true.
  cbv iota. eexists. split; [reflexivity|].
  unfold HAL_UART_RxCpltCallback. cbn [USART_eqb write_buf]. fields.
  rewrite Hst, memcmp_fill_START. cbn [Z.eqb]. fields. repeat split.
Qed.

(** The frame arrives while the device receives the image. *)
Lemma frame_event (d : Device) (frame : list Z) :
  app_state d = STATE_RECEIVE_IMAGE ->
  rx_pending d = [(BUF_img, IMG_SIZE)] ->
  length (img_buffer d) = IMG_SIZE ->
  length frame = IMG_SIZE -> forallb is_uint8b frame = true ->
  exists d2, step E (EvRxCplt frame) d = Some d2 /\
    app_state d2 = STATE_PROCESS_IMAGE /\ rx_complete d2 = 1 /\
    rx_pending d2 = [] /\ hal_calls d2 = hal_calls d /\
    pc d2 = pc d /\ rx_error d2 = rx_error d /\ img_buffer d2 = frame /\
    input_buffer d2 = input_buffer d /\ output_buffer d2 = output_buffer d /\
    activations d2 = activations d /\ network d2 = network d /\
    ai_input d2 = ai_input d /\ ai_output d2 = ai_output d.
Proof.
  intros Hst Hp Himg Hlen Hb. cbn [step]. rewrite Hp, Hlen, Hb.
  rewrite Nat.eqb_refl. cbn [andb]. eexists. split; [reflexivity|].
  unfold HAL_UART_RxCpltCallback. cbn [USART_eqb write_buf]. fields.
  rewrite Hst. fields. rewrite fill_all by congruence. repeat split.
Qed.

Lemma main_steps_snoc (n : nat) (d : Device) :
  main_steps E (S n) d = main_step E (main_steps E n d).
Proof.
  revert d. induction n as [|n IH]; intros d; [reflexivity|].
  rewrite (main_steps_S E (S n) d), IH. reflexivity.
Qed.

(** Lines 308-319 on a completed frame, with no error flagged. *)
Lemma answer_from_L308 (d : Device) :
  pc d = L308 -> rx_complete d <> 0 -> rx_error d = 0 ->
  rx_pending d = [] ->
  let d' := main_steps E 6 d in
  pc d' = L308 /\ listening d' /\ app_state d' = STATE_WAIT_START /\
  img_buffer d' = img_buffer d /\
  input_buffer d' = quantize (img_buffer d) (input_buffer d) /\
  hal_calls d' =
    hal_calls d ++ [Call_Transmit (response (pipeline_result E d)) 1000;
                    Call_Receive_IT BUF_start_cmd 5].
Proof.
  intros Hpc Hrc Hre Hp d'. subst d'.
  rewrite (main_steps_snoc 5 d).
  destruct (complete_block_effect E d Hpc Hrc)
    as (B1 & B2 & B3 & B4 & B5 & B6 & B7 & B8).
  revert B1 B2 B3 B4 B5 B6 B7 B8.
  generalize (main_steps E 5 d). intros d5 B1 B2 B3 B4 B5 B6 B7 B8.
  rewrite at_L319_clear by congruence.
  unfold listening. fields.
  rewrite B2, B3, B4, B5, B6, B7, B8, Hre, Hp. cbn [app].
  repeat split. left. split; reflexivity.
Qed.

End Transaction.

(** X13.  A whole transaction.  From a reachable state in which the device
    waits for a command, the events "START received" and "784-byte frame
    received" are both accepted, and [main] then needs at most seven
    statements to be back at the poll waiting for the next command.  In
    between it made exactly three HAL calls, in this order: the 784-byte
    image receive, the transmit of the pipeline's answer for that frame, the
    5-byte command receive.  The image buffer holds the frame and the tensor
    holds the frame shifted by 128. *)
Theorem transaction (E : Engine) (d : Device) (frame : list Z) :
  reachable E d ->
  app_state d = STATE_WAIT_START ->
  rx_pending d = [(BUF_start_cmd, 5%nat)] ->
  length frame = IMG_SIZE -> forallb is_uint8b frame = true ->
  exists d1 d2 n,
    step E (EvRxCplt START) d = Some d1 /\
    step E (EvRxCplt frame) d1 = Some d2 /\
    (n <= 7)%nat /\
    let d3 := main_steps E n d2 in
    pc d3 = L308 /\ app_state d3 = STATE_WAIT_START /\
    rx_complete d3 = 0 /\ rx_error d3 = 0 /\
    rx_pending d3 = [(BUF_start_cmd, 5%nat)] /\
    img_buffer d3 = frame /\
    input_buffer d3 = List.map (fun v => v - 128) frame /\
    hal_calls d3 =
      hal_calls d ++
      [Call_Receive_IT BUF_img IMG_SIZE;
       Call_Transmit (response (pipeline_result E (set_img_buffer frame d))) 1000;
       Call_Receive_IT BUF_start_cmd 5].
Proof.
  intros Hr Hst Hp Hlen Hb.
  destruct (reachable_inv E d Hr) as [Hph (Hinp & _)].
  destruct (reachable_wire E d Hr) as (_ & _ & _ & Himg).
  destruct (phase_inv_pending d Hph) as (Hpc & Hrc & Hre & _);
    [rewrite Hp; discriminate|].
  destruct (start_event E d Hst Hp)
    as (d1 & Hs1 & S1 & S2 & S3 & S4 & S5 & S6 & S7 & S8 & S9 & S10 & S11
          & S12 & S13).
  destruct (frame_event E d1 frame S1 S2) as
    (d2 & Hs2 & F1 & F2 & F3 & F4 & F5 & F6 & F7 & F8 & F9 & F10 & F11
        & F12 & F13); [congruence|exact Hlen|exact Hb|].
  assert (Hres : forall dx,
            img_buffer dx = frame -> input_buffer dx = input_buffer d2 ->
            output_buffer dx = output_buffer d2 ->
            activations dx = activations d2 -> network dx = network d2 ->
            ai_input dx = ai_input d2 -> ai_output dx = ai_output d2 ->
            pipeline_result E dx = pipeline_result E (set_img_buffer frame d))
    by (intros dx X1 X2 X3 X4 X5 X6 X7; apply pipeline_result_ext; fields;
        congruence).
  assert (Hq : quantize frame (input_buffer d2)
               = List.map (fun v => v - 128) frame)
    by (apply quantize_closed_form; congruence).
  assert (Hfin : forall dx,
            pc dx = L308 -> rx_complete dx = 1 -> rx_error dx = 0 ->
            rx_pending dx = [] -> hal_calls dx = hal_calls d2 ->
            img_buffer dx = frame -> input_buffer dx = input_buffer d2 ->
            output_buffer dx = output_buffer d2 ->
            activations dx = activations d2 -> network dx = network d2 ->
            ai_input dx = ai_input d2 -> ai_output dx = ai_output d2 ->
            let d3 := main_steps E 6 dx in
            pc d3 = L308 /\ app_state d3 = STATE_WAIT_START /\
            rx_complete d3 = 0 /\ rx_error d3 = 0 /\
            rx_pending d3 = [(BUF_start_cmd, 5%nat)] /\
            img_buffer d3 = frame /\
            input_buffer d3 = List.map (fun v => v - 128) frame /\
            hal_calls d3 =
              hal_calls d ++
              [Call_Receive_IT BUF_img IMG_SIZE;
               Call_Transmit
                 (response (pipeline_result E (set_img_buffer frame d))) 1000;
               Call_Receive_IT BUF_start_cmd 5]).
  { intros dx X1 X2 X3 X4 X5 X6 X7 X8 X9 X10 X11 X12 d3.
    destruct (answer_from_L308 E dx X1) as (A1 & A2 & A3 & A4 & A5 & A6);
      [rewrite X2; discriminate|exact X3|exact X4|].
    fold d3 in A1, A2, A3, A4, A5, A6.
    destruct A2 as (A21 & A22 & A23).
    rewrite (Hres dx) in A6 by assumption.
    rewrite X5, F4, S3, <- app_assoc in A6. cbn [app] in A6.
    rewrite X6, X7, Hq in A5. rewrite X6 in A4.
    repeat (split; [assumption|]).
    split; [|split; [exact A4|split; [exact A5|exact A6]]].
    destruct A23 as [[_ A]|[A _]]; [exact A|congruence]. }
  exists d1, d2.
  destruct Hpc as [Hpc|Hpc].
  - exists 6%nat. split; [exact Hs1|]. split; [exact Hs2|]. split; [lia|].
    apply Hfin; try reflexivity; congruence.
  - exists 7%nat. split; [exact Hs1|]. split; [exact Hs2|]. split; [lia|].
    rewrite (main_steps_S E 6 d2).
    rewrite (at_L319_clear E d2) by congruence.
    apply Hfin; fields; try reflexivity; congruence.
Qed.

Lemma transaction_witness :
  exists d1 d2 n,
    step echo_engine (EvRxCplt START) booted_echo = Some d1 /\
    step echo_engine (EvRxCplt sample_frame) d1 = Some d2 /\
    (n <= 7)%nat /\
    let d3 := main_steps echo_engine n d2 in
    pc d3 = L308 /\ app_state d3 = STATE_WAIT_START /\
    rx_complete d3 = 0 /\ rx_error d3 = 0 /\
    rx_pending d3 = [(BUF_start_cmd, 5%nat)] /\
    img_buffer d3 = sample_frame /\
    input_buffer d3 = List.map (fun v => v - 128) sample_frame /\
    hal_calls d3 =
      hal_calls booted_echo ++
      [Call_Receive_IT BUF_img IMG_SIZE;
       Call_Transmit
         (response (pipeline_result echo_engine
                      (set_img_buffer sample_frame booted_echo))) 1000;
       Call_Receive_IT BUF_start_cmd 5].
Proof.
  apply (transaction echo_engine booted_echo sample_frame).
  - exists [], (repeat EvMain 5). vm_compute. reflexivity.
  - reflexivity.
  - reflexivity.
  - reflexivity.
  - reflexivity.
Defined.

(** ** What the protocol state means *)

Section AppState.

Variable E : Engine.

Lemma app_inv_power_on (act : list Z) : app_inv (power_on act).
Proof. repeat split; intros; try contradiction; reflexivity. Qed.

Lemma app_inv_quiet (d d' : Device) :
  app_inv d -> app_state d' = app_state d ->
  rx_complete d' = rx_complete d -> rx_error d' = rx_error d ->
  (in_boot (pc d') = true -> pc d' <> L295 ->
   in_boot (pc d) = true /\ pc d <> L295) ->
  app_inv d'.
Proof.
  intros (H1 & H2 & H3) Hst Hrc Hre Hb. unfold app_inv.
  rewrite Hst, Hrc, Hre. split; [exact H1|]. split; [exact H2|].
  intros B1 B2. destruct (Hb B1 B2) as [B3 B4]. exact (H3 B3 B4).
Qed.

Lemma app_inv_clear (d d' : Device) :
  rx_complete d' = 0 -> rx_error d' = 0 -> in_boot (pc d') = false ->
  app_inv d'.
Proof.
  intros Hrc Hre Hb. unfold app_inv. rewrite Hrc, Hre, Hb.
  repeat split; intros; try contradiction; discriminate.
Qed.

Lemma app_inv_main (d : Device) :
  phase_inv d -> app_inv d -> app_inv (main_step E d).
Proof.
  intros Hph H. unfold phase_inv in Hph. destruct (pc d) eqn:Hpc.
  - pose proof (AI_Init_frame E d) as Hfr. cbv zeta in Hfr.
    destruct Hfr as (_ & Hst & Hrc & Hre & _).
    destruct (Z.eq_dec (snd (AI_Init E d)) 0) as [Hr|Hr];
      [rewrite at_L274_ok by assumption|rewrite at_L274_failed by assumption];
      apply (app_inv_quiet d); fields; auto;
      intros _ _; rewrite Hpc; (split; [reflexivity|discriminate]).
  - rewrite at_L277 by assumption. apply (app_inv_quiet d); auto.
    intros _ _. rewrite Hpc. split; [reflexivity|discriminate].
  - rewrite at_L280 by assumption. exact H.
  - rewrite at_L284 by assumption. apply (app_inv_quiet d); auto.
    intros _ _. rewrite Hpc. split; [reflexivity|discriminate].
  - rewrite at_L289 by assumption. apply (app_inv_quiet d); auto.
    intros _ _. rewrite Hpc. split; [reflexivity|discriminate].
  - rewrite at_L294 by assumption. destruct Hph as (_ & Hrc & Hre).
    unfold app_inv. fields. rewrite Hrc, Hre.
    repeat split; intros; contradiction.
  - rewrite at_L295 by assumption. destruct Hph as (_ & Hrc & Hre & _).
    apply (app_inv_clear d); auto.
  - unfold main_step. rewrite Hpc.
    destruct (negb _); apply (app_inv_quiet d); auto; discriminate.
  - rewrite at_L310 by assumption. destruct Hph as (_ & Hre).
    apply (app_inv_clear d); auto.
  - rewrite at_L311 by assumption. destruct Hph as (_ & Hrc & Hre).
    pose proof (ProcessInference_frame E d) as Hfr. cbv zeta in Hfr.
    destruct Hfr as (_ & _ & Fc & Fe & _).
    apply (app_inv_clear d); fields; first [reflexivity|congruence].
  - rewrite at_L314 by assumption. destruct Hph as (_ & Hrc & Hre).
    apply (app_inv_clear d); auto.
  - rewrite at_L315 by assumption. destruct Hph as (_ & Hrc & Hre & _).
    apply (app_inv_clear d); auto.
  - unfold main_step. rewrite Hpc.
    destruct (negb _); apply (app_inv_quiet d); auto; discriminate.
  - rewrite at_L321 by assumption. destruct Hph as (_ & Hrc).
    apply (app_inv_clear d); auto.
  - rewrite at_L324 by assumption. destruct Hph as (_ & Hrc & Hre).
    apply (app_inv_clear d); auto.
  - rewrite at_L325 by assumption. destruct Hph as (_ & Hrc & Hre & _).
    apply (app_inv_clear d); auto.
Qed.

Lemma app_inv_step (e : Event) (d d' : Device) :
  phase_inv d -> app_inv d -> step E e d = Some d' -> app_inv d'.
Proof.
  intros Hph H Hs. destruct e as [|data|partial]; cbn [step] in Hs.
  - injection Hs as <-. apply app_inv_main; assumption.
  - destruct (rx_pending d) as [|[buf size] rest] eqn:Hp; [discriminate|].
    destruct (_ && _); [|discriminate]. injection Hs as <-.
    destruct (phase_inv_pending d Hph) as (Hpc & Hrc & Hre & _);
      [rewrite Hp; discriminate|].
    unfold app_inv. rewrite RxCplt_pc, write_buf_pc. cbn [pc set_hal].
    unfold HAL_UART_RxCpltCallback. cbn [USART_eqb].
    assert (Hb : in_boot (pc d) = false)
      by (destruct Hpc as [-> | ->]; reflexivity).
    rewrite Hb.
    destruct buf; cbn [write_buf]; fields; destruct (app_state d);
      try destruct (_ =? 0); fields; rewrite ?Hrc, ?Hre;
      repeat split; intros; try contradiction; try discriminate;
      reflexivity.
  - destruct (rx_pending d) as [|[buf size] rest] eqn:Hp; [discriminate|].
    destruct (_ && _); [|discriminate]. injection Hs as <-.
    destruct (phase_inv_pending d Hph) as (Hpc & Hrc & Hre & _);
      [rewrite Hp; discriminate|].
    unfold app_inv. rewrite Error_pc, write_buf_pc. cbn [pc set_hal].
    unfold HAL_UART_ErrorCallback. cbn [USART_eqb].
    assert (Hb : in_boot (pc d) = false)
      by (destruct Hpc as [-> | ->]; reflexivity).
    rewrite Hb.
    destruct buf; cbn [write_buf]; fields; rewrite ?Hrc;
      repeat split; intros; try contradiction; try discriminate.
Qed.

Lemma reachable_app (d : Device) : reachable E d -> app_inv d.
Proof.
  intros (act & evs & Hrun).
  assert (Hboth : phase_inv d /\ app_inv d); [|exact (proj2 Hboth)].
  apply (run_preserves E (fun s => phase_inv s /\ app_inv s)
           ltac:(intros e s s' [H1 H2] Hs; split;
                 [exact (phase_inv_step E e s s' H1 Hs)
                 |exact (app_inv_step e s s' H1 H2 Hs)])
           evs (power_on act) d); [|exact Hrun].
  split; [exact (proj1 (inv_power_on E act))|apply app_inv_power_on].
Qed.

End AppState.

(** X14.  What the protocol state and the flags mean in a reachable state.
    The two flags are never raised together.  While [rx_complete] is raised
    the state is STATE_PROCESS_IMAGE; while [rx_error] is raised it is
    STATE_IDLE; before start-up sets the first state it is STATE_IDLE.
    While a receive is outstanding both flags are clear, [main] is at one of
    its two polls, and the state names the request: STATE_WAIT_START with
    the 5-byte command receive, STATE_RECEIVE_IMAGE with the 784-byte image
    receive. *)
Theorem state_meaning (E : Engine) (d : Device) :
  reachable E d ->
  (rx_complete d = 0 \/ rx_error d = 0) /\
  (rx_complete d <> 0 -> app_state d = STATE_PROCESS_IMAGE) /\
  (rx_error d <> 0 -> app_state d = STATE_IDLE) /\
  (in_boot (pc d) = true -> pc d <> L295 -> app_state d = STATE_IDLE) /\
  (rx_pending d <> [] ->
     rx_complete d = 0 /\ rx_error d = 0 /\ (pc d = L308 \/ pc d = L319) /\
     ((app_state d = STATE_WAIT_START /\
       rx_pending d = [(BUF_start_cmd, 5%nat)]) \/
      (app_state d = STATE_RECEIVE_IMAGE /\
       rx_pending d = [(BUF_img, IMG_SIZE)]))).
Proof.
  intros Hr.
  destruct (reachable_inv E d Hr) as [Hph _].
  destruct (reachable_app E d Hr) as (A1 & A2 & A3).
  split; [exact (flags_exclusive E d Hr)|].
  split; [exact A1|]. split; [exact A2|]. split; [exact A3|].
  intros Hp. destruct (phase_inv_pending d Hph Hp) as (Hpc & Hrc & Hre & Hl).
  repeat split; assumption.
Qed.

Lemma state_meaning_witness :
  let d := image_receive_failed in
  (rx_complete d = 0 \/ rx_error d = 0) /\
  (rx_complete d <> 0 -> app_state d = STATE_PROCESS_IMAGE) /\
  (rx_error d <> 0 -> app_state d = STATE_IDLE) /\
  (in_boot (pc d) = true -> pc d <> L295 -> app_state d = STATE_IDLE) /\
  (rx_pending d <> [] ->
     rx_complete d = 0 /\ rx_error d = 0 /\ (pc d = L308 \/ pc d = L319) /\
     ((app_state d = STATE_WAIT_START /\
       rx_pending d = [(BUF_start_cmd, 5%nat)]) \/
      (app_state d = STATE_RECEIVE_IMAGE /\
       rx_pending d = [(BUF_img, IMG_SIZE)]))).
Proof.
  apply (state_meaning echo_engine image_receive_failed).
  exists [], (repeat EvMain 5 ++ [EvRxCplt START; EvRxError [9; 9; 9]]).
  vm_compute. reflexivity.
Defined.

(** * network.c *)

(** ** Giving the arrays their addresses *)

Lemma every_array_in_a_table (a : Network.ArrayId) :
  (exists off, In (a, off) Network.weight_offsets) \/
  (exists off, In (a, off) Network.activation_offsets).
Proof.
  destruct a;
    first [left; eexists; cbn; repeat (first [left; reflexivity|right]); fail
          |right; eexists; cbn; repeat (first [left; reflexivity|right]); fail].
Qed.

Lemma array_bytes_pos (a : Network.ArrayId) : 0 < Network.array_bytes a.
Proof. destruct a; reflexivity. Qed.

(** An address inside a buffer that lies in the address space above the
    null address is not changed by [AI_PTR], and is not null. *)
Lemma AI_PTR_in_buffer (base size off : Z) :
  0 < base -> base + size <= Network.ADDRESS_SPACE ->
  0 <= off < size ->
  Network.AI_PTR (base + off) = base + off /\
  Network.AI_PTR (base + off) <> Network.NULL.
Proof.
  intros Hb Hs Ho. unfold Network.AI_PTR, Network.NULL.
  rewrite Z.mod_small by lia. split; [reflexivity|lia].
Qed.

(** X15.  [ai_network_init] returns true exactly when the platform gave a
    context, both address maps and a successful post-init.  Without a
    context nothing is touched.  With one, each configure function is run
    whatever the other returned: every array of its table gets [data] and
    [data_start] equal to [AI_PTR] of the base of its buffer plus the offset
    of the table (a sum on 32 bits), and the offset leaves room for the
    bytes of the array inside the buffer (109176 bytes of weights, 9712
    bytes of activations); weights are flagged constant, activations keep
    their flag.  The bases are not checked.  When both buffers lie in the
    address space above the null address, a successful init leaves no
    array with a null address, and each array occupies bytes of its own
    buffer.  With a null weights base the array at offset 0,
    [conv2d_0_weights_array], is left with the null address, whatever the
    init returns. *)
Theorem ai_network_init_result
    (net_ctx post_init : bool) (wmap amap : option Z) (st : Network.Arrays) :
  let r := Network.ai_network_init net_ctx wmap amap post_init st in
  (fst r = true <->
     net_ctx = true /\ wmap <> None /\ amap <> None /\ post_init = true) /\
  (net_ctx = false -> snd r = st) /\
  (forall wb a off,
     net_ctx = true -> wmap = Some wb -> In (a, off) Network.weight_offsets ->
     Network.data (snd r a) = Network.AI_PTR (wb + off) /\
     Network.data_start (snd r a) = Network.AI_PTR (wb + off) /\
     Network.is_const (snd r a) = true /\
     0 <= off /\ off + Network.array_bytes a <= Network.WEIGHTS_SIZE) /\
  (forall ab a off,
     net_ctx = true -> amap = Some ab ->
     In (a, off) Network.activation_offsets ->
     Network.data (snd r a) = Network.AI_PTR (ab + off) /\
     Network.data_start (snd r a) = Network.AI_PTR (ab + off) /\
     Network.is_const (snd r a) = Network.is_const (st a) /\
     0 <= off /\ off + Network.array_bytes a <= Network.ACTIVATIONS_SIZE) /\
  (forall wb ab a,
     fst r = true -> wmap = Some wb -> amap = Some ab ->
     0 < wb -> wb + Network.WEIGHTS_SIZE <= Network.ADDRESS_SPACE ->
     0 < ab -> ab + Network.ACTIVATIONS_SIZE <= Network.ADDRESS_SPACE ->
     Network.data (snd r a) <> Network.NULL /\
     Network.data_start (snd r a) = Network.data (snd r a) /\
     ((wb <= Network.data (snd r a) /\
       Network.data (snd r a) + Network.array_bytes a
         <= wb + Network.WEIGHTS_SIZE) \/
      (ab <= Network.data (snd r a) /\
       Network.data (snd r a) + Network.array_bytes a
         <= ab + Network.ACTIVATIONS_SIZE))) /\
  (net_ctx = true -> wmap = Some Network.NULL ->
   Network.data (snd r Network.conv2d_0_weights_array) = Network.NULL).
Proof.
  intros r.
  assert (Hw : forall wb a off,
            net_ctx = true -> wmap = Some wb ->
            In (a, off) Network.weight_offsets ->
            Network.data (snd r a) = Network.AI_PTR (wb + off) /\
            Network.data_start (snd r a) = Network.AI_PTR (wb + off) /\
            Network.is_const (snd r a) = true /\
            0 <= off /\ off + Network.array_bytes a <= Network.WEIGHTS_SIZE).
  { intros wb a off -> -> Hin. subst r. cbn in Hin.
    destruct amap as [ab|];
      repeat (destruct Hin as [[= <- <-]|Hin];
              [cbn; repeat split;
               cbv [Network.array_bytes Network.array_size Network.array_format
                    Network.elem_bytes Network.WEIGHTS_SIZE
                    Network.ACTIVATIONS_SIZE]; lia|]);
      destruct Hin. }
  assert (Ha : forall ab a off,
            net_ctx = true -> amap = Some ab ->
            In (a, off) Network.activation_offsets ->
            Network.data (snd r a) = Network.AI_PTR (ab + off) /\
            Network.data_start (snd r a) = Network.AI_PTR (ab + off) /\
            Network.is_const (snd r a) = Network.is_const (st a) /\
            0 <= off /\
            off + Network.array_bytes a <= Network.ACTIVATIONS_SIZE).
  { intros ab a off -> -> Hin. subst r. cbn in Hin.
    destruct wmap as [wb|];
      repeat (destruct Hin as [[= <- <-]|Hin];
              [cbn; repeat split;
               cbv [Network.array_bytes Network.array_size Network.array_format
                    Network.elem_bytes Network.WEIGHTS_SIZE
                    Network.ACTIVATIONS_SIZE]; lia|]);
      destruct Hin. }
  split; [|split; [|split; [exact Hw|split; [exact Ha|split]]]].
  - subst r. unfold Network.ai_network_init.
    destruct net_ctx, wmap, amap, post_init; cbn;
      (split; [intros H; try discriminate H; repeat split; discriminate
              |intros (H1 & H2 & H3 & H4);
               try discriminate; try contradiction; reflexivity]).
  - intros ->. reflexivity.
  - intros wb ab a Hok Hwm Ham Hwb Hwe Hab Hae.
    assert (Hc : net_ctx = true).
    { subst r. unfold Network.ai_network_init in Hok.
      destruct net_ctx; [reflexivity|discriminate Hok]. }
    pose proof (array_bytes_pos a) as Hpos.
    destruct (every_array_in_a_table a) as [[off Hin]|[off Hin]].
    + destruct (Hw wb a off Hc Hwm Hin) as (Hd & Hds & _ & Hoff & Hsz).
      destruct (AI_PTR_in_buffer wb Network.WEIGHTS_SIZE off Hwb Hwe
                  ltac:(lia)) as [Heq Hnz].
      rewrite Hds, Hd. split; [exact Hnz|]. split; [reflexivity|].
      left. rewrite Heq. lia.
    + destruct (Ha ab a off Hc Ham Hin) as (Hd & Hds & _ & Hoff & Hsz).
      destruct (AI_PTR_in_buffer ab Network.ACTIVATIONS_SIZE off Hab Hae
                  ltac:(lia)) as [Heq Hnz].
      rewrite Hds, Hd. split; [exact Hnz|]. split; [reflexivity|].
      right. rewrite Heq. lia.
  - intros Hc Hwm.
    destruct (Hw Network.NULL Network.conv2d_0_weights_array 0 Hc Hwm
                ltac:(left; reflexivity)) as (-> & _).
    reflexivity.
Qed.

Lemma ai_network_init_result_witness :
  let r := Network.ai_network_init true (Some 134217728) (Some 536870912)
             true Network.declared in
  Network.data (snd r Network.gemm_5_weights_array) <> Network.NULL /\
  Network.data_start (snd r Network.gemm_5_weights_array)
    = Network.data (snd r Network.gemm_5_weights_array) /\
  ((134217728 <= Network.data (snd r Network.gemm_5_weights_array) /\
    Network.data (snd r Network.gemm_5_weights_array)
      + Network.array_bytes Network.gemm_5_weights_array
      <= 134217728 + Network.WEIGHTS_SIZE) \/
   (536870912 <= Network.data (snd r Network.gemm_5_weights_array) /\
    Network.data (snd r Network.gemm_5_weights_array)
      + Network.array_bytes Network.gemm_5_weights_array
      <= 536870912 + Network.ACTIVATIONS_SIZE)).
Proof.
  apply (ai_network_init_result true true (Some 134217728) (Some 536870912)
           Network.declared).
  - reflexivity.
  - reflexivity.
  - reflexivity.
  - lia.
  - vm_compute. discriminate.
  - lia.
  - vm_compute. discriminate.
Defined.

(** A successful init that leaves a null array: the bases are not checked,
    so with the weights buffer at address 0 the first weight array keeps the
    null pointer it was declared with. *)
Example null_base_leaves_null_array :
  let r := Network.ai_network_init true (Some Network.NULL) (Some 536870912)
             true Network.declared in
  fst r = true /\
  Network.data (snd r Network.conv2d_0_weights_array) = Network.NULL.
Proof. vm_compute. split; reflexivity. Qed.

(** ** The layout of the two buffers *)

(** X16.  The eight weight arrays tile the weights buffer: any two of them
    occupy disjoint bytes, and every byte of the 109176 belongs to one of
    them. *)
Theorem weights_tile_buffer :
  (forall a oa b ob,
     In (a, oa) Network.weight_offsets -> In (b, ob) Network.weight_offsets ->
     a <> b ->
     oa + Network.array_bytes a <= ob \/ ob + Network.array_bytes b <= oa) /\
  (forall k, 0 <= k < Network.WEIGHTS_SIZE ->
     exists a off, In (a, off) Network.weight_offsets /\
                   off <= k < off + Network.array_bytes a).
Proof.
  split.
  - intros a oa b ob Ha Hb Hne. cbn in Ha, Hb.
    repeat (destruct Ha as [[= <- <-]|Ha]); try destruct Ha;
      repeat (destruct Hb as [[= <- <-]|Hb]); try destruct Hb;
      try contradiction;
      cbv [Network.array_bytes Network.array_size Network.array_format
                    Network.elem_bytes Network.WEIGHTS_SIZE
                    Network.ACTIVATIONS_SIZE]; lia.
  - intros k Hk. unfold Network.WEIGHTS_SIZE in Hk.
    assert (Hcase : k < 144 \/ 144 <= k < 208 \/ 208 <= k < 4816 \/
                    4816 <= k < 4944 \/ 4944 <= k < 107344 \/
                    107344 <= k < 107856 \/ 107856 <= k < 109136 \/
                    109136 <= k) by lia.
    destruct Hcase as [H|[H|[H|[H|[H|[H|[H|H]]]]]]].
    + exists Network.conv2d_0_weights_array, 0.
      split; [cbn; tauto|cbv [Network.array_bytes Network.array_size Network.array_format
             Network.elem_bytes Network.WEIGHTS_SIZE
             Network.ACTIVATIONS_SIZE]; lia].
    + exists Network.conv2d_0_bias_array, 144.
      split; [cbn; tauto|cbv [Network.array_bytes Network.array_size Network.array_format
             Network.elem_bytes Network.WEIGHTS_SIZE
             Network.ACTIVATIONS_SIZE]; lia].
    + exists Network.conv2d_2_weights_array, 208.
      split; [cbn; tauto|cbv [Network.array_bytes Network.array_size Network.array_format
             Network.elem_bytes Network.WEIGHTS_SIZE
             Network.ACTIVATIONS_SIZE]; lia].
    + exists Network.conv2d_2_bias_array, 4816.
      split; [cbn; tauto|cbv [Network.array_bytes Network.array_size Network.array_format
             Network.elem_bytes Network.WEIGHTS_SIZE
             Network.ACTIVATIONS_SIZE]; lia].
    + exists Network.gemm_5_weights_array, 4944.
      split; [cbn; tauto|cbv [Network.array_bytes Network.array_size Network.array_format
             Network.elem_bytes Network.WEIGHTS_SIZE
             Network.ACTIVATIONS_SIZE]; lia].
    + exists Network.gemm_5_bias_array, 107344.
      split; [cbn; tauto|cbv [Network.array_bytes Network.array_size Network.array_format
             Network.elem_bytes Network.WEIGHTS_SIZE
             Network.ACTIVATIONS_SIZE]; lia].
    + exists Network.gemm_6_weights_array, 107856.
      split; [cbn; tauto|cbv [Network.array_bytes Network.array_size Network.array_format
             Network.elem_bytes Network.WEIGHTS_SIZE
             Network.ACTIVATIONS_SIZE]; lia].
    + exists Network.gemm_6_bias_array, 109136.
      split; [cbn; tauto|cbv [Network.array_bytes Network.array_size Network.array_format
             Network.elem_bytes Network.WEIGHTS_SIZE
             Network.ACTIVATIONS_SIZE]; lia].
Qed.

Lemma weights_tile_buffer_witness :
  exists a off, In (a, off) Network.weight_offsets /\
                off <= 107343 < off + Network.array_bytes a.
Proof.
  apply (proj2 weights_tile_buffer 107343). unfold Network.WEIGHTS_SIZE. lia.
Defined.

(** X17.  In the shared activations buffer, within every layer the scratch
    arrays are kept apart from the arrays the layer reads and writes, and
    from each other: a scratch tensor of a layer never shares a byte with an
    input tensor, an output tensor or another scratch tensor of that
    layer. *)
Theorem scratch_is_private (l : Network.LayerId)
    (s t : Network.TensorId) :
  In s (Network.layer_scratch l) ->
  In t (Network.layer_inputs l ++ Network.layer_outputs l ++
        Network.layer_scratch l) ->
  s <> t ->
  Network.ranges_disjoint
    (Network.activation_range (Network.tensor_array s))
    (Network.activation_range (Network.tensor_array t)) = true.
Proof.
  intros Hs Ht Hne.
  destruct l; cbn in Hs, Ht;
    repeat (destruct Hs as [<-|Hs]); try destruct Hs;
    repeat (destruct Ht as [<-|Ht]); try destruct Ht;
    try contradiction; reflexivity.
Qed.

Lemma scratch_is_private_witness :
  Network.ranges_disjoint
    (Network.activation_range
       (Network.tensor_array Network.conv2d_2_scratch0))
    (Network.activation_range
       (Network.tensor_array Network.conv2d_0_output)) = true.
Proof.
  apply (scratch_is_private Network.conv2d_2_layer
           Network.conv2d_2_scratch0 Network.conv2d_0_output).
  - cbn. tauto.
  - cbn. tauto.
  - discriminate.
Defined.

(** ** The graph *)

(** X18.  The five layers form one chain: following the next layer from the
    first visits each layer once and ends at the soft-max layer, which is
    its own successor.  The first layer reads the network's input tensor,
    every later layer reads the array the layer before it writes, and the
    last layer writes the network's output tensor.  Every tensor has exactly
    as many elements as the array it is declared over. *)
Theorem layers_form_a_chain :
  Network.layers_from 5 Network.first_layer = Network.all_layers /\
  Network.layer_next Network.nl_7_layer = Network.nl_7_layer /\
  Network.layer_inputs Network.first_layer = Network.network_inputs /\
  Network.layer_outputs Network.nl_7_layer = Network.network_outputs /\
  (forall l, l <> Network.nl_7_layer ->
     List.map Network.tensor_array (Network.layer_inputs (Network.layer_next l))
     = List.map Network.tensor_array (Network.layer_outputs l)) /\
  (forall t, Network.shape_elems t
             = Network.array_size (Network.tensor_array t)).
Proof.
  split; [reflexivity|]. split; [reflexivity|]. split; [reflexivity|].
  split; [reflexivity|]. split.
  - intros l Hl. destruct l; try reflexivity. contradiction.
  - intros t. destruct t; reflexivity.
Qed.

Lemma layers_form_a_chain_witness :
  List.map Network.tensor_array
    (Network.layer_inputs (Network.layer_next Network.conv2d_2_layer))
  = List.map Network.tensor_array
      (Network.layer_outputs Network.conv2d_2_layer).
Proof.
  destruct layers_form_a_chain as (_ & _ & _ & _ & Hflow & _).
  apply Hflow. discriminate.
Defined.

(** ** The interface with main.c *)

(** X19.  The buffers of main.c fit the network's input and output tensors:
    the input tensor has [IMG_SIZE] elements in an [IMG_HEIGHT] by
    [IMG_WIDTH] shape, the output tensor has [NUM_CLASSES] elements, both
    arrays hold one-byte elements as the [int8_t] buffers do, and they are
    the two arrays flagged as I/O.  The zero point of the input tensor is
    the shift ProcessInference applies: a tensor value minus the zero point
    is the raw sample. *)
Theorem io_tensors_match_buffers :
  List.map Network.tensor_array Network.network_inputs
    = [Network.serving_default_keras_tensor0_output_array] /\
  List.map Network.tensor_array Network.network_outputs
    = [Network.nl_7_output_array] /\
  Network.array_size Network.serving_default_keras_tensor0_output_array
    = Z.of_nat IMG_SIZE /\
  Network.tensor_shape Network.serving_default_keras_tensor0_output
    = [1; 1; Z.of_nat IMG_WIDTH; Z.of_nat IMG_HEIGHT] /\
  Network.array_size Network.nl_7_output_array = Z.of_nat NUM_CLASSES /\
  Network.array_bytes Network.serving_default_keras_tensor0_output_array
    = Z.of_nat IMG_SIZE /\
  Network.array_bytes Network.nl_7_output_array = Z.of_nat NUM_CLASSES /\
  (forall a, Network.is_io a = true <->
             a = Network.serving_default_keras_tensor0_output_array \/
             a = Network.nl_7_output_array) /\
  (forall v, is_uint8 v ->
     to_int8 (v - 128) - Network.INPUT_ZERO_POINT = v).
Proof.
  repeat (split; [reflexivity|]). split.
  - intros a. destruct a; cbn; split; intros H; try discriminate H;
      try tauto; destruct H as [H|H]; discriminate H.
  - intros v Hv. destruct (quantized_sample v Hv) as [-> _].
    unfold Network.INPUT_ZERO_POINT. lia.
Qed.

Lemma io_tensors_match_buffers_witness :
  to_int8 (200 - 128) - Network.INPUT_ZERO_POINT = 200.
Proof.
  destruct io_tensors_match_buffers as (_ & _ & _ & _ & _ & _ & _ & _ & Hzp).
  apply Hzp. unfold is_uint8. lia.
Defined.
